(** * Python-programming-Lab: the lab programs checked against their specification

    The development embeds three of the repository's programs:

    - [Library]  : [Lab 3/library_inventory_manager.py] (books, the
      JSON catalog file, the menu handlers);
    - [Energy]   : [Capstone/energy_dashboard.py] (ingestion of CSV files,
      per-building aggregation, the summary report, the dashboard);
    - [Weather]  : the entry point of [Lab 4/weather_data_visualizer.py].

    Effects are written with explicit state passing: a handler takes the
    program state (objects, files on disk) and returns the new state
    together with what it printed or logged.  Python exceptions are the
    [Raise] results of a small error monad. *)

From Stdlib Require Import ZArith QArith List Bool Ascii String Lia Permutation Sorted.
From stdpp Require Import base option list strings gmap pretty.

Import ListNotations.
Local Open Scope string_scope.
Local Open Scope list_scope.

(** ** Exceptions and results *)

Inductive exn : Type :=
  | AttributeError | TypeError | ValueError | KeyError | OSError
  | JSONDecodeError | EmptyDataError | EOFError
  | UnicodeDecodeError | RecursionError | RuntimeError.

Inductive result (A : Type) : Type :=
  | Ok (a : A)
  | Raise (e : exn).
Arguments Ok {A} a.
Arguments Raise {A} e.

Definition rbind {A B : Type} (r : result A) (k : A -> result B) : result B :=
  match r with
  | Ok a => k a
  | Raise e => Raise e
  end.

Notation "x <- r ;; k" := (rbind r (fun x => k))
  (at level 100, r at next level, right associativity).

(** [for x in xs: f x], stopping at the first exception. *)
Fixpoint rmap {A B : Type} (f : A -> result B) (xs : list A) : result (list B) :=
  match xs with
  | [] => Ok []
  | x :: xs' => y <- f x ;; ys <- rmap f xs' ;; Ok (y :: ys)
  end.

Inductive level : Type := INFO | WARNING | ERROR.

(** ** Python string methods

    A [string] stands for a Python [str] whose characters have code points
    below 256; [is_space] is [str.isspace] and [lower_char] is [str.lower]
    on that range. *)

Module PyStr.

Definition is_space (c : ascii) : bool :=
  let n := nat_of_ascii c in
  (((9 <=? n) && (n <=? 13)) || ((28 <=? n) && (n <=? 32))
   || (n =? 133) || (n =? 160))%nat.

Fixpoint lstrip (s : string) : string :=
  match s with
  | EmptyString => EmptyString
  | String c s' => if is_space c then lstrip s' else s
  end.

Definition rstrip (s : string) : string := String.rev (lstrip (String.rev s)).

Definition strip (s : string) : string := rstrip (lstrip s).

Definition lower_char (c : ascii) : ascii :=
  let n := nat_of_ascii c in
  if (((65 <=? n) && (n <=? 90))
      || ((192 <=? n) && (n <=? 222) && negb (n =? 215)))%nat
  then ascii_of_nat (n + 32) else c.

Fixpoint lower (s : string) : string :=
  match s with
  | EmptyString => EmptyString
  | String c s' => String (lower_char c) (lower s')
  end.

(** [s.strip(c)] for a one-character argument. *)
Fixpoint lstrip_char (c : ascii) (s : string) : string :=
  match s with
  | EmptyString => EmptyString
  | String c' s' => if Ascii.eqb c' c then lstrip_char c s' else s
  end.

Definition strip_char (c : ascii) (s : string) : string :=
  String.rev (lstrip_char c (String.rev (lstrip_char c s))).

(** [s.replace(a, b)] for one-character arguments. *)
Fixpoint replace_char (a b : ascii) (s : string) : string :=
  match s with
  | EmptyString => EmptyString
  | String c s' => String (if Ascii.eqb c a then b else c) (replace_char a b s')
  end.

(** [t in s] on strings. *)
Fixpoint contains (t s : string) : bool :=
  String.prefix t s
  || match s with
     | EmptyString => false
     | String _ s' => contains t s'
     end.

(** [s.endswith(t)]. *)
Definition endswith (s t : string) : bool :=
  String.prefix (String.rev t) (String.rev s).

(** A string that does not begin with a blank. *)
Definition starts_clean (s : string) : Prop :=
  match s with
  | EmptyString => True
  | String c _ => is_space c = false
  end.

End PyStr.

(** ** Lab 3: the library inventory manager *)

Module Library.

(** *** The catalog file

    [json.load] yields Python values.  A field of a catalog entry is a
    string, [None], or some other value (number, boolean, list, dict) of
    which only the truth value matters to [Book.__init__]. *)

Inductive jvalue : Type :=
  | JStr (s : string)
  | JNull
  | JOther (truth : bool).

Inductive json_item : Type :=
  | JObject (fields : gmap string jvalue)
  | JNotObject.

Inductive json_doc : Type :=
  | JList (items : list json_item)
  | JNotList.

(** The ways [json.load] fails on a file without raising a
    [JSONDecodeError]: bytes that are not UTF-8 ([UnicodeDecodeError]),
    an integer literal beyond the digit limit of [int] ([ValueError]),
    nesting too deep for the decoder ([RecursionError]). *)
Inductive load_failure : Type := NotUtf8 | HugeInteger | TooDeep.

Definition exn_of (f : load_failure) : exn :=
  match f with
  | NotUtf8 => UnicodeDecodeError
  | HugeInteger => ValueError
  | TooDeep => RecursionError
  end.

(** The text of the file as [json.load] takes it: it is rejected with
    a [JSONDecodeError], it makes [json.load] fail otherwise, or it
    parses. *)
Inductive file_content : Type :=
  | Invalid
  | Unloadable (f : load_failure)
  | Parsed (doc : json_doc).

(** [content = None]: the file does not exist.  [readable]/[writable]:
    whether [open(.., 'r')] / [open(.., 'w')] succeed (else [OSError]). *)
Record disk : Type := Disk {
  content : option file_content;
  readable : bool;
  writable : bool
}.

Inductive log_event : Type :=
  | CatalogNotFound
  | CatalogLoaded (n : nat)
  | FailedToLoad (e : exn)
  | CatalogSaved (n : nat)
  | FailedToSave (e : exn)
  | FieldsRequired
  | IsbnExists (isbn : string)
  | AddedBook (shown : string)
  | UnexpectedError (e : exn).

Definition level_of (ev : log_event) : level :=
  match ev with
  | CatalogNotFound | CatalogLoaded _ | CatalogSaved _ | AddedBook _ => INFO
  | FailedToLoad _ | FailedToSave _ | FieldsRequired | IsbnExists _
  | UnexpectedError _ => ERROR
  end.

(** *** class Book *)

Record Book : Type := mkBook {
  title : string;
  author : string;
  isbn : string;
  status : string
}.

Definition truthy (v : jvalue) : bool :=
  match v with
  | JStr s => negb (String.eqb s EmptyString)
  | JNull => false
  | JOther b => b
  end.

(** [v.strip()]: only a [str] has the method. *)
Definition py_strip (v : jvalue) : result string :=
  match v with
  | JStr s => Ok (PyStr.strip s)
  | _ => Raise AttributeError
  end.

Definition valid_statusb (s : string) : bool :=
  String.eqb s "available" || String.eqb s "issued".

(** [Book.__init__(title, author, isbn, status)] *)
Definition Book_init (ti au isb st : jvalue) : result Book :=
  t <- py_strip ti ;;
  a <- py_strip au ;;
  i <- py_strip isb ;;
  s <- (if truthy st
        then (x <- py_strip st ;; Ok (PyStr.lower x))
        else Ok "available") ;;
  Ok {| title := t; author := a; isbn := i;
        status := if valid_statusb s then s else "available" |}.

(** [str(book)] *)
Definition Book_str (b : Book) : string :=
  "'" +:+ title b +:+ "' by " +:+ author b +:+ " (ISBN: " +:+ isbn b +:+ ") - "
  +:+ status b.

Definition to_dict (b : Book) : gmap string jvalue :=
  <["title" := JStr (title b)]>
  (<["author" := JStr (author b)]>
  (<["isbn" := JStr (isbn b)]>
  (<["status" := JStr (status b)]> ∅))).

Definition set_status (b : Book) (s : string) : Book :=
  {| title := title b; author := author b; isbn := isbn b; status := s |}.

(** [Book.issue]: the (possibly mutated) object and the returned flag. *)
Definition issue (b : Book) : Book * bool :=
  if String.eqb (status b) "available"
  then (set_status b "issued", true)
  else (b, false).

Definition return_book (b : Book) : Book * bool :=
  if String.eqb (status b) "issued"
  then (set_status b "available", true)
  else (b, false).

Definition is_available (b : Book) : bool := String.eqb (status b) "available".

(** *** class LibraryInventory *)

(** [Book] called with the entry unpacked as keyword arguments: unknown
    or missing keywords are a [TypeError]; [status] defaults to
    ["available"]. *)
Definition allowed_keys : gset string :=
  {[ "title"; "author"; "isbn"; "status" ]}.

Definition Book_of_item (it : json_item) : result Book :=
  match it with
  | JNotObject => Raise TypeError
  | JObject f =>
      if bool_decide (dom f ⊆ allowed_keys) then
        match f !! "title", f !! "author", f !! "isbn" with
        | Some t, Some a, Some i =>
            Book_init t a i (default (JStr "available") (f !! "status"))
        | _, _, _ => Raise TypeError
        end
      else Raise TypeError
  end.

(** [load_books]: the new [self.books] and the log, or the exception
    that escapes ([except] only names [JSONDecodeError] and [OSError]). *)
Definition load_books (d : disk) : result (list Book * list log_event) :=
  match content d with
  | None => Ok ([], [CatalogNotFound])
  | Some c =>
      if negb (readable d) then Ok ([], [FailedToLoad OSError])
      else match c with
           | Invalid => Ok ([], [FailedToLoad JSONDecodeError])
           | Unloadable f => Raise (exn_of f)
           | Parsed JNotList => Ok ([], [FailedToLoad JSONDecodeError])
           | Parsed (JList items) =>
               bs <- rmap Book_of_item items ;;
               Ok (bs, [CatalogLoaded (length bs)])
           end
  end.

(** [json.dump([b.to_dict() for b in self.books], f, indent=2)]: what
    the file holds once written. *)
Definition dump (bs : list Book) : file_content :=
  Parsed (JList (map (fun b => JObject (to_dict b)) bs)).

(** [save_books]: mode ['w'] truncates, then the whole list is dumped. *)
Definition save_books (bs : list Book) (d : disk) : disk * list log_event :=
  if writable d
  then ({| content := Some (dump bs);
           readable := readable d; writable := writable d |},
        [CatalogSaved (length bs)])
  else (d, [FailedToSave OSError]).

(** The running program: the inventory object, the disk, what was
    logged and printed so far. *)
Record state : Type := State {
  books : list Book;
  file : disk;
  logged : list log_event;
  printed : list string
}.

Definition LibraryInventory_init (d : disk) : result state :=
  r <- load_books d ;;
  Ok {| books := fst r; file := d; logged := snd r; printed := [] |}.

Definition log (evs : list log_event) (st : state) : state :=
  {| books := books st; file := file st;
     logged := logged st ++ evs; printed := printed st |}.

Definition print (ls : list string) (st : state) : state :=
  {| books := books st; file := file st;
     logged := logged st; printed := printed st ++ ls |}.

Definition save (st : state) : state :=
  let r := save_books (books st) (file st) in
  {| books := books st; file := fst r;
     logged := logged st ++ snd r; printed := printed st |}.

Definition set_books (bs : list Book) (st : state) : state :=
  {| books := bs; file := file st; logged := logged st; printed := printed st |}.

(** [search_by_isbn]: the first book with that ISBN.  Python returns a
    reference into [self.books]; here its position stands for it. *)
Fixpoint find_isbn (i : string) (bs : list Book) (k : nat) : option (nat * Book) :=
  match bs with
  | [] => None
  | b :: bs' => if String.eqb (isbn b) i then Some (k, b) else find_isbn i bs' (S k)
  end.

Definition search_by_isbn (i : string) (bs : list Book) : option (nat * Book) :=
  find_isbn (PyStr.strip i) bs 0.

Definition search_by_title (t : string) (bs : list Book) : list Book :=
  let t' := PyStr.lower (PyStr.strip t) in
  List.filter (fun b => PyStr.contains t' (PyStr.lower (title b))) bs.

Definition add_book (ti au isb : string) (st : state) : result state :=
  let t := PyStr.strip ti in
  let a := PyStr.strip au in
  let i := PyStr.strip isb in
  if String.eqb t EmptyString || String.eqb a EmptyString || String.eqb i EmptyString
  then Ok (log [FieldsRequired] st)
  else if existsb (fun b => String.eqb (isbn b) i) (books st)
  then Ok (log [IsbnExists i] st)
  else
    b <- Book_init (JStr t) (JStr a) (JStr i) (JStr "available") ;;
    Ok (log [AddedBook (Book_str b)] (save (set_books (books st ++ [b]) st))).

(** *** main: one turn of the menu loop

    The arguments of a choice are the strings [prompt_non_empty]
    returned.  An exception inside a turn is caught by [main] and
    logged as an unexpected error. *)
Inductive choice : Type :=
  | AddBook (ti au isb : string)
  | IssueBook (isb : string)
  | ReturnBook (isb : string)
  | ViewAll
  | SearchTitle (t : string)
  | SearchIsbn (isb : string)
  | InvalidChoice.

Definition handle (c : choice) (st : state) : state :=
  match c with
  | AddBook ti au isb =>
      match add_book ti au isb st with
      | Ok st' => st'
      | Raise e => log [UnexpectedError e] st
      end
  | IssueBook isb =>
      match search_by_isbn isb (books st) with
      | Some (k, b) =>
          let r := issue b in
          if snd r
          then print ["Issued: " +:+ title (fst r)]
                 (save (set_books (<[k := fst r]> (books st)) st))
          else print ["Book not found or already issued."] st
      | None => print ["Book not found or already issued."] st
      end
  | ReturnBook isb =>
      match search_by_isbn isb (books st) with
      | Some (k, b) =>
          let r := return_book b in
          if snd r
          then print ["Returned: " +:+ title (fst r)]
                 (save (set_books (<[k := fst r]> (books st)) st))
          else print ["Book not found or not issued."] st
      | None => print ["Book not found or not issued."] st
      end
  | ViewAll =>
      match books st with
      | [] => print ["The library is empty."] st
      | bs => print (EmptyString :: "=== All Books ===" :: map Book_str bs) st
      end
  | SearchTitle t =>
      match search_by_title t (books st) with
      | [] => print ["No books match that title."] st
      | bs => print (EmptyString :: "=== Search Results ===" :: map Book_str bs) st
      end
  | SearchIsbn isb =>
      match search_by_isbn isb (books st) with
      | Some (_, b) => print [Book_str b] st
      | None => print ["No book found with that ISBN."] st
      end
  | InvalidChoice => print ["Invalid choice. Please select 1-7."] st
  end.

(** The loop until choice 7 (or the end of the recorded choices). *)
Definition run (cs : list choice) (st : state) : state :=
  fold_left (fun s c => handle c s) cs st.

(** *** Statements and sample data *)

Definition valid_status (b : Book) : Prop :=
  status b = "available" \/ status b = "issued".

Definition dune : Book :=
  {| title := "Dune"; author := "Herbert"; isbn := "1"; status := "available" |}.
Definition emma : Book :=
  {| title := "Emma"; author := "Austen"; isbn := "2"; status := "issued" |}.

Definition desk : state :=
  {| books := [dune; emma];
     file := {| content := Some (dump [dune; emma]);
                readable := true; writable := true |};
     logged := []; printed := [] |}.

(** A catalog file written by hand: odd spellings of the status, an
    unknown status, no status at all. *)
Definition entry (t i : string) (st : list (string * jvalue)) : json_item :=
  JObject (list_to_map ([("title", JStr t); ("author", JStr "anon");
                         ("isbn", JStr i)] ++ st)).

Definition handwritten : disk :=
  {| content := Some (Parsed (JList
       [entry "A" "1" [("status", JStr "  ISSUED ")];
        entry "B" "2" [("status", JStr "lost")];
        entry "C" "3" [("status", JNull)];
        entry "D" "4" []]));
     readable := true; writable := true |}.

(** *** More statements *)

(** A book as the constructor leaves it: fields stripped, status valid. *)
Definition normal (b : Book) : Prop :=
  PyStr.strip (title b) = title b
  /\ PyStr.strip (author b) = author b
  /\ PyStr.strip (isbn b) = isbn b
  /\ valid_status b.

(** What identifies a book, as opposed to its status. *)
Definition identity (b : Book) : string * string * string :=
  (title b, author b, isbn b).

(** Restarting the program on the file of [st] gives the books of [st]. *)
Definition restart_agrees (st : state) : Prop :=
  exists l, load_books (file st) = Ok (books st, l).

(** *** prompt_non_empty

    The lines waiting on standard input are read until one is not
    blank; [input] at the end of the input raises [EOFError].  The
    answer or the exception, the lines left unread, and what was shown:
    the prompt of each [input] and the complaint after each blank
    line. *)
Fixpoint prompt_non_empty (label : string) (stdin : list string)
  : result string * list string * list string :=
  match stdin with
  | [] => (Raise EOFError, [], [label +:+ ": "])
  | l :: rest =>
      let s := PyStr.strip l in
      if negb (String.eqb s EmptyString) then (Ok s, rest, [label +:+ ": "])
      else
        let r := prompt_non_empty label rest in
        (fst (fst r), snd (fst r),
         (label +:+ ": ") :: (label +:+ " cannot be empty.") :: snd r)
  end.

Definition blank (l : string) : Prop := PyStr.strip l = EmptyString.

(** What was shown for [n] blank lines and one more prompt. *)
Definition shown_for (label : string) (n : nat) : list string :=
  concat (replicate n [label +:+ ": "; label +:+ " cannot be empty."])
  ++ [label +:+ ": "].

(** The first entry of [items] that [Book] rejects raises [e]. *)
Definition first_rejected (items : list json_item) (e : exn) : Prop :=
  exists pre it post,
    items = pre ++ it :: post
    /\ Forall (fun x => exists b, Book_of_item x = Ok b) pre
    /\ Book_of_item it = Raise e.

(** A catalog whose second entry carries a key [Book] does not know. *)
Definition annotated : disk :=
  {| content := Some (Parsed (JList
       [entry "A" "1" []; entry "B" "2" [("year", JOther true)]]));
     readable := true; writable := true |}.

(** A catalog entry that records the book [b]: an object with the four
    keys and no other, holding [b]'s fields. *)
Definition records (it : json_item) (b : Book) : Prop :=
  match it with
  | JObject f =>
      f !! "title" = Some (JStr (title b))
      /\ f !! "author" = Some (JStr (author b))
      /\ f !! "isbn" = Some (JStr (isbn b))
      /\ f !! "status" = Some (JStr (status b))
      /\ dom f = allowed_keys
  | JNotObject => False
  end.

(** The catalog file holds a JSON list with one entry for each book of
    [bs], in the order of [bs], and nothing else. *)
Definition catalog_of (d : disk) (bs : list Book) : Prop :=
  exists items,
    content d = Some (Parsed (JList items)) /\ Forall2 records items bs.

End Library.

(** ** Capstone: the campus energy-use dashboard *)

Module Energy.

(** *** Input: what [pd.read_csv] hands to the program

    A [kwh] cell is a number, missing ([NaN]), or text that is not a
    number.  pandas types a column as a whole: when one cell of a file's
    [kwh] column is text the column has dtype [object] and its other
    non-missing cells are text too (["10"], not [10]).

    Scope of the model.  The quantities are whole numbers ([Num z]):
    [float64] holds them and their sums exactly (as long as these stay
    below 2^53), so that a sum does not depend on the order in which
    pandas adds.  Fractional quantities, whose [float64] sums are
    rounded and do depend on that order, are outside the model; every
    statement below about equal sums is a statement about whole-number
    quantities.

    A [timestamp] cell is a string that is not empty.  [Stamp t]:
    [pd.to_datetime] accepts it in its column and reads it as [t]
    seconds since the epoch.  [BadStamp s]: [pd.to_datetime] raises on
    a column that holds it (it is no date or, from pandas 2 on, it is
    not written in the format inferred from the first cell of the
    column).  An empty cell, which [pd.to_datetime] turns into [NaT]
    without raising, is outside the model, and so is a data directory
    whose files write their timestamps in different formats: from
    pandas 2 on, line 111 raises on it although each file parses. *)

Inductive cell : Type :=
  | Num (z : Z)
  | NaN
  | Text (s : string).

Inductive stamp_cell : Type :=
  | Stamp (t : Z)
  | BadStamp (s : string).

Record Row : Type := mkRow {
  row_timestamp : stamp_cell;
  row_kwh : cell
}.

(** A file: [pd.read_csv] raises, or gives a frame with its column names
    and rows ([row_timestamp]/[row_kwh] are read only when the column
    exists; other columns play no role). *)
Inductive csv : Type :=
  | Unreadable (e : exn)
  | Frame (columns : list string) (rows : list Row).

(** The entries of [data_dir], by file name, in the order of iteration. *)
Definition directory : Type := list (string * csv).

(** [data_dir.glob("*.csv")] *)
Definition glob_csv (dir : directory) : directory :=
  List.filter (fun f => PyStr.endswith (fst f) ".csv") dir.

(** [file_path.stem]: the name without its last suffix; a name that is
    only the suffix has none. *)
Definition stem (name : string) : string :=
  if String.eqb name ".csv" then name
  else substring 0 (String.length name - 4) name.

Definition has_column (c : string) (cols : list string) : bool :=
  existsb (String.eqb c) cols.

(** *** pandas: columns of cells *)

Definition is_text (c : cell) : bool :=
  match c with Text _ => true | _ => false end.

Definition num_of (c : cell) : option Z :=
  match c with Num z => Some z | _ => None end.

(** The numbers of a column, missing cells skipped ([skipna]). *)
Definition nums (cs : list cell) : list Z := omap num_of cs.

Definition sumZ (zs : list Z) : Z := fold_right Z.add 0%Z zs.

(** [Series.sum()] as its callers can use it.  On an [object] column
    pandas adds the Python objects: the outcome is a [TypeError] or a
    concatenated [str], which the callers can neither format with
    [:.2f] nor average; both end in an exception, [Raise TypeError]
    here. *)
Definition series_sum (cs : list cell) : result Z :=
  if existsb is_text cs then Raise TypeError else Ok (sumZ (nums cs)).

Definition maxZ (zs : list Z) : option Z :=
  match zs with
  | [] => None
  | z :: zs' => Some (fold_left Z.max zs' z)
  end.

Definition minZ (zs : list Z) : option Z :=
  match zs with
  | [] => None
  | z :: zs' => Some (fold_left Z.min zs' z)
  end.

(** [Series.mean()] of the numbers; [None] is [NaN] (no number at all). *)
Definition meanZ (zs : list Z) : option Q :=
  match zs with
  | [] => None
  | _ => Some (Qmake (sumZ zs) (Pos.of_nat (length zs)))
  end.

Definition meanQ (qs : list Q) : option Q :=
  match qs with
  | [] => None
  | _ => Some (Qdiv (fold_right Qplus (inject_Z 0) qs)
                    (inject_Z (Z.of_nat (length qs))))
  end.

(** [pd.to_datetime] on one cell of a column; the column is parsed
    cell by cell (see the scope above). *)
Definition to_datetime (s : stamp_cell) : result Z :=
  match s with
  | Stamp t => Ok t
  | BadStamp _ => Raise ValueError
  end.

(** *** class MeterReading, class Building *)

Record MeterReading : Type := mkReading {
  timestamp : stamp_cell;
  kwh : cell
}.

(** [Building.df]: the empty [pd.DataFrame()], the frame of line 47
    (columns [timestamp], [kwh], default index) left behind when
    [pd.to_datetime] raises, or the frame indexed by timestamp. *)
Inductive frame : Type :=
  | EmptyDf
  | RawDf (rows : list MeterReading)
  | IndexedDf (rows : list (Z * cell)).

Record Building : Type := mkBuilding {
  name : string;
  readings : list MeterReading;
  df : frame
}.

Definition Building_init (n : string) : Building :=
  {| name := n; readings := []; df := EmptyDf |}.

Definition add_reading (r : MeterReading) (b : Building) : Building :=
  {| name := name b; readings := readings b ++ [r]; df := df b |}.

Definition set_df (f : frame) (b : Building) : Building :=
  {| name := name b; readings := readings b; df := f |}.

Definition is_nil {A : Type} (l : list A) : bool :=
  match l with [] => true | _ => false end.

(** [df.empty] *)
Definition df_empty (f : frame) : bool :=
  match f with
  | EmptyDf => true
  | RawDf rows => is_nil rows
  | IndexedDf rows => is_nil rows
  end.

(** [df['kwh']] *)
Definition kwh_column (f : frame) : list cell :=
  match f with
  | EmptyDf => []
  | RawDf rows => map kwh rows
  | IndexedDf rows => map snd rows
  end.

(** [sort_index]: ascending by timestamp.  (pandas does not promise an
    order among equal timestamps; nothing below depends on the order
    this insertion gives them.) *)
Fixpoint insert_sorted (r : Z * cell) (l : list (Z * cell)) : list (Z * cell) :=
  match l with
  | [] => [r]
  | x :: l' => if (fst r <? fst x)%Z then r :: l else x :: insert_sorted r l'
  end.

Definition sort_index (l : list (Z * cell)) : list (Z * cell) :=
  fold_right insert_sorted [] l.

(** [process_readings]: the building afterwards, and whether the call
    returned or raised. *)
Definition process_readings (b : Building) : Building * result unit :=
  match readings b with
  | [] => (b, Ok tt)
  | rs =>
      match rmap (fun r => t <- to_datetime (timestamp r) ;; Ok (t, kwh r)) rs with
      | Raise e => (set_df (RawDf rs) b, Raise e)
      | Ok rows => (set_df (IndexedDf (sort_index rows)) b, Ok tt)
      end
  end.

Definition day_of (t : Z) : Z := (t / 86400)%Z.

(** Hour of the day, [df.index.hour]. *)
Definition hour_of (t : Z) : Z := ((t mod 86400) / 3600)%Z.

(** The Sunday that closes the calendar week of day [d] (day 0 is a
    Thursday): the label of the ['W'] bin. *)
Definition week_of (d : Z) : Z := (d + (6 - (d + 3) mod 7))%Z.

(** The weekly bin of a timestamp. *)
Definition week_bin (t : Z) : Z := week_of (day_of t).

Definition zrange (lo hi : Z) (step : Z) : list Z :=
  map (fun i => (lo + step * Z.of_nat i)%Z)
      (seq 0 (Z.to_nat ((hi - lo) / step + 1))).

(** The cells of the rows whose timestamp falls in bin [k]. *)
Definition cells_in (bin : Z -> Z) (k : Z) (rows : list (Z * cell)) : list cell :=
  map snd (List.filter (fun r => (bin (fst r) =? k)%Z) rows).

Definition stamps (rows : list (Z * cell)) : list Z := map fst rows.

(** The labels of the bins of [resample]: every bin from the one of the
    earliest timestamp to the one of the latest, empty ones included. *)
Definition bins (bin : Z -> Z) (step : Z) (rows : list (Z * cell)) : list Z :=
  match minZ (stamps rows), maxZ (stamps rows) with
  | Some lo, Some hi => zrange (bin lo) (bin hi) step
  | _, _ => []
  end.

(** [resample('D').sum()]: an empty day sums to 0. *)
Definition resample_D_sum (rows : list (Z * cell)) : list (Z * Z) :=
  map (fun d => (d, sumZ (nums (cells_in day_of d rows)))) (bins day_of 1 rows).

Record week_stats : Type := mkWeek {
  w_mean : option Q;
  w_min : option Z;
  w_max : option Z;
  w_sum : Z
}.

(** [resample('W').agg(['mean', 'min', 'max', 'sum'])] *)
Definition resample_W_agg (rows : list (Z * cell)) : list (Z * week_stats) :=
  map (fun w =>
         (w, let zs := nums (cells_in week_bin w rows) in
             {| w_mean := meanZ zs; w_min := minZ zs; w_max := maxZ zs;
                w_sum := sumZ zs |}))
      (bins week_bin 7 rows).

(** [calculate_daily_totals].  [resample] needs a datetime index
    ([TypeError] on the frame of line 47); on an [object] column the
    daily sums are not numbers, reported as [Raise TypeError] like
    [series_sum]. *)
Definition calculate_daily_totals (b : Building) : result (list (Z * Z)) :=
  if df_empty (df b) then Ok []
  else match df b with
       | IndexedDf rows =>
           if existsb is_text (map snd rows) then Raise TypeError
           else Ok (resample_D_sum rows)
       | _ => Raise TypeError
       end.

Definition calculate_weekly_aggregates (b : Building) : result (list (Z * week_stats)) :=
  if df_empty (df b) then Ok []
  else match df b with
       | IndexedDf rows =>
           if existsb is_text (map snd rows) then Raise TypeError
           else Ok (resample_W_agg rows)
       | _ => Raise TypeError
       end.

(** *** class BuildingManager *)

(** A row of [combined_df]: timestamp, [kwh], owning building. *)
Record CRow : Type := mkCRow {
  c_timestamp : stamp_cell;
  c_kwh : cell;
  c_building : string
}.

(** [self.buildings] is a [dict]: iteration follows insertion order, so
    it is an association list.  [combined_df = None] is the initial
    [pd.DataFrame()], never assigned. *)
Record BuildingManager : Type := mkManager {
  buildings : list (string * Building);
  combined_df : option (list CRow)
}.

Definition BuildingManager_init : BuildingManager :=
  {| buildings := []; combined_df := None |}.

(** [d[k]] (read) and [d[k] = v]: a new key goes last, an existing key
    keeps its place. *)
Fixpoint dict_get {V : Type} (k : string) (d : list (string * V)) : option V :=
  match d with
  | [] => None
  | (k', v) :: d' => if String.eqb k' k then Some v else dict_get k d'
  end.

Fixpoint dict_set {V : Type} (k : string) (v : V) (d : list (string * V))
  : list (string * V) :=
  match d with
  | [] => [(k, v)]
  | (k', v') :: d' =>
      if String.eqb k' k then (k, v) :: d' else (k', v') :: dict_set k v d'
  end.

Inductive log_event : Type :=
  | NoCsvFiles
  | Loading (building file : string)
  | SkippingMissingColumns (file : string)
  | ErrorReading (file : string) (e : exn)
  | CombinedLoaded (n : nat)
  | SummarySaved
  | ReportSaved
  | CleanedExported
  | NoDataToVisualize
  | DashboardSaved.

Definition level_of (ev : log_event) : level :=
  match ev with
  | NoCsvFiles | NoDataToVisualize => WARNING
  | SkippingMissingColumns _ | ErrorReading _ _ => ERROR
  | _ => INFO
  end.

(** The state of the loop of [load_data]: [self.buildings] and
    [all_data] (each element a file's rows with their building). *)
Record loader : Type := mkLoader {
  l_buildings : list (string * Building);
  all_data : list (list (Row * string))
}.

Definition reading_of (r : Row) : MeterReading :=
  {| timestamp := row_timestamp r; kwh := row_kwh r |}.

(** The body of [for file_path in csv_files], with what it logs. *)
Definition load_file (f : string * csv) (st : loader) : loader * list log_event :=
  let building_name := stem (fst f) in
  match snd f with
  | Unreadable e =>
      (st, [Loading building_name (fst f); ErrorReading (fst f) e])
  | Frame cols rows =>
      if negb (has_column "timestamp" cols) || negb (has_column "kwh" cols)
      then (st, [Loading building_name (fst f); SkippingMissingColumns (fst f)])
      else
        let b0 := default (Building_init building_name)
                          (dict_get building_name (l_buildings st)) in
        let b1 := fold_left (fun b r => add_reading (reading_of r) b) rows b0 in
        let p := process_readings b1 in
        let bs := dict_set building_name (fst p) (l_buildings st) in
        match snd p with
        | Ok _ =>
            ({| l_buildings := bs;
                all_data := all_data st ++ [map (fun r => (r, building_name)) rows] |},
             [Loading building_name (fst f)])
        | Raise e =>
            ({| l_buildings := bs; all_data := all_data st |},
             [Loading building_name (fst f); ErrorReading (fst f) e])
        end
  end.

Fixpoint load_files (fs : directory) (st : loader) : loader * list log_event :=
  match fs with
  | [] => (st, [])
  | f :: fs' =>
      let r := load_file f st in
      let r' := load_files fs' (fst r) in
      (fst r', snd r ++ snd r')
  end.

(** [pd.concat(all_data, ignore_index=True)] *)
Definition combine (data : list (list (Row * string))) : list CRow :=
  map (fun x : Row * string =>
         {| c_timestamp := row_timestamp (fst x); c_kwh := row_kwh (fst x);
            c_building := snd x |})
      (concat data).

(** [load_data]: the manager afterwards, the log, and whether the call
    returned or raised.  Line 111 parses the timestamp column of the
    combined table in place, outside the [try]: a parsed cell stays as
    it is, a cell that does not parse raises out of [load_data].  The
    cells of the combined table all come from files whose own column
    parsed at line 48, so within the scope of the model (one timestamp
    format) this branch is not taken. *)
Definition load_data (dir : directory) (m : BuildingManager)
  : BuildingManager * list log_event * result unit :=
  match glob_csv dir with
  | [] => (m, [NoCsvFiles], Ok tt)
  | csv_files =>
      let r := load_files csv_files
                 {| l_buildings := buildings m; all_data := [] |} in
      let bs := l_buildings (fst r) in
      match all_data (fst r) with
      | [] => ({| buildings := bs; combined_df := combined_df m |}, snd r, Ok tt)
      | data =>
          let rows := combine data in
          let m' := {| buildings := bs; combined_df := Some rows |} in
          match rmap to_datetime (map c_timestamp rows) with
          | Ok _ => (m', snd r ++ [CombinedLoaded (length rows)], Ok tt)
          | Raise e => (m', snd r, Raise e)
          end
      end
  end.

(** *** generate_summary_report *)

Record building_stat : Type := mkStat {
  s_building : string;
  s_total : Z;
  s_average : option Q;
  s_max : option Z
}.

(** The lines of the text report, by the f-string that renders them:
    the two header lines, ["Total Campus Consumption: {:.2f} kWh"],
    ["Highest Consuming Building: {} ({:.2f} kWh)"] and
    ["Peak Load Time: {} ({} kWh by {})"]. *)
Inductive summary_line : Type :=
  | Title
  | Rule
  | TotalConsumption (total : Z)
  | HighestConsumer (building : option string) (total : Z)
  | PeakLoad (ts : stamp_cell) (quantity : cell) (building : string).

Record dashboard : Type := mkDashboard {
  trend : list (string * list (Z * Z));
  weekly_bars : list (string * option Q);
  scatter : list (string * list (Z * cell))
}.

(** What a file of the output directory holds. *)
Inductive artifact : Type :=
  | StatsTable (rows : list building_stat)
  | SummaryText (lines : list summary_line)
  | CleanedExport (table : option (list CRow))
  | DashboardImage (img : dashboard).

Abbreviation outdir := (gmap string artifact).

(** [self.combined_df.empty] *)
Definition combined_empty (m : BuildingManager) : bool :=
  match combined_df m with
  | None => true
  | Some rows => is_nil rows
  end.

Definition combined_rows (m : BuildingManager) : list CRow :=
  default [] (combined_df m).

(** The state of the loop over [self.buildings.items()]. *)
Record report_loop : Type := mkLoop {
  building_stats : list building_stat;
  highest_consumer : option string * Z
}.

Definition report_building (st : report_loop) (nb : string * Building)
  : result report_loop :=
  let building := snd nb in
  if df_empty (df building) then Ok st
  else
    total <- series_sum (kwh_column (df building)) ;;
    let zs := nums (kwh_column (df building)) in
    Ok {| building_stats :=
            building_stats st
            ++ [{| s_building := fst nb; s_total := total;
                   s_average := meanZ zs; s_max := maxZ zs |}];
          highest_consumer :=
            if (total >? snd (highest_consumer st))%Z
            then (Some (fst nb), total)
            else highest_consumer st |}.

Fixpoint rfold {A B : Type} (f : B -> A -> result B) (xs : list A) (b : B)
  : result B :=
  match xs with
  | [] => Ok b
  | x :: xs' => b' <- f b x ;; rfold f xs' b'
  end.

(** [combined_df.loc[combined_df['kwh'].idxmax()]]: the first row that
    holds the largest number; with no number at all the lookup raises. *)
Definition better (best : option CRow) (r : CRow) : option CRow :=
  match num_of (c_kwh r), best with
  | None, _ => best
  | Some z, None => Some r
  | Some z, Some r0 =>
      match num_of (c_kwh r0) with
      | Some z0 => if (z >? z0)%Z then Some r else best
      | None => Some r
      end
  end.

Definition peak_row (rows : list CRow) : result CRow :=
  match fold_left better rows None with
  | Some r => Ok r
  | None => Raise ValueError
  end.

(** Line 122: [combined_df['kwh'].sum() if not combined_df.empty else 0] *)
Definition total_consumption (m : BuildingManager) : result Z :=
  if combined_empty m then Ok 0%Z
  else series_sum (map c_kwh (combined_rows m)).

(** [generate_summary_report]: the output directory afterwards, the log,
    and the printed summary or the exception.  Writing into the output
    directory is taken to succeed. *)
Definition generate_summary_report (m : BuildingManager) (out : outdir)
  : outdir * list log_event * result (list summary_line) :=
  match total_consumption m with
  | Raise e => (out, [], Raise e)
  | Ok total_consumption =>
      match rfold report_building (buildings m)
                  {| building_stats := []; highest_consumer := (None, 0%Z) |} with
      | Raise e => (out, [], Raise e)
      | Ok lp =>
          let out1 := <["building_summary.csv" := StatsTable (building_stats lp)]> out in
          let lines :=
            [Title; Rule; TotalConsumption total_consumption;
             HighestConsumer (fst (highest_consumer lp)) (snd (highest_consumer lp))] in
          match (if combined_empty m then Ok []
                 else r <- peak_row (combined_rows m) ;;
                      Ok [PeakLoad (c_timestamp r) (c_kwh r) (c_building r)]) with
          | Raise e => (out1, [SummarySaved], Raise e)
          | Ok peak =>
              let summary_lines := lines ++ peak in
              let out2 := <["summary.txt" := SummaryText summary_lines]> out1 in
              let out3 := <["cleaned_energy_data.csv" := CleanedExport (combined_df m)]> out2 in
              (out3, [SummarySaved; ReportSaved; CleanedExported], Ok summary_lines)
          end
      end
  end.

(** *** create_dashboard *)

Definition trend_line (nb : string * Building)
  : result (list (string * list (Z * Z))) :=
  daily <- calculate_daily_totals (snd nb) ;;
  Ok (if is_nil daily then [] else [(fst nb, daily)]).

Definition weekly_bar (nb : string * Building)
  : result (list (string * option Q)) :=
  weekly <- calculate_weekly_aggregates (snd nb) ;;
  Ok (if is_nil weekly then []
      else [(fst nb, meanQ (omap (fun w => w_mean (snd w)) weekly))]).

(** [building.df.index.hour] exists on a datetime index only. *)
Definition scatter_series (nb : string * Building)
  : result (list (string * list (Z * cell))) :=
  if df_empty (df (snd nb)) then Ok []
  else match df (snd nb) with
       | IndexedDf rows => Ok [(fst nb, map (fun r => (hour_of (fst r), snd r)) rows)]
       | _ => Raise AttributeError
       end.

Definition create_dashboard (m : BuildingManager) (out : outdir)
  : outdir * list log_event * result unit :=
  if combined_empty m then (out, [NoDataToVisualize], Ok tt)
  else
    match (t <- rmap trend_line (buildings m) ;;
           w <- rmap weekly_bar (buildings m) ;;
           s <- rmap scatter_series (buildings m) ;;
           Ok {| trend := concat t; weekly_bars := concat w; scatter := concat s |}) with
    | Raise e => (out, [], Raise e)
    | Ok img => (<["dashboard.png" := DashboardImage img]> out, [DashboardSaved], Ok tt)
    end.

(** *** main: load, report, dashboard; an exception ends the run. *)
Definition main (dir : directory) (out : outdir)
  : outdir * list log_event * result (list summary_line) :=
  let '(m, log1, r1) := load_data dir BuildingManager_init in
  match r1 with
  | Raise e => (out, log1, Raise e)
  | Ok _ =>
      let '(out2, log2, r2) := generate_summary_report m out in
      match r2 with
      | Raise e => (out2, log1 ++ log2, Raise e)
      | Ok summary =>
          let '(out3, log3, r3) := create_dashboard m out2 in
          match r3 with
          | Raise e => (out3, log1 ++ log2 ++ log3, Raise e)
          | Ok _ => (out3, log1 ++ log2 ++ log3, Ok summary)
          end
      end
  end.

(** *** Statements and sample data *)

(** The manager and the log after [load_data] on a fresh manager. *)
Definition loaded (dir : directory) : BuildingManager :=
  fst (fst (load_data dir BuildingManager_init)).

Definition load_log (dir : directory) : list log_event :=
  snd (fst (load_data dir BuildingManager_init)).

(** The rows a source accepted are its readings. *)
Definition accepted_rows (m : BuildingManager) : nat :=
  list_sum (map (fun nb => length (readings (snd nb))) (buildings m)).

(** The rows of a file that passes the column check of line 86. *)
Definition usable (f : string * csv) : list Row :=
  match snd f with
  | Frame cols rows =>
      if has_column "timestamp" cols && has_column "kwh" cols then rows else []
  | Unreadable _ => []
  end.

Definition stamp_ok (s : stamp_cell) : bool :=
  match s with Stamp _ => true | BadStamp _ => false end.

Definition stamp_val (s : stamp_cell) : Z :=
  match s with Stamp t => t | BadStamp _ => 0%Z end.

(** Every timestamp cell of the usable files parses. *)
Definition stamps_parse (dir : directory) : bool :=
  forallb (fun f => forallb (fun r => stamp_ok (row_timestamp r)) (usable f))
          (glob_csv dir).

Definition crow (b : string) (r : Row) : CRow :=
  {| c_timestamp := row_timestamp r; c_kwh := row_kwh r; c_building := b |}.

(** The value a daily series holds for day [d]; a day that is not in
    the series counts as 0. *)
Definition value_on (s : list (Z * Z)) (d : Z) : Z :=
  match List.find (fun p => (fst p =? d)%Z) s with
  | Some p => snd p
  | None => 0%Z
  end.

Definition reading_ok (r : MeterReading) : bool := stamp_ok (timestamp r).

Definition parsed (rs : list MeterReading) : list (Z * cell) :=
  map (fun r => (stamp_val (timestamp r), kwh r)) rs.

(** What [process_readings] leaves in [df]. *)
Definition frame_of (rs : list MeterReading) (old : frame) : frame :=
  match rs with
  | [] => old
  | _ => if forallb reading_ok rs then IndexedDf (sort_index (parsed rs))
         else RawDf rs
  end.

(** The column check of line 86. *)
Definition passes (f : string * csv) : bool :=
  match snd f with
  | Frame cols _ => has_column "timestamp" cols && has_column "kwh" cols
  | Unreadable _ => false
  end.

(** The building of a file after lines 90-100 ran on it. *)
Definition next_building (f : string * csv) (bs : list (string * Building)) : Building :=
  let b0 := default (Building_init (stem (fst f))) (dict_get (stem (fst f)) bs) in
  let rs := readings b0 ++ map reading_of (usable f) in
  {| name := name b0; readings := rs; df := frame_of rs (df b0) |}.

Definition readings_of (n : string) (bs : list (string * Building)) : list MeterReading :=
  match dict_get n bs with
  | Some b => readings b
  | None => []
  end.

Definition total_readings (bs : list (string * Building)) : nat :=
  list_sum (map (fun nb => length (readings (snd nb))) bs).

Definition row_ok (x : Row * string) : bool := stamp_ok (row_timestamp (fst x)).

(** The readings a file contributes to the building named [n]. *)
Definition file_readings (n : string) (f : string * csv) : list MeterReading :=
  if String.eqb (stem (fst f)) n then map reading_of (usable f) else [].

Definition tagged (f : string * csv) : list (Row * string) :=
  map (fun r => (r, stem (fst f))) (usable f).

Definition files_ok (fs : directory) : bool :=
  forallb (fun f => forallb (fun r => stamp_ok (row_timestamp r)) (usable f)) fs.

Definition loader0 : loader := {| l_buildings := []; all_data := [] |}.

(** The sum of the numbers whose timestamp falls in bin [k]. *)
Definition bin_total (bin : Z -> Z) (k : Z) (rows : list (Z * cell)) : Z :=
  sumZ (nums (cells_in bin k rows)).

(** The sum a weekly table holds for the week labelled [w] (0 when the
    week is not in the table). *)
Definition week_sum_on (s : list (Z * week_stats)) (w : Z) : Z :=
  match List.find (fun p => (fst p =? w)%Z) s with
  | Some p => w_sum (snd p)
  | None => 0%Z
  end.

(** The daily-sum projection of a source holding the readings [rs]:
    [add_reading] for each, [process_readings], then
    [calculate_daily_totals]. *)
Definition daily_of (rs : list MeterReading) : result (list (Z * Z)) :=
  let b := fold_left (fun b r => add_reading r b) rs (Building_init "source") in
  let p := process_readings b in
  match snd p with
  | Raise e => Raise e
  | Ok _ => calculate_daily_totals (fst p)
  end.

(** The specification's way of putting two daily series together:
    the days of either series, in calendar order, each with the sum of
    the values the two series hold for it. *)
Fixpoint insert_day (d : Z) (days : list Z) : list Z :=
  match days with
  | [] => [d]
  | d' :: days' =>
      if (d <? d')%Z then d :: days
      else if (d =? d')%Z then days
      else d' :: insert_day d days'
  end.

Definition merge_days (s1 s2 : list (Z * Z)) : list (Z * Z) :=
  map (fun d => (d, (value_on s1 d + value_on s2 d)%Z))
      (fold_right insert_day [] (map fst s1 ++ map fst s2)).

(** C3 as the specification words it. *)
Definition daily_sum_splits_exactly (c1 c2 : list MeterReading) : Prop :=
  forall s1 s2 s,
    daily_of c1 = Ok s1 -> daily_of c2 = Ok s2 -> daily_of (c1 ++ c2) = Ok s ->
    s = merge_days s1 s2.

Definition thursday_chunk : list MeterReading :=
  [{| timestamp := Stamp 28800; kwh := Num 10 |}].
Definition sunday_chunk : list MeterReading :=
  [{| timestamp := Stamp 288000; kwh := Num 5 |}].

Definition two_columns : list string := ["timestamp"; "kwh"].

(** One file, one row, a timestamp that does not parse. *)
Definition bad_stamp_dir : directory :=
  [("A.csv", Frame two_columns [mkRow (BadStamp "yesterday") (Num 5)])].

(** A directory without any CSV file. *)
Definition no_csv_dir : directory := [("readme.txt", Unreadable OSError)].

Definition report_files : list string :=
  ["building_summary.csv"; "summary.txt"; "cleaned_energy_data.csv"].

(** The buildings the loop of the report does not skip, in the order
    of iteration, and the total the loop computes for one. *)
Definition reported (m : BuildingManager) : list (string * Building) :=
  List.filter (fun nb => negb (df_empty (df (snd nb)))) (buildings m).

Definition total_of (b : Building) : Z := sumZ (nums (kwh_column (df b))).

(** What the report's "highest consumer" line may say, given the
    buildings [P] the loop went through: a building named [n] whose
    total [t] is positive, larger than every earlier total and at
    least every later one; or no building, when no total is positive. *)
Definition highest_among (P : list (string * Building)) (hc : option string * Z) : Prop :=
  match fst hc with
  | Some n =>
      exists pre b post,
        P = pre ++ (n, b) :: post
        /\ snd hc = total_of b /\ (0 < snd hc)%Z
        /\ Forall (fun nb => (total_of (snd nb) < snd hc)%Z) pre
        /\ Forall (fun nb => (total_of (snd nb) <= snd hc)%Z) post
  | None => snd hc = 0%Z /\ Forall (fun nb => (total_of (snd nb) <= 0)%Z) P
  end.

(** C5 as the specification words it: the first of the sources with
    the largest total is the one reported. *)
Definition first_largest_reported (m : BuildingManager) : Prop :=
  forall out lines,
    snd (generate_summary_report m out) = Ok lines ->
    reported m <> [] ->
    exists pre n b post,
      reported m = pre ++ (n, b) :: post
      /\ Forall (fun nb => (total_of (snd nb) < total_of b)%Z) pre
      /\ Forall (fun nb => (total_of (snd nb) <= total_of b)%Z) post
      /\ In (HighestConsumer (Some n) (total_of b)) lines.

(** Two buildings that consumed nothing. *)
Definition idle_dir : directory :=
  [("A.csv", Frame two_columns [mkRow (Stamp 28800) (Num 0)]);
   ("B.csv", Frame two_columns [mkRow (Stamp 28800) (Num 0)])].

(** Two buildings with the same positive total. *)
Definition tie_dir : directory :=
  [("A.csv", Frame two_columns [mkRow (Stamp 28800) (Num 3); mkRow (Stamp 72000) (Num 4)]);
   ("B.csv", Frame two_columns [mkRow (Stamp 28800) (Num 7)])].

(** The loop state [load_data] starts from, and the manager it leaves
    given the state the loop ended in (lines 109-111). *)
Definition loader_of (m : BuildingManager) : loader :=
  {| l_buildings := buildings m; all_data := [] |}.

Definition manager_after (m : BuildingManager) (st : loader) : BuildingManager :=
  {| buildings := l_buildings st;
     combined_df := match all_data st with
                    | [] => combined_df m
                    | data => Some (combine data)
                    end |}.

Definition is_nan (c : cell) : bool :=
  match c with NaN => true | _ => false end.

(** C4's first part as the specification words it: a row whose quantity
    is missing is skipped and a warning is logged. *)
Definition incomplete_rows_skipped (dir : directory) : Prop :=
  forall f r,
    In f (glob_csv dir) -> In r (usable f) -> is_nan (row_kwh r) = true ->
    ~ In (crow (stem (fst f)) r) (combined_rows (loaded dir))
    /\ ~ In (reading_of r) (readings_of (stem (fst f)) (buildings (loaded dir)))
    /\ exists ev, In ev (load_log dir) /\ level_of ev = WARNING.

(** A file whose second row has no quantity. *)
Definition missing_kwh_dir : directory :=
  [("A.csv", Frame two_columns [mkRow (Stamp 28800) (Num 10);
                                mkRow (Stamp 72000) NaN])].

(** A file without the [kwh] column between two good files. *)
Definition mixed_dir : directory :=
  [("A.csv", Frame two_columns [mkRow (Stamp 28800) (Num 10)]);
   ("notes.csv", Frame ["timestamp"; "remark"] [mkRow (Stamp 28800) NaN]);
   ("B.csv", Frame two_columns [mkRow (Stamp 28800) (Num 7)])].

(** C1 as the specification words it: a row whose quantity is not a
    number is dropped (it is neither in the combined table nor among
    its source's readings) and the run still yields its report. *)
Definition unparsed_rows_dropped (dir : directory) : Prop :=
  forall f r,
    In f (glob_csv dir) -> In r (usable f) -> is_text (row_kwh r) = true ->
    ~ In (crow (stem (fst f)) r) (combined_rows (loaded dir))
    /\ ~ In (reading_of r) (readings_of (stem (fst f)) (buildings (loaded dir)))
    /\ exists lines, snd (main dir ∅) = Ok lines.

(** A file whose second quantity is not a number (so the first one is
    text as well: the column has dtype object). *)
Definition text_kwh_dir : directory :=
  [("A.csv", Frame two_columns [mkRow (Stamp 28800) (Text "10");
                                mkRow (Stamp 72000) (Text "ten")])].

(** The input without the rows whose quantity is missing. *)
Definition keep_row (r : Row) : bool := negb (is_nan (row_kwh r)).

Definition drop_missing_rows (c : csv) : csv :=
  match c with
  | Frame cols rows => Frame cols (List.filter keep_row rows)
  | Unreadable e => Unreadable e
  end.

Definition drop_missing (dir : directory) : directory :=
  map (fun f => (fst f, drop_missing_rows (snd f))) dir.

Definition keep_reading (r : MeterReading) : bool := negb (is_nan (kwh r)).

Definition has_building (n : string) (fs : directory) : bool :=
  existsb (fun f => passes f && String.eqb (stem (fst f)) n) fs.

(** *** More statements *)

Definition is_num (c : cell) : bool :=
  match c with Num _ => true | _ => false end.

(** The days of a daily series follow each other without a gap. *)
Definition consecutive (days : list Z) : Prop :=
  forall i d, days !! i = Some d ->
  forall d0, days !! 0 = Some d0 -> d = (d0 + Z.of_nat i)%Z.

Definition week_sums (w : list (Z * week_stats)) : list Z :=
  map (fun x => w_sum (snd x)) w.

Definition sample_building : Building :=
  {| name := "A";
     readings := [{| timestamp := Stamp 288000; kwh := Num 7 |};
                  {| timestamp := Stamp 28800; kwh := Num 10 |};
                  {| timestamp := Stamp 72000; kwh := NaN |}];
     df := IndexedDf [(28800, Num 10); (72000, NaN); (288000, Num 7)]%Z |}.

(** What [fold_left better] holds after going through the rows [P]:
    nothing if no row of [P] has a number, else the first row of [P]
    with the largest number. *)
Definition first_maximum (P : list CRow) (best : option CRow) : Prop :=
  match best with
  | None => Forall (fun r => is_num (c_kwh r) = false) P
  | Some r =>
      exists pre post z,
        P = pre ++ r :: post /\ c_kwh r = Num z
        /\ Forall (fun r' => forall z', c_kwh r' = Num z' -> (z' < z)%Z) pre
        /\ Forall (fun r' => forall z', c_kwh r' = Num z' -> (z' <= z)%Z) post
  end.

(** A directory with a file that cannot be read between two good ones. *)
Definition broken_dir : directory :=
  [("A.csv", Frame two_columns [mkRow (Stamp 28800) (Num 10)]);
   ("broken.csv", Unreadable EmptyDataError);
   ("B.csv", Frame two_columns [mkRow (Stamp 28800) (Num 7)])].

(** A building whose frame is what [process_readings] makes of its
    readings. *)
Definition in_step (b : Building) : Prop :=
  df b = frame_of (readings b) EmptyDf.

(** What [load_data] guarantees about a building's frame: empty while
    there are no readings; the raw frame of line 47 when a timestamp
    does not parse; else the readings indexed by parsed timestamp, in
    ascending order. *)
Definition frame_shape (b : Building) : Prop :=
  match df b with
  | EmptyDf => readings b = []
  | RawDf rs => rs = readings b /\ forallb reading_ok (readings b) = false
  | IndexedDf rows =>
      StronglySorted Z.le (map fst rows)
      /\ Permutation rows (parsed (readings b))
      /\ forallb reading_ok (readings b) = true
  end.

(** A building's entry in [self.buildings]: filed under its own name,
    which is the stem of a CSV file of [fs] that has both columns. *)
Definition keyed_by_stem (fs : directory) (nb : string * Building) : Prop :=
  name (snd nb) = fst nb
  /\ exists f, In f fs /\ passes f = true /\ stem (fst f) = fst nb.

(** The numbers among the quantities of some readings, added up. *)
Definition weight (rs : list MeterReading) : Z := sumZ (nums (map kwh rs)).

(** The "Total (kWh)" column of the statistics table, added up. *)
Definition stats_total (stats : list building_stat) : Z :=
  sumZ (map s_total stats).






(** The buildings that hold at least one reading, in the order of
    [self.buildings]. *)
Definition with_readings (m : BuildingManager) : list (string * Building) :=
  List.filter (fun nb => negb (is_nil (readings (snd nb)))) (buildings m).

(** The sums of a weekly table, by week. *)
Definition weekly_sums (w : list (Z * week_stats)) : list (Z * Z) :=
  map (fun x => (fst x, w_sum (snd x))) w.

(** The series [s] is the series [s'] with entries of sum 0 added:
    every entry of [s'] is an entry of [s], and every other entry of
    [s] has sum 0. *)
Definition zero_padded (s' s : list (Z * Z)) : Prop :=
  incl s' s /\ forall d v, In (d, v) s -> In (d, v) s' \/ v = 0%Z.

(** C8 as the specification words it: two runs over the same input
    data write the same report files, the same data being the same
    files with the same content, in whatever order the directory
    lists them. *)
Definition same_data_same_report : Prop :=
  forall (dir dir' : directory) (out : outdir),
    Permutation dir dir' ->
    Forall (fun k => fst (fst (main dir out)) !! k = fst (fst (main dir' out)) !! k)
           report_files.

(** A file whose last row, three days after the first, has no
    quantity. *)
Definition trailing_nan_dir : directory :=
  [("A.csv", Frame two_columns [mkRow (Stamp 28800) (Num 10);
                                mkRow (Stamp 288000) NaN])].

End Energy.

(** ** Lab 4: the entry point of the weather data visualizer *)

Module Weather.

Definition DATE_CANDIDATES : list string :=
  ["date"; "datetime"; "time"; "timestamp"; "day"].
Definition TEMP_CANDIDATES : list string :=
  ["temperature"; "temp"; "tavg"; "tmean"; "avg_temp"; "tmax"].
Definition RAIN_CANDIDATES : list string :=
  ["rainfall"; "rain"; "precip"; "precipitation"; "prcp"].
Definition HUMIDITY_CANDIDATES : list string := ["humidity"; "hum"; "rh"].

(** A column of the frame [pd.read_csv] returns: its header and whether
    [pd.to_datetime(.., errors="raise")] accepts its values. *)
Record column : Type := mkColumn {
  header : string;
  datetime_like : bool
}.

Inductive csv : Type :=
  | Unreadable (e : exn)
  | Table (cols : list column).

Definition normalize (h : string) : string :=
  PyStr.replace_char " "%char "_"%char (PyStr.lower (PyStr.strip h)).

Definition _normalize_columns (cols : list column) : list column :=
  map (fun c => {| header := normalize (header c); datetime_like := datetime_like c |})
      cols.

Definition in_columns (n : string) (cols : list column) : bool :=
  existsb (fun c => String.eqb (header c) n) cols.

Definition _find_first_column (cols : list column) (candidates : list string)
  : option string :=
  List.find (fun c => in_columns c cols) candidates.

(** [df[n]] is a Series only when one column bears the name; with two
    it is a frame, which [pd.to_datetime] and [pd.to_numeric] reject. *)
Definition is_series (n : string) (cols : list column) : bool :=
  (length (List.filter (fun c => String.eqb (header c) n) cols) =? 1)%nat.

Record mapping : Type := mkMapping {
  date : option string;
  temperature : option string;
  rainfall : option string;
  humidity : option string
}.

Definition known (o : option string) : list string :=
  match o with Some c => [c] | None => [] end.

(** [load_and_clean]: the columns of the cleaned frame (the date column
    has become the index) and the mapping, or the exception. *)
Definition load_and_clean (f : csv) : result (list column * mapping) :=
  match f with
  | Unreadable e => Raise e
  | Table raw =>
      let cols := _normalize_columns raw in
      let temp_col := _find_first_column cols TEMP_CANDIDATES in
      let rain_col := _find_first_column cols RAIN_CANDIDATES in
      let hum_col := _find_first_column cols HUMIDITY_CANDIDATES in
      let numeric_cols := known temp_col ++ known rain_col ++ known hum_col in
      date_col <-
        match _find_first_column cols DATE_CANDIDATES with
        | None =>
            Ok (option_map header
                  (List.find (fun c => is_series (header c) cols && datetime_like c) cols))
        | Some d => if is_series d cols then Ok (Some d) else Raise ValueError
        end ;;
      if negb (forallb (fun c => is_series c cols) numeric_cols) then Raise TypeError
      else
        match date_col with
        | None => Raise ValueError
        | Some d =>
            (* [dropna(subset=numeric_cols)] after [set_index(date_col)] *)
            if existsb (String.eqb d) numeric_cols then Raise KeyError
            else Ok (List.filter (fun c => negb (String.eqb (header c) d)) cols,
                     {| date := Some d; temperature := temp_col;
                        rainfall := rain_col; humidity := hum_col |})
        end
  end.

(** The namespace [parse_args] returned: [--csv] may be absent,
    [--outdir] has a default.  [main] is modelled from that point on:
    when argparse itself ends the program ([-h], an unknown option) no
    statement of [main] after line 360 runs. *)
Record args : Type := mkArgs {
  csv_arg : option string;
  outdir_arg : string
}.

(** What [main] meets outside the program:
    - [mkdir]: whether [Path(args.outdir).resolve()] and [outdir.mkdir]
      (lines 361-362) succeed;
    - [stdin]: the lines waiting on standard input;
    - [resolve]: [Path(csv_path).expanduser().resolve()] (line 367),
      the absolute path or the exception ([RuntimeError] for the home
      of an unknown user, [ValueError] for an embedded null byte);
    - [is_file]: [csv_file.exists()] on a resolved path;
    - [file_at]: what [pd.read_csv] gives for a resolved path. *)
Record world : Type := mkWorld {
  mkdir : string -> result unit;
  stdin : list string;
  resolve : string -> result string;
  is_file : string -> bool;
  file_at : string -> csv
}.

(** A path as the user gave it: whether it resolves to an existing
    file, and what reading that file gives. *)
Definition path_exists (w : world) (p : string) : bool :=
  match resolve w p with
  | Ok q => is_file w q
  | Raise _ => false
  end.

Definition read_csv (w : world) (p : string) : csv :=
  match resolve w p with
  | Ok q => file_at w q
  | Raise e => Unreadable e
  end.

Inductive log_event : Type :=
  | CsvDoesNotExist (path : string)
  | FailedToLoadClean (e : exn).

(** A run of [main]: the returned code or the exception that escapes,
    the prompts shown by [input], and the errors logged. *)
Record run : Type := mkRun {
  exit_code : result Z;
  prompts : list string;
  errors : list log_event
}.

(** [not csv_path] *)
Definition path_omitted (a : args) : bool :=
  match csv_arg a with
  | None => true
  | Some p => String.eqb p EmptyString
  end.

(** The path [main] settles on: the argument, or the line read from
    the prompt with blanks and double quotes stripped. *)
Definition chosen_path (a : args) (w : world) : result string :=
  if path_omitted a
  then match stdin w with
       | [] => Raise EOFError
       | l :: _ => Ok (PyStr.strip_char (ascii_of_nat 34) (PyStr.strip l))
       end
  else Ok (default EmptyString (csv_arg a)).

Section Main.

(** Everything [main] does after [load_and_clean] returned (statistics,
    plots, exports, report): it returns or raises. *)
Variable produce_outputs : list column -> mapping -> string -> result unit.

Definition main (a : args) (w : world) : run :=
  match mkdir w (outdir_arg a) with
  | Raise e => {| exit_code := Raise e; prompts := []; errors := [] |}
  | Ok _ =>
      let asked := if path_omitted a then ["Enter path to weather CSV: "] else [] in
      match chosen_path a w with
      | Raise e => {| exit_code := Raise e; prompts := asked; errors := [] |}
      | Ok csv_path =>
          match resolve w csv_path with
          | Raise e => {| exit_code := Raise e; prompts := asked; errors := [] |}
          | Ok csv_file =>
              if negb (is_file w csv_file)
              then {| exit_code := Ok 2%Z; prompts := asked;
                      errors := [CsvDoesNotExist csv_file] |}
              else
                match load_and_clean (file_at w csv_file) with
                | Raise e => {| exit_code := Ok 3%Z; prompts := asked;
                                errors := [FailedToLoadClean e] |}
                | Ok (df, m) =>
                    match produce_outputs df m (outdir_arg a) with
                    | Raise e =>
                        {| exit_code := Raise e; prompts := asked; errors := [] |}
                    | Ok _ =>
                        {| exit_code := Ok 0%Z; prompts := asked; errors := [] |}
                    end
                end
          end
      end
  end.

End Main.

(** *** Statements and sample data *)

(** What the mapping says about one key column of the cleaned frame
    [cols]: the name of exactly one column, taken from the candidates;
    or no name, when no candidate is a column. *)
Definition mapped (o : option string) (candidates : list string)
    (cols : list column) : Prop :=
  match o with
  | Some c => In c candidates /\ is_series c cols = true
  | None => forall c, In c candidates -> in_columns c cols = false
  end.

(** A table without a date: no header is a date candidate once
    normalised and no column parses as dates. *)
Definition dateless (raw : list column) : Prop :=
  Forall (fun c => datetime_like c = false
                   /\ ~ In (normalize (header c)) DATE_CANDIDATES) raw.

Definition station_table : list column :=
  [mkColumn " Date" true; mkColumn "TEMP" false; mkColumn "Rainfall " false;
   mkColumn "Station Name" false].

Definition station_world : world :=
  {| mkdir := fun _ => Ok tt; stdin := [];
     resolve := fun p => Ok ("/data/" +:+ p);
     is_file := fun _ => true;
     file_at := fun _ => Table [mkColumn "Station" false; mkColumn "Temp" false] |}.


End Weather.

(** * Properties *)

Lemma rbind_Ok {A B : Type} (r : result A) (k : A -> result B) (b : B) :
  rbind r k = Ok b -> exists a, r = Ok a /\ k a = Ok b.
Proof. destruct r as [a|e]; simpl; [eauto | discriminate]. Qed.

Lemma rmap_Forall {A B : Type} (P : B -> Prop) (f : A -> result B) :
  (forall a b, f a = Ok b -> P b) ->
  forall xs ys, rmap f xs = Ok ys -> Forall P ys.
Proof.
  intros Hf xs. induction xs as [|x xs IH]; simpl; intros ys H.
  - injection H as <-. constructor.
  - apply rbind_Ok in H as (y & Hy & H).
    apply rbind_Ok in H as (ys' & Hys & H).
    injection H as <-. constructor; eauto.
Qed.

Lemma rmap_length {A B : Type} (f : A -> result B) :
  forall xs ys, rmap f xs = Ok ys -> length ys = length xs.
Proof.
  induction xs as [|x xs IH]; simpl; intros ys H.
  - by injection H as <-.
  - apply rbind_Ok in H as (y & Hy & H).
    apply rbind_Ok in H as (ys' & Hys & H).
    injection H as <-. simpl. f_equal. eauto.
Qed.

Lemma forallb_fmap {A B : Type} (p : B -> bool) (g : A -> B) (l : list A) :
  forallb p (map g l) = forallb (fun a => p (g a)) l.
Proof. induction l as [|a l IH]; simpl; [done | by rewrite IH]. Qed.


(** ** The library inventory *)

Module LibraryFacts.
Import Library.

Lemma valid_statusb_spec (s : string) :
  valid_statusb s = true <-> s = "available" \/ s = "issued".
Proof.
  unfold valid_statusb. rewrite orb_true_iff, !String.eqb_eq. tauto.
Qed.

Lemma Book_init_valid ti au isb st b :
  Book_init ti au isb st = Ok b -> valid_status b.
Proof.
  unfold Book_init. intros H.
  apply rbind_Ok in H as (t & _ & H).
  apply rbind_Ok in H as (a & _ & H).
  apply rbind_Ok in H as (i & _ & H).
  apply rbind_Ok in H as (s & _ & H).
  injection H as <-. unfold valid_status. simpl.
  destruct (valid_statusb s) eqn:E; [by apply valid_statusb_spec | by left].
Qed.

Lemma Book_of_item_valid it b : Book_of_item it = Ok b -> valid_status b.
Proof.
  destruct it as [f|]; simpl; [|discriminate].
  destruct (bool_decide _); [|discriminate].
  destruct (f !! "title"); [|discriminate].
  destruct (f !! "author"); [|discriminate].
  destruct (f !! "isbn"); [|discriminate].
  apply Book_init_valid.
Qed.

Lemma issue_valid b : valid_status b -> valid_status (fst (issue b)).
Proof.
  unfold issue. destruct (String.eqb _ _); simpl; [by right | done].
Qed.

Lemma return_book_valid b : valid_status b -> valid_status (fst (return_book b)).
Proof.
  unfold return_book. destruct (String.eqb _ _); simpl; [by left | done].
Qed.

Lemma load_books_valid d bs l :
  load_books d = Ok (bs, l) -> Forall valid_status bs.
Proof.
  unfold load_books. intros H.
  destruct (content d) as [c|]; [|injection H as <- _; constructor].
  destruct (negb (readable d)); [injection H as <- _; constructor|].
  destruct c as [|f|[items|]]; try (injection H as <- _; constructor);
    [discriminate|].
  apply rbind_Ok in H as (bs' & Hbs & H). injection H as <- _.
  eapply rmap_Forall; [apply Book_of_item_valid | exact Hbs].
Qed.

Lemma find_isbn_lookup i bs k0 k b :
  find_isbn i bs k0 = Some (k, b) ->
  k0 <= k /\ bs !! (k - k0) = Some b /\ isbn b = i.
Proof.
  revert k0. induction bs as [|x bs IH]; simpl; intros k0 H; [discriminate|].
  destruct (String.eqb (isbn x) i) eqn:E.
  - injection H as <- <-. apply String.eqb_eq in E.
    replace (k0 - k0) with 0 by lia. auto.
  - apply IH in H as (Hle & Hl & Hi).
    replace (k - k0) with (S (k - S k0)) by lia. split; [lia | auto].
Qed.

Lemma search_by_isbn_lookup i bs k b :
  search_by_isbn i bs = Some (k, b) -> bs !! k = Some b.
Proof.
  intros H. apply find_isbn_lookup in H as (_ & H & _).
  by replace (k - 0) with k in H by lia.
Qed.

Lemma handle_valid c st :
  Forall valid_status (books st) -> Forall valid_status (books (handle c st)).
Proof.
  intros Hv. destruct c; simpl; try done.
  - destruct (add_book ti au isb st) as [st'|e] eqn:E; [|done].
    unfold add_book in E.
    destruct (_ || _ || _); [by injection E as <-|].
    destruct (existsb _ _); [by injection E as <-|].
    apply rbind_Ok in E as (b & Hb & E). injection E as <-. simpl.
    apply Forall_app. split; [done|].
    constructor; [by eapply Book_init_valid | constructor].
  - destruct (search_by_isbn isb (books st)) as [[k b]|] eqn:E; [|done].
    destruct (snd (issue b)) eqn:Ei; [|done]. simpl.
    apply Forall_insert; [done|]. apply issue_valid.
    apply search_by_isbn_lookup in E.
    eapply Forall_lookup_1; eauto.
  - destruct (search_by_isbn isb (books st)) as [[k b]|] eqn:E; [|done].
    destruct (snd (return_book b)) eqn:Ei; [|done]. simpl.
    apply Forall_insert; [done|]. apply return_book_valid.
    apply search_by_isbn_lookup in E.
    eapply Forall_lookup_1; eauto.
  - destruct (books st) eqn:E; simpl; by rewrite E.
  - by destruct (search_by_title t (books st)).
  - by destruct (search_by_isbn isb (books st)) as [[k b]|].
Qed.

Lemma run_valid cs st :
  Forall valid_status (books st) -> Forall valid_status (books (run cs st)).
Proof.
  revert st. induction cs as [|c cs IH]; intros st Hv; [done|].
  apply IH. by apply handle_valid.
Qed.

End LibraryFacts.

Module LibraryClaims.
Import Library LibraryFacts.

Lemma to_dict_records b : records (JObject (to_dict b)) b.
Proof.
  unfold records, to_dict. repeat split; by simplify_map_eq.
Qed.

Lemma dump_catalog bs d :
  content d = Some (dump bs) -> catalog_of d bs.
Proof.
  intros Hc. eexists. split; [exact Hc|].
  clear Hc. induction bs as [|b bs IH]; simpl; [constructor|].
  constructor; [apply to_dict_records | done].
Qed.

(** C6.  Issuing a book whose status is "issued" returns [False] and
    leaves the books in memory, the catalog file and the log as they
    were (only the refusal is printed).  Issuing a book whose status is
    "available" returns [True] and sets its status to "issued": the
    inventory holds, at the place of the book, the book with the same
    title, author and ISBN and the status "issued", and every other
    book as before.  The catalog file is rewritten at once: when it can
    be opened for writing it holds, whatever it held before, a list
    with exactly one entry for each book of the updated inventory, in
    order, each with the four fields of its book; when it cannot, the
    file stays as it was and the OSError is logged. *)
Theorem issue_choice_persistence (st : state) (i : string) (k : nat) (b : Book) :
  search_by_isbn i (books st) = Some (k, b) ->
  (status b = "issued" ->
     issue b = (b, false)
     /\ handle (IssueBook i) st = print ["Book not found or already issued."] st
     /\ books (handle (IssueBook i) st) = books st
     /\ file (handle (IssueBook i) st) = file st
     /\ logged (handle (IssueBook i) st) = logged st)
  /\ (status b = "available" ->
     issue b = ({| title := title b; author := author b; isbn := isbn b;
                   status := "issued" |}, true)
     /\ books (handle (IssueBook i) st) !! k
        = Some {| title := title b; author := author b; isbn := isbn b;
                  status := "issued" |}
     /\ (forall j, j <> k ->
          books (handle (IssueBook i) st) !! j = books st !! j)
     /\ length (books (handle (IssueBook i) st)) = length (books st)
     /\ (writable (file st) = true ->
         catalog_of (file (handle (IssueBook i) st))
                    (books (handle (IssueBook i) st))
         /\ logged (handle (IssueBook i) st)
            = logged st ++ [CatalogSaved (length (books st))])
     /\ (writable (file st) = false ->
         file (handle (IssueBook i) st) = file st
         /\ logged (handle (IssueBook i) st) = logged st ++ [FailedToSave OSError])).
Proof.
  intros Hs. pose proof (search_by_isbn_lookup _ _ _ _ Hs) as Hk.
  split; intros Hst; simpl; rewrite Hs; unfold issue; rewrite Hst; simpl.
  - done.
  - change (set_status b "issued")
      with {| title := title b; author := author b; isbn := isbn b;
              status := "issued" |}.
    split; [done|]. split.
    { apply list_lookup_insert_eq. by eapply lookup_lt_Some. }
    split. { intros j Hj. by apply list_lookup_insert_ne. }
    split. { by rewrite length_insert. }
    unfold save_books. split; intros Hw; rewrite Hw; simpl.
    + split; [by apply dump_catalog | by rewrite length_insert].
    + done.
Qed.

Lemma issue_choice_persistence_witness :
  (books (handle (IssueBook "2") desk) = books desk
   /\ file (handle (IssueBook "2") desk) = file desk)
  /\ books (handle (IssueBook " 1 ") desk) !! 0
     = Some {| title := "Dune"; author := "Herbert"; isbn := "1";
               status := "issued" |}
  /\ catalog_of (file (handle (IssueBook " 1 ") desk))
                (books (handle (IssueBook " 1 ") desk)).
Proof.
  split.
  - destruct (issue_choice_persistence desk "2" 1 emma eq_refl) as [H _].
    destruct (H eq_refl) as (_ & _ & H1 & H2 & _). by split.
  - destruct (issue_choice_persistence desk " 1 " 0 dune eq_refl) as [_ H].
    destruct (H eq_refl) as (_ & H1 & _ & _ & H4 & _).
    split; [exact H1 | exact (proj1 (H4 eq_refl))].
Defined.

(** C10. The status of every book is "available" or "issued": the
    constructor strips and lowercases the status it is given and turns
    anything but the two values (the empty string included) into
    "available"; [issue] and [return_book] keep a valid status valid;
    and after the catalog file was loaded, whatever it held, every book
    of the inventory has a valid status after any sequence of menu
    choices. *)
Theorem book_status_invariant :
  (forall ti au isb s : string,
     Book_init (JStr ti) (JStr au) (JStr isb) (JStr s)
     = Ok {| title := PyStr.strip ti; author := PyStr.strip au;
             isbn := PyStr.strip isb;
             status := if valid_statusb (PyStr.lower (PyStr.strip s))
                       then PyStr.lower (PyStr.strip s) else "available" |})
  /\ (forall ti au isb st b, Book_init ti au isb st = Ok b -> valid_status b)
  /\ (forall b, valid_status b ->
        valid_status (fst (issue b)) /\ valid_status (fst (return_book b)))
  /\ (forall (d : disk) (st : state) (cs : list choice),
        LibraryInventory_init d = Ok st ->
        Forall valid_status (books (run cs st))).
Proof.
  repeat split.
  - intros ti au isb s. unfold Book_init. simpl.
    destruct (String.eqb s EmptyString) eqn:E; simpl; [|done].
    apply String.eqb_eq in E. by subst s.
  - apply Book_init_valid.
  - by apply issue_valid.
  - by apply return_book_valid.
  - intros d st cs H. unfold LibraryInventory_init in H.
    apply rbind_Ok in H as ([bs l] & Hl & H). injection H as <-.
    apply run_valid. simpl. by eapply load_books_valid.
Qed.

Lemma book_status_invariant_witness :
  exists st,
    LibraryInventory_init handwritten = Ok st
    /\ map status (books st) = ["issued"; "available"; "available"; "available"]
    /\ Forall valid_status
         (books (run [IssueBook "2"; ReturnBook "1"; IssueBook "1";
                      AddBook "E" "anon" "5"; IssueBook "5"; IssueBook "5"] st)).
Proof.
  destruct (LibraryInventory_init handwritten) as [st|e] eqn:E;
    [|vm_compute in E; discriminate].
  exists st. split; [reflexivity|]. split.
  - vm_compute in E. injection E as <-. reflexivity.
  - exact (proj2 (proj2 (proj2 book_status_invariant)) handwritten st _ E).
Defined.

End LibraryClaims.

(** ** The energy dashboard: ingestion *)

Module EnergyFacts.
Import Energy.

Lemma dict_get_set_eq {V : Type} k (v : V) d : dict_get k (dict_set k v d) = Some v.
Proof.
  induction d as [|[k' v'] d IH]; simpl.
  - by rewrite String.eqb_refl.
  - destruct (String.eqb k' k) eqn:E; simpl; [by rewrite String.eqb_refl | by rewrite E].
Qed.

Lemma dict_get_set_ne {V : Type} k k' (v : V) d :
  k <> k' -> dict_get k' (dict_set k v d) = dict_get k' d.
Proof.
  intros Hne. induction d as [|[k0 v0] d IH]; simpl.
  - destruct (String.eqb k k') eqn:E; [by apply String.eqb_eq in E | done].
  - destruct (String.eqb k0 k) eqn:E; simpl.
    + apply String.eqb_eq in E. subst k0.
      destruct (String.eqb k k') eqn:E'; [by apply String.eqb_eq in E' | done].
    + by destruct (String.eqb k0 k').
Qed.

Lemma fold_add_reading rows b0 :
  let b1 := fold_left (fun b r => add_reading (reading_of r) b) rows b0 in
  readings b1 = readings b0 ++ map reading_of rows
  /\ df b1 = df b0 /\ name b1 = name b0.
Proof.
  revert b0. induction rows as [|r rows IH]; intros b0; simpl.
  - by rewrite app_nil_r.
  - destruct (IH (add_reading (reading_of r) b0)) as (H1 & H2 & H3).
    rewrite H1, H2, H3. simpl. by rewrite <- app_assoc.
Qed.

Lemma parse_readings rs :
  rmap (fun r => t <- to_datetime (timestamp r) ;; Ok (t, kwh r)) rs
  = if forallb reading_ok rs then Ok (parsed rs) else Raise ValueError.
Proof.
  induction rs as [|[ts k] rs IH]; simpl; [done|].
  rewrite IH. destruct ts; simpl; [|done].
  by destruct (forallb reading_ok rs).
Qed.

Lemma process_readings_spec b :
  process_readings b
  = (set_df (frame_of (readings b) (df b)) b,
     if forallb reading_ok (readings b) then Ok tt else Raise ValueError).
Proof.
  unfold process_readings, frame_of.
  destruct (readings b) as [|r rs] eqn:E; [by destruct b|].
  rewrite parse_readings. by destruct (forallb reading_ok (r :: rs)).
Qed.

Lemma usable_passes f : passes f = false -> usable f = [].
Proof.
  unfold passes, usable. destruct (snd f); [done|]. by intros ->.
Qed.

Lemma load_file_state f st :
  fst (load_file f st)
  = if passes f
    then let b := next_building f (l_buildings st) in
         {| l_buildings := dict_set (stem (fst f)) b (l_buildings st);
            all_data :=
              if forallb reading_ok (readings b)
              then all_data st ++ [map (fun r => (r, stem (fst f))) (usable f)]
              else all_data st |}
    else st.
Proof.
  unfold load_file, passes, next_building, usable.
  destruct (snd f) as [e|cols rows]; [done|].
  destruct (has_column "timestamp" cols), (has_column "kwh" cols); simpl; try done.
  set (b0 := default _ _).
  destruct (fold_add_reading rows b0) as (H1 & H2 & H3).
  rewrite process_readings_spec. simpl. rewrite H1, H2.
  unfold set_df. simpl. rewrite H1, H3.
  by destruct (forallb reading_ok _).
Qed.

Lemma load_files_fold fs st :
  fst (load_files fs st) = fold_left (fun s f => fst (load_file f s)) fs st.
Proof.
  revert st. induction fs as [|f fs IH]; intros st; simpl; [done|]. apply IH.
Qed.

Lemma load_files_inv (P : loader -> Prop) fs :
  (forall f st, In f fs -> P st -> P (fst (load_file f st))) ->
  forall st, P st -> P (fst (load_files fs st)).
Proof.
  induction fs as [|f fs IH]; intros Hstep st Hst; simpl; [done|].
  apply IH; [intros; apply Hstep; simpl; auto|].
  apply Hstep; simpl; auto.
Qed.

Lemma load_files_app fs1 fs2 st :
  load_files (fs1 ++ fs2) st
  = (fst (load_files fs2 (fst (load_files fs1 st))),
     snd (load_files fs1 st) ++ snd (load_files fs2 (fst (load_files fs1 st)))).
Proof.
  revert st. induction fs1 as [|f fs1 IH]; intros st; simpl.
  - by destruct (load_files fs2 st).
  - rewrite IH. simpl. by rewrite app_assoc.
Qed.

(** Whatever stands in [all_data] has timestamps that parse. *)
Lemma load_file_all_data_ok f st :
  Forall (fun d => forallb row_ok d = true) (all_data st) ->
  Forall (fun d => forallb row_ok d = true) (all_data (fst (load_file f st))).
Proof.
  intros H. rewrite load_file_state. destruct (passes f); [|done]. simpl.
  destruct (forallb reading_ok _) eqn:E; [|done].
  apply Forall_app. split; [done|]. constructor; [|constructor].
  unfold next_building in E. simpl in E.
  rewrite forallb_app in E. apply andb_true_iff in E as [_ E].
  rewrite forallb_fmap. rewrite forallb_fmap in E. exact E.
Qed.

Lemma rmap_to_datetime_ok ss :
  forallb stamp_ok ss = true -> rmap to_datetime ss = Ok (map stamp_val ss).
Proof.
  induction ss as [|s ss IH]; simpl; [done|].
  intros H. apply andb_true_iff in H as [Hs Hss].
  rewrite IH by done. by destruct s.
Qed.

Lemma combine_stamps_ok data :
  Forall (fun d => forallb row_ok d = true) data ->
  forallb stamp_ok (map c_timestamp (combine data)) = true.
Proof.
  intros H. unfold combine. rewrite map_map. simpl.
  rewrite forallb_fmap. induction H as [|d data Hd _ IH]; simpl; [done|].
  rewrite forallb_app. by rewrite IH, andb_true_r.
Qed.

(** Within the scope of the model (cells parsed one by one) line 111
    does not raise: the files that reach the combined table are those
    whose timestamps parsed at line 48. *)
Lemma load_data_returns dir m : snd (load_data dir m) = Ok tt.
Proof.
  unfold load_data. destruct (glob_csv dir) as [|f fs] eqn:Eg; [done|].
  set (st0 := {| l_buildings := buildings m; all_data := [] |}).
  assert (Forall (fun d => forallb row_ok d = true)
                 (all_data (fst (load_files (f :: fs) st0)))) as Hok.
  { apply (load_files_inv (fun st => Forall _ (all_data st))); [|constructor].
    intros. by apply load_file_all_data_ok. }
  destruct (all_data (fst (load_files (f :: fs) st0))) as [|d data] eqn:Ed; [done|].
  by rewrite (rmap_to_datetime_ok _ (combine_stamps_ok _ Hok)).
Qed.

(** The readings of a building are the rows of its files, in order. *)
Lemma readings_of_load_file n f st :
  readings_of n (l_buildings (fst (load_file f st)))
  = readings_of n (l_buildings st) ++ file_readings n f.
Proof.
  rewrite load_file_state. unfold file_readings.
  destruct (passes f) eqn:Ep.
  - simpl. unfold readings_of.
    destruct (String.eqb (stem (fst f)) n) eqn:E.
    + apply String.eqb_eq in E. subst n. rewrite dict_get_set_eq. simpl.
      by destruct (dict_get (stem (fst f)) (l_buildings st)).
    + apply String.eqb_neq in E. rewrite dict_get_set_ne by done.
      by rewrite app_nil_r.
  - rewrite (usable_passes _ Ep). simpl.
    destruct (String.eqb _ _); by rewrite app_nil_r.
Qed.

Lemma readings_of_load_files n fs st :
  readings_of n (l_buildings (fst (load_files fs st)))
  = readings_of n (l_buildings st) ++ flat_map (file_readings n) fs.
Proof.
  revert st. induction fs as [|f fs IH]; intros st; simpl.
  - by rewrite app_nil_r.
  - rewrite IH, readings_of_load_file. by rewrite <- app_assoc.
Qed.

Lemma total_readings_dict_set n b bs :
  total_readings (dict_set n b bs) + length (readings_of n bs)
  = total_readings bs + length (readings b).
Proof.
  unfold total_readings, readings_of.
  induction bs as [|[k v] bs IH]; simpl; [lia|].
  destruct (String.eqb k n) eqn:E; simpl; [lia|].
  destruct (dict_get n bs); simpl in *; lia.
Qed.

Lemma total_readings_load_file f st :
  total_readings (l_buildings (fst (load_file f st)))
  = total_readings (l_buildings st) + length (usable f).
Proof.
  rewrite load_file_state. destruct (passes f) eqn:Ep.
  - simpl.
    pose proof (total_readings_dict_set (stem (fst f))
                  (next_building f (l_buildings st)) (l_buildings st)) as H.
    unfold next_building in H at 2. simpl in H.
    rewrite length_app, length_map in H.
    unfold readings_of in H.
    destruct (dict_get (stem (fst f)) (l_buildings st)); simpl in H; lia.
  - rewrite (usable_passes _ Ep). simpl. lia.
Qed.

Lemma total_readings_load_files fs st :
  total_readings (l_buildings (fst (load_files fs st)))
  = total_readings (l_buildings st) + length (flat_map usable fs).
Proof.
  revert st. induction fs as [|f fs IH]; intros st; simpl; [lia|].
  rewrite IH, total_readings_load_file, length_app. lia.
Qed.

Lemma file_readings_ok n f :
  forallb (fun r => stamp_ok (row_timestamp r)) (usable f) = true ->
  forallb reading_ok (file_readings n f) = true.
Proof.
  intros H. unfold file_readings. destruct (String.eqb _ _); [|done].
  by rewrite forallb_fmap.
Qed.

(** When every timestamp parses, every usable file reaches [all_data]. *)
Lemma all_data_load_files fs st :
  files_ok fs = true ->
  (forall n, forallb reading_ok (readings_of n (l_buildings st)) = true) ->
  concat (all_data (fst (load_files fs st)))
  = concat (all_data st) ++ flat_map tagged fs.
Proof.
  revert st. induction fs as [|f fs IH]; intros st Hok Hst; simpl.
  - by rewrite app_nil_r.
  - simpl in Hok. apply andb_true_iff in Hok as [Hf Hfs].
    rewrite IH; [|done|].
    + rewrite app_assoc. f_equal.
      rewrite load_file_state. destruct (passes f) eqn:Ep.
      * assert (forallb reading_ok (readings (next_building f (l_buildings st)))
                = true) as Hb.
        { unfold next_building. simpl. rewrite forallb_app, forallb_fmap.
          apply andb_true_iff. split; [|exact Hf].
          specialize (Hst (stem (fst f))). unfold readings_of in Hst.
          by destruct (dict_get _ _). }
        cbv zeta. rewrite Hb. cbn [all_data].
        rewrite concat_app. simpl. by rewrite app_nil_r.
      * unfold tagged. rewrite (usable_passes _ Ep). simpl. by rewrite app_nil_r.
    + intros n. rewrite readings_of_load_file, forallb_app, Hst. simpl.
      by apply file_readings_ok.
Qed.

Lemma buildings_loaded dir :
  buildings (loaded dir) = l_buildings (fst (load_files (glob_csv dir) loader0)).
Proof.
  unfold loaded, load_data.
  change {| l_buildings := buildings BuildingManager_init; all_data := [] |}
    with loader0.
  destruct (glob_csv dir) as [|f fs]; [done|].
  destruct (all_data (fst (load_files (f :: fs) loader0))) as [|d data]; [done|].
  by destruct (rmap to_datetime _).
Qed.

Lemma combined_rows_load dir :
  combined_rows (loaded dir)
  = combine (all_data (fst (load_files (glob_csv dir) loader0))).
Proof.
  unfold loaded, load_data.
  change {| l_buildings := buildings BuildingManager_init; all_data := [] |}
    with loader0.
  destruct (glob_csv dir) as [|f fs]; [done|].
  destruct (all_data (fst (load_files (f :: fs) loader0))) as [|d data]; [done|].
  by destruct (rmap to_datetime _).
Qed.

Lemma combined_rows_loaded dir :
  stamps_parse dir = true ->
  combined_rows (loaded dir)
  = flat_map (fun f => map (crow (stem (fst f))) (usable f)) (glob_csv dir).
Proof.
  intros H. rewrite combined_rows_load. unfold combine.
  rewrite all_data_load_files; [|exact H|done]. simpl.
  induction (glob_csv dir) as [|f fs IH]; simpl; [done|].
  rewrite map_app, IH. f_equal. unfold tagged. by rewrite map_map.
Qed.

Lemma accepted_rows_loaded dir :
  accepted_rows (loaded dir) = length (flat_map usable (glob_csv dir)).
Proof.
  unfold accepted_rows. rewrite buildings_loaded.
  apply (total_readings_load_files (glob_csv dir) loader0).
Qed.

(** The invariant of the data model, on inputs whose timestamps parse. *)
Lemma combined_count_when_stamps_parse dir :
  stamps_parse dir = true ->
  length (combined_rows (loaded dir)) = accepted_rows (loaded dir).
Proof.
  intros H. rewrite combined_rows_loaded, accepted_rows_loaded by done.
  induction (glob_csv dir) as [|f fs IH]; simpl; [done|].
  by rewrite !length_app, length_map, IH.
Qed.

(** [df] always is what [process_readings] makes of [readings]. *)
Lemma df_in_sync fs :
  forall st,
  (forall n b, dict_get n (l_buildings st) = Some b ->
               df b = frame_of (readings b) EmptyDf) ->
  forall n b, dict_get n (l_buildings (fst (load_files fs st))) = Some b ->
              df b = frame_of (readings b) EmptyDf.
Proof.
  induction fs as [|f fs IH]; intros st Hst; simpl; [done|].
  apply IH. intros n b. rewrite load_file_state.
  destruct (passes f); [|apply Hst]. simpl.
  destruct (String.eqb (stem (fst f)) n) eqn:E.
  - apply String.eqb_eq in E. subst n. rewrite dict_get_set_eq.
    intros [= <-]. unfold next_building. simpl.
    destruct (dict_get (stem (fst f)) (l_buildings st)) as [b0|] eqn:E0; simpl.
    + rewrite (Hst _ _ E0).
      destruct (readings b0); simpl; [done|]. done.
    + done.
  - apply String.eqb_neq in E. rewrite dict_get_set_ne by done. apply Hst.
Qed.

Lemma load_data_manager dir m :
  fst (fst (load_data dir m))
  = manager_after m (fst (load_files (glob_csv dir) (loader_of m))).
Proof.
  unfold load_data. fold (loader_of m).
  destruct (glob_csv dir) as [|f fs]; [by destruct m|].
  unfold manager_after.
  destruct (all_data (fst (load_files (f :: fs) (loader_of m)))) as [|d data];
    [done|].
  by destruct (rmap to_datetime _).
Qed.

Lemma load_file_log f st ev :
  In ev (snd (load_file f st)) ->
  ev = Loading (stem (fst f)) (fst f)
  \/ (ev = SkippingMissingColumns (fst f) /\ passes f = false)
  \/ exists e, ev = ErrorReading (fst f) e.
Proof.
  unfold load_file, passes.
  destruct (snd f) as [e|cols rows]; simpl.
  - intros [<-|[<-|[]]]; eauto.
  - destruct (has_column "timestamp" cols), (has_column "kwh" cols); simpl;
      try (intros [<-|[<-|[]]]; eauto).
    destruct (snd (process_readings _)); simpl.
    + intros [<-|[]]; eauto.
    + intros [<-|[<-|[]]]; eauto.
Qed.

Lemma load_files_log fs st ev :
  In ev (snd (load_files fs st)) -> level_of ev <> WARNING.
Proof.
  revert st. induction fs as [|f fs IH]; intros st; simpl; [done|].
  rewrite in_app_iff. intros [H|H]; [|by eapply IH].
  apply load_file_log in H as [->|[[-> _]|[e ->]]]; done.
Qed.

(** The only warning [load_data] ever logs is the one for a directory
    without CSV files: no warning is about a row. *)
Lemma load_data_warnings dir m ev :
  In ev (snd (fst (load_data dir m))) -> level_of ev = WARNING ->
  ev = NoCsvFiles /\ glob_csv dir = [].
Proof.
  unfold load_data.
  destruct (glob_csv dir) as [|f fs]; [by intros [<-|[]]|].
  pose proof (load_files_log (f :: fs) (loader_of m)) as Hlog.
  fold (loader_of m).
  destruct (load_files (f :: fs) (loader_of m)) as [st l].
  cbn [fst snd] in *.
  destruct (all_data st) as [|d data]; cbn [fst snd].
  - intros H Hw. by apply Hlog in H.
  - destruct (rmap to_datetime _); cbn [fst snd].
    + rewrite in_app_iff. intros [H|[<-|[]]] Hw; [|done].
      by apply Hlog in H.
    + intros H Hw. by apply Hlog in H.
Qed.

(** A file that fails the column check leaves the loop state as it was
    and is logged as an error. *)
Lemma load_file_skipped file cols rows st :
  has_column "timestamp" cols = false \/ has_column "kwh" cols = false ->
  load_file (file, Frame cols rows) st
  = (st, [Loading (stem file) file; SkippingMissingColumns file]).
Proof.
  unfold load_file. simpl. by intros [-> | ->]; rewrite ?orb_true_r.
Qed.

Lemma glob_csv_app d1 d2 : glob_csv (d1 ++ d2) = glob_csv d1 ++ glob_csv d2.
Proof. unfold glob_csv. apply List.filter_app. Qed.

(** Every row of a file that passes the column check becomes a reading
    of its building, whatever its cells hold. *)
Lemma rows_become_readings dir m f r :
  In f (glob_csv dir) -> In r (usable f) ->
  In (reading_of r)
     (readings_of (stem (fst f)) (buildings (fst (fst (load_data dir m))))).
Proof.
  intros Hf Hr. rewrite load_data_manager. simpl.
  rewrite readings_of_load_files, in_app_iff. right.
  apply in_flat_map. exists f. split; [done|].
  unfold file_readings. rewrite String.eqb_refl. by apply in_map.
Qed.

Lemma load_data_log_incl dir m ev :
  glob_csv dir <> [] ->
  In ev (snd (load_files (glob_csv dir) (loader_of m))) ->
  In ev (snd (fst (load_data dir m))).
Proof.
  unfold load_data. fold (loader_of m).
  destruct (glob_csv dir) as [|f fs]; [done|]. intros _.
  destruct (load_files (f :: fs) (loader_of m)) as [st l]. cbn [fst snd].
  destruct (all_data st) as [|d data]; cbn [fst snd]; [done|].
  destruct (rmap to_datetime _); cbn [fst snd]; [|done].
  rewrite in_app_iff. auto.
Qed.

(** ** The energy dashboard: resampling *)

Lemma fold_min_le zs : forall z, (fold_left Z.min zs z <= z)%Z
  /\ Forall (fun x => (fold_left Z.min zs z <= x)%Z) zs.
Proof.
  induction zs as [|x zs IH]; intros z; simpl; [split; [lia|constructor]|].
  destruct (IH (Z.min z x)) as [H1 H2]. split; [lia|].
  constructor; [lia | exact H2].
Qed.

Lemma fold_max_ge zs : forall z, (z <= fold_left Z.max zs z)%Z
  /\ Forall (fun x => (x <= fold_left Z.max zs z)%Z) zs.
Proof.
  induction zs as [|x zs IH]; intros z; simpl; [split; [lia|constructor]|].
  destruct (IH (Z.max z x)) as [H1 H2]. split; [lia|].
  constructor; [lia | exact H2].
Qed.

Lemma minZ_le zs m x : minZ zs = Some m -> In x zs -> (m <= x)%Z.
Proof.
  destruct zs as [|z zs]; simpl; [done|]. intros [= <-] [<-|Hx].
  - apply fold_min_le.
  - destruct (fold_min_le zs z) as [_ H]. rewrite Forall_forall in H.
    apply H. by apply list_elem_of_In.
Qed.

Lemma maxZ_ge zs m x : maxZ zs = Some m -> In x zs -> (x <= m)%Z.
Proof.
  destruct zs as [|z zs]; simpl; [done|]. intros [= <-] [<-|Hx].
  - apply fold_max_ge.
  - destruct (fold_max_ge zs z) as [_ H]. rewrite Forall_forall in H.
    apply H. by apply list_elem_of_In.
Qed.

Lemma in_zrange lo hi step k :
  (0 < step)%Z ->
  In k (zrange lo hi step)
  <-> (lo <= k <= hi)%Z /\ ((k - lo) mod step = 0)%Z.
Proof.
  intros Hs. unfold zrange. rewrite in_map_iff. split.
  - intros (i & <- & Hi). apply in_seq in Hi.
    assert (0 <= Z.of_nat i <= (hi - lo) / step)%Z as Hi' by lia.
    replace (lo + step * Z.of_nat i - lo)%Z with (Z.of_nat i * step)%Z by lia.
    rewrite Z.mod_mul by lia. split; [|done].
    assert (step * Z.of_nat i <= step * ((hi - lo) / step))%Z by nia.
    pose proof (Z.mul_div_le (hi - lo) step Hs). nia.
  - intros ([Hlo Hhi] & Hm).
    exists (Z.to_nat ((k - lo) / step)).
    assert (0 <= (k - lo) / step)%Z by (apply Z.div_pos; lia).
    assert ((k - lo) / step <= (hi - lo) / step)%Z
      by (apply Z.div_le_mono; lia).
    split.
    + rewrite Z2Nat.id by done.
      pose proof (Z.div_mod (k - lo) step ltac:(lia)). lia.
    + apply in_seq. lia.
Qed.

Lemma zrange_NoDup lo hi step : (0 < step)%Z -> NoDup (zrange lo hi step).
Proof.
  intros Hs. unfold zrange. apply NoDup_fmap_2; [|apply NoDup_seq].
  intros i j Hij. nia.
Qed.

Lemma find_bin {V : Type} (g : Z -> V) ks k :
  (In k ks /\ List.find (fun p => (fst p =? k)%Z) (map (fun k' => (k', g k')) ks)
              = Some (k, g k))
  \/ (~ In k ks /\ List.find (fun p => (fst p =? k)%Z) (map (fun k' => (k', g k')) ks)
                 = None).
Proof.
  induction ks as [|k' ks IH]; simpl; [right; tauto|].
  destruct (Z.eqb_spec k' k) as [->|Hne]; [left; auto|].
  destruct IH as [[H1 H2]|[H1 H2]]; [left; auto | right; tauto].
Qed.

Section Bins.

Variable bin : Z -> Z.
Variable step : Z.
Hypothesis step_pos : (0 < step)%Z.
Hypothesis bin_mono : forall a b, (a <= b)%Z -> (bin a <= bin b)%Z.
Hypothesis bin_grid : forall a b, ((bin b - bin a) mod step = 0)%Z.

(** Every row falls in one of the bins of [resample]. *)
Lemma row_in_bins rows t : In t (stamps rows) -> In (bin t) (bins bin step rows).
Proof.
  intros Ht. unfold bins.
  destruct (minZ (stamps rows)) as [lo|] eqn:El;
    [|by destruct (stamps rows)].
  destruct (maxZ (stamps rows)) as [hi|] eqn:Eh;
    [|by destruct (stamps rows)].
  apply in_zrange; [done|]. split; [|apply bin_grid].
  split; apply bin_mono; [by eapply minZ_le | by eapply maxZ_ge].
Qed.

Lemma cells_in_outside rows k : ~ In k (bins bin step rows) -> cells_in bin k rows = [].
Proof.
  intros Hk. unfold cells_in.
  assert (forall r, In r rows -> (bin (fst r) =? k)%Z = false) as Hf.
  { intros r Hr. apply Z.eqb_neq. intros <-. apply Hk, row_in_bins.
    unfold stamps. by apply in_map. }
  clear Hk. induction rows as [|r rows IH]; simpl; [done|].
  rewrite (Hf r) by (simpl; auto). apply IH. intros; apply Hf; simpl; auto.
Qed.

End Bins.

Lemma day_of_mono a b : (a <= b)%Z -> (day_of a <= day_of b)%Z.
Proof. intros H. unfold day_of. apply Z.div_le_mono; lia. Qed.

Lemma week_of_eq d : week_of d = (7 * ((d + 3) / 7) + 3)%Z.
Proof.
  unfold week_of. pose proof (Z.div_mod (d + 3) 7 ltac:(lia)). lia.
Qed.

Lemma week_bin_mono a b : (a <= b)%Z -> (week_bin a <= week_bin b)%Z.
Proof.
  intros H. unfold week_bin. rewrite !week_of_eq.
  pose proof (day_of_mono a b H).
  assert ((day_of a + 3) / 7 <= (day_of b + 3) / 7)%Z
    by (apply Z.div_le_mono; lia). lia.
Qed.

Lemma week_bin_grid a b : ((week_bin b - week_bin a) mod 7 = 0)%Z.
Proof.
  unfold week_bin. rewrite !week_of_eq.
  replace (7 * ((day_of b + 3) / 7) + 3 - (7 * ((day_of a + 3) / 7) + 3))%Z
    with (((day_of b + 3) / 7 - (day_of a + 3) / 7) * 7)%Z by lia.
  apply Z.mod_mul. lia.
Qed.

(** The value of a daily series on any day is the sum of that day's
    numbers: days before the first or after the last row hold none. *)
Lemma value_on_resample rows d :
  value_on (resample_D_sum rows) d = bin_total day_of d rows.
Proof.
  unfold value_on, resample_D_sum, bin_total.
  destruct (find_bin (fun d' => sumZ (nums (cells_in day_of d' rows)))
                     (bins day_of 1 rows) d) as [[_ ->]|[Hn ->]]; [done|].
  rewrite (cells_in_outside day_of 1); try done; try lia.
  - apply day_of_mono.
  - intros a b. apply Z.mod_1_r.
Qed.

Lemma week_sum_on_resample rows w :
  week_sum_on (resample_W_agg rows) w = bin_total week_bin w rows.
Proof.
  unfold week_sum_on, resample_W_agg, bin_total.
  destruct (find_bin (fun w' =>
    {| w_mean := meanZ (nums (cells_in week_bin w' rows));
       w_min := minZ (nums (cells_in week_bin w' rows));
       w_max := maxZ (nums (cells_in week_bin w' rows));
       w_sum := sumZ (nums (cells_in week_bin w' rows)) |})
    (bins week_bin 7 rows) w) as [[_ ->]|[Hn ->]]; [done|].
  rewrite (cells_in_outside week_bin 7); try done; try lia.
  - apply week_bin_mono.
  - apply week_bin_grid.
Qed.

Lemma bin_total_cons bin k r rows :
  bin_total bin k (r :: rows)
  = ((if (bin (fst r) =? k)%Z then default 0 (num_of (snd r)) else 0)
     + bin_total bin k rows)%Z.
Proof.
  unfold bin_total, cells_in. simpl.
  destruct (bin (fst r) =? k)%Z; simpl; [|lia].
  unfold nums. simpl. by destruct (num_of (snd r)).
Qed.

Lemma bin_total_app bin k rows1 rows2 :
  bin_total bin k (rows1 ++ rows2)
  = (bin_total bin k rows1 + bin_total bin k rows2)%Z.
Proof.
  induction rows1 as [|r rows1 IH]; simpl; [done|].
  rewrite !bin_total_cons, IH. lia.
Qed.

Lemma bin_total_insert bin k r rows :
  bin_total bin k (insert_sorted r rows) = bin_total bin k (r :: rows).
Proof.
  induction rows as [|x rows IH]; simpl; [done|].
  destruct (fst r <? fst x)%Z; [done|].
  rewrite !bin_total_cons, IH, !bin_total_cons. lia.
Qed.

(** Sorting the index moves no row to another day. *)
Lemma bin_total_sort bin k rows :
  bin_total bin k (sort_index rows) = bin_total bin k rows.
Proof.
  induction rows as [|r rows IH]; simpl; [done|].
  by rewrite bin_total_insert, !bin_total_cons, IH.
Qed.

Lemma existsb_insert p r rows :
  existsb p (map snd (insert_sorted r rows))
  = p (snd r) || existsb p (map snd rows).
Proof.
  induction rows as [|x rows IH]; simpl; [done|].
  destruct (fst r <? fst x)%Z; simpl; [done|].
  rewrite IH. by destruct (p (snd r)), (p (snd x)).
Qed.

Lemma existsb_sort p rows :
  existsb p (map snd (sort_index rows)) = existsb p (map snd rows).
Proof.
  induction rows as [|r rows IH]; simpl; [done|].
  by rewrite existsb_insert, IH.
Qed.

Lemma sort_index_nil rows : is_nil (sort_index rows) = is_nil rows.
Proof.
  destruct rows as [|r rows]; simpl; [done|].
  destruct (sort_index rows) as [|x l]; simpl; [done|].
  by destruct (fst r <? fst x)%Z.
Qed.

Lemma snd_parsed rs : map snd (parsed rs) = map kwh rs.
Proof. unfold parsed. rewrite map_map. done. Qed.

(** [calculate_daily_totals] on a building whose frame is in step with
    its readings. *)
Lemma daily_totals_of_readings b :
  df b = frame_of (readings b) EmptyDf ->
  forallb reading_ok (readings b) = true ->
  calculate_daily_totals b
  = if is_nil (readings b) then Ok []
    else if existsb is_text (map kwh (readings b)) then Raise TypeError
    else Ok (resample_D_sum (sort_index (parsed (readings b)))).
Proof.
  intros Hdf Hok. unfold calculate_daily_totals. rewrite Hdf.
  unfold frame_of. destruct (readings b) as [|r rs] eqn:E; [done|].
  rewrite Hok. unfold df_empty. rewrite sort_index_nil.
  change (is_nil (parsed (r :: rs))) with false. cbv iota.
  by rewrite existsb_sort, snd_parsed.
Qed.

Lemma weekly_aggregates_of_readings b :
  df b = frame_of (readings b) EmptyDf ->
  forallb reading_ok (readings b) = true ->
  calculate_weekly_aggregates b
  = if is_nil (readings b) then Ok []
    else if existsb is_text (map kwh (readings b)) then Raise TypeError
    else Ok (resample_W_agg (sort_index (parsed (readings b)))).
Proof.
  intros Hdf Hok. unfold calculate_weekly_aggregates. rewrite Hdf.
  unfold frame_of. destruct (readings b) as [|r rs] eqn:E; [done|].
  rewrite Hok. unfold df_empty. rewrite sort_index_nil.
  change (is_nil (parsed (r :: rs))) with false. cbv iota.
  by rewrite existsb_sort, snd_parsed.
Qed.

Lemma fold_add_reading' rs b0 :
  let b1 := fold_left (fun b r => add_reading r b) rs b0 in
  readings b1 = readings b0 ++ rs /\ df b1 = df b0.
Proof.
  revert b0. induction rs as [|r rs IH]; intros b0; simpl.
  - by rewrite app_nil_r.
  - destruct (IH (add_reading r b0)) as (H1 & H2).
    rewrite H1, H2. simpl. by rewrite <- app_assoc.
Qed.

Lemma daily_of_spec rs :
  daily_of rs
  = if forallb reading_ok rs
    then if is_nil rs then Ok []
         else if existsb is_text (map kwh rs) then Raise TypeError
         else Ok (resample_D_sum (sort_index (parsed rs)))
    else Raise ValueError.
Proof.
  unfold daily_of. rewrite process_readings_spec.
  destruct (fold_add_reading' rs (Building_init "source")) as [H1 H2].
  simpl in H1, H2. rewrite H1. simpl snd. simpl fst.
  destruct (forallb reading_ok rs) eqn:E; [|done].
  rewrite daily_totals_of_readings; simpl; rewrite H1, ?H2; done.
Qed.

Lemma in_insert_day d d' days :
  In d' (insert_day d days) <-> d' = d \/ In d' days.
Proof.
  induction days as [|x days IH]; simpl; [intuition congruence|].
  destruct (Z.ltb_spec d x); simpl; [intuition congruence|].
  destruct (Z.eqb_spec d x) as [->|]; simpl; [intuition congruence|].
  rewrite IH. tauto.
Qed.

Lemma in_days d l : In d (fold_right insert_day [] l) <-> In d l.
Proof.
  induction l as [|x l IH]; simpl; [tauto|].
  rewrite in_insert_day, IH. split; intros [H|H]; auto.
Qed.

Lemma value_on_absent s d : ~ In d (map fst s) -> value_on s d = 0%Z.
Proof.
  unfold value_on. induction s as [|[k v] s IH]; simpl; [done|].
  intros H. destruct (Z.eqb_spec k d) as [->|]; [tauto|]. apply IH. tauto.
Qed.

(** Putting two series together adds their values day by day. *)
Lemma value_on_merge s1 s2 d :
  value_on (merge_days s1 s2) d = (value_on s1 d + value_on s2 d)%Z.
Proof.
  unfold merge_days. unfold value_on at 1.
  destruct (find_bin (fun d' => (value_on s1 d' + value_on s2 d')%Z)
              (fold_right insert_day [] (map fst s1 ++ map fst s2)) d)
    as [[_ ->]|[Hn ->]]; [done|].
  rewrite in_days, in_app_iff in Hn.
  rewrite !value_on_absent; tauto.
Qed.

(** ** The energy dashboard: rows without a quantity *)

Lemma dict_get_set {V : Type} k k' (v : V) d :
  dict_get k' (dict_set k v d) = if String.eqb k k' then Some v else dict_get k' d.
Proof.
  destruct (String.eqb k k') eqn:E.
  - apply String.eqb_eq in E. subst. apply dict_get_set_eq.
  - apply String.eqb_neq in E. by apply dict_get_set_ne.
Qed.

(** A building exists once a file that passes the column check bears
    its name. *)
Lemma building_exists n fs : forall st,
  is_Some (dict_get n (l_buildings (fst (load_files fs st))))
  <-> is_Some (dict_get n (l_buildings st)) \/ has_building n fs = true.
Proof.
  induction fs as [|f fs IH]; intros st; simpl.
  - split; [auto | by intros [?|?]].
  - rewrite IH, load_file_state. destruct (passes f); simpl.
    + rewrite dict_get_set. destruct (String.eqb (stem (fst f)) n); simpl.
      * split; [auto | intros _; left; eauto].
      * tauto.
    + tauto.
Qed.

Lemma usable_drop f :
  usable (fst f, drop_missing_rows (snd f)) = List.filter keep_row (usable f).
Proof.
  unfold usable. simpl. destruct (snd f) as [e|cols rows]; simpl; [done|].
  by destruct (has_column "timestamp" cols && has_column "kwh" cols).
Qed.

Lemma passes_drop f : passes (fst f, drop_missing_rows (snd f)) = passes f.
Proof. unfold passes. simpl. by destruct (snd f). Qed.

Lemma glob_drop dir : glob_csv (drop_missing dir) = drop_missing (glob_csv dir).
Proof.
  unfold glob_csv, drop_missing.
  induction dir as [|f dir IH]; simpl; [done|].
  destruct (PyStr.endswith (fst f) ".csv"); simpl; by rewrite IH.
Qed.

Lemma forallb_filter_true {A : Type} (p q : A -> bool) l :
  forallb p l = true -> forallb p (List.filter q l) = true.
Proof.
  induction l as [|a l IH]; simpl; [done|].
  intros H. apply andb_true_iff in H as [Ha Hl].
  destruct (q a); simpl; [rewrite Ha|]; auto.
Qed.

Lemma files_ok_drop fs : files_ok fs = true -> files_ok (drop_missing fs) = true.
Proof.
  unfold files_ok, drop_missing. induction fs as [|f fs IH]; simpl; [done|].
  intros H. apply andb_true_iff in H as [Hf Hfs].
  rewrite usable_drop, IH by done.
  by rewrite forallb_filter_true.
Qed.

Lemma stamps_parse_drop dir :
  stamps_parse dir = true -> stamps_parse (drop_missing dir) = true.
Proof. unfold stamps_parse. rewrite glob_drop. apply files_ok_drop. Qed.

Lemma has_building_drop n fs : has_building n (drop_missing fs) = has_building n fs.
Proof.
  unfold has_building, drop_missing. induction fs as [|f fs IH]; simpl; [done|].
  by rewrite passes_drop, IH.
Qed.

Lemma filter_flat_map {A B : Type} (p : B -> bool) (g : A -> list B) l :
  List.filter p (flat_map g l) = flat_map (fun a => List.filter p (g a)) l.
Proof.
  induction l as [|a l IH]; simpl; [done|]. by rewrite List.filter_app, IH.
Qed.

Lemma filter_fmap {A B : Type} (p : B -> bool) (g : A -> B) l :
  List.filter p (map g l) = map g (List.filter (fun a => p (g a)) l).
Proof.
  induction l as [|a l IH]; simpl; [done|].
  destruct (p (g a)); simpl; by rewrite IH.
Qed.

Lemma file_readings_drop n f :
  file_readings n (fst f, drop_missing_rows (snd f))
  = List.filter keep_reading (file_readings n f).
Proof.
  unfold file_readings. simpl. destruct (String.eqb _ _); [|done].
  rewrite usable_drop. unfold keep_reading. by rewrite filter_fmap.
Qed.

Lemma readings_drop n fs :
  flat_map (file_readings n) (drop_missing fs)
  = List.filter keep_reading (flat_map (file_readings n) fs).
Proof.
  unfold drop_missing. rewrite filter_flat_map.
  induction fs as [|f fs IH]; simpl; [done|].
  by rewrite file_readings_drop, IH.
Qed.

Lemma flat_file_readings_ok n fs :
  files_ok fs = true -> forallb reading_ok (flat_map (file_readings n) fs) = true.
Proof.
  unfold files_ok. induction fs as [|f fs IH]; simpl; [done|].
  intros H. apply andb_true_iff in H as [Hf Hfs].
  rewrite forallb_app, IH by done. by rewrite file_readings_ok.
Qed.

Lemma nums_cons c cs :
  nums (c :: cs)
  = match num_of c with Some z => z :: nums cs | None => nums cs end.
Proof. done. Qed.

(** A missing quantity adds nothing to a sum. *)
Lemma nums_filter cs :
  nums (List.filter (fun c => negb (is_nan c)) cs) = nums cs.
Proof.
  induction cs as [|c cs IH]; simpl; [done|].
  destruct c; simpl; rewrite ?nums_cons; simpl; by rewrite ?IH.
Qed.

Lemma is_text_filter cs :
  existsb is_text (List.filter (fun c => negb (is_nan c)) cs) = existsb is_text cs.
Proof.
  induction cs as [|c cs IH]; simpl; [done|].
  destruct c; simpl; by rewrite ?IH.
Qed.

Lemma series_sum_filter cs :
  series_sum (List.filter (fun c => negb (is_nan c)) cs) = series_sum cs.
Proof. unfold series_sum. by rewrite is_text_filter, nums_filter. Qed.

Lemma bin_total_filter bin k rs :
  bin_total bin k (parsed (List.filter keep_reading rs)) = bin_total bin k (parsed rs).
Proof.
  induction rs as [|r rs IH]; simpl; [done|].
  unfold keep_reading at 1. destruct (kwh r) eqn:E; simpl;
    rewrite ?bin_total_cons, IH; simpl; rewrite ?E; simpl; try done.
  destruct (bin _ =? k)%Z; lia.
Qed.

Lemma kwh_filter rs :
  map kwh (List.filter keep_reading rs)
  = List.filter (fun c => negb (is_nan c)) (map kwh rs).
Proof. by rewrite filter_fmap. Qed.

Lemma total_consumption_rows m :
  total_consumption m = series_sum (map c_kwh (combined_rows m)).
Proof.
  unfold total_consumption, combined_empty, combined_rows.
  destruct (combined_df m) as [[|r rows]|]; done.
Qed.

Lemma daily_totals_value b s :
  df b = frame_of (readings b) EmptyDf ->
  forallb reading_ok (readings b) = true ->
  calculate_daily_totals b = Ok s ->
  (is_nil (readings b) = false -> existsb is_text (map kwh (readings b)) = false)
  /\ forall d, value_on s d = bin_total day_of d (parsed (readings b)).
Proof.
  intros Hdf Hok. rewrite daily_totals_of_readings by done.
  destruct (is_nil (readings b)) eqn:En.
  - intros [= <-]. split; [done|]. by destruct (readings b).
  - destruct (existsb is_text _); [done|]. intros H.
    assert (s = resample_D_sum (sort_index (parsed (readings b)))) as ->
      by congruence.
    split; [done|]. intros d. by rewrite value_on_resample, bin_total_sort.
Qed.

Lemma weekly_aggregates_value b s :
  df b = frame_of (readings b) EmptyDf ->
  forallb reading_ok (readings b) = true ->
  calculate_weekly_aggregates b = Ok s ->
  (is_nil (readings b) = false -> existsb is_text (map kwh (readings b)) = false)
  /\ forall w, week_sum_on s w = bin_total week_bin w (parsed (readings b)).
Proof.
  intros Hdf Hok. rewrite weekly_aggregates_of_readings by done.
  destruct (is_nil (readings b)) eqn:En.
  - intros [= <-]. split; [done|]. by destruct (readings b).
  - destruct (existsb is_text _); [done|]. intros H.
    assert (s = resample_W_agg (sort_index (parsed (readings b)))) as ->
      by congruence.
    split; [done|]. intros w. by rewrite week_sum_on_resample, bin_total_sort.
Qed.

Lemma daily_totals_exist b :
  df b = frame_of (readings b) EmptyDf ->
  forallb reading_ok (readings b) = true ->
  existsb is_text (map kwh (readings b)) = false ->
  exists s, calculate_daily_totals b = Ok s.
Proof.
  intros Hdf Hok Ht. rewrite daily_totals_of_readings, Ht by done.
  destruct (is_nil _); eauto.
Qed.

Lemma weekly_aggregates_exist b :
  df b = frame_of (readings b) EmptyDf ->
  forallb reading_ok (readings b) = true ->
  existsb is_text (map kwh (readings b)) = false ->
  exists s, calculate_weekly_aggregates b = Ok s.
Proof.
  intros Hdf Hok Ht. rewrite weekly_aggregates_of_readings, Ht by done.
  destruct (is_nil _); eauto.
Qed.

Lemma no_text_of_nonempty (rs : list MeterReading) :
  (is_nil rs = false -> existsb is_text (map kwh rs) = false) ->
  existsb is_text (map kwh rs) = false.
Proof. destruct rs; simpl; auto. Qed.

Lemma combined_cells fs :
  map c_kwh (flat_map (fun f => map (crow (stem (fst f))) (usable f)) fs)
  = flat_map (fun f => map row_kwh (usable f)) fs.
Proof.
  induction fs as [|f fs IH]; simpl; [done|].
  by rewrite map_app, map_map, IH.
Qed.

Lemma cells_drop fs :
  flat_map (fun f => map row_kwh (usable f)) (drop_missing fs)
  = List.filter (fun c => negb (is_nan c))
                (flat_map (fun f => map row_kwh (usable f)) fs).
Proof.
  unfold drop_missing. rewrite filter_flat_map.
  induction fs as [|f fs IH]; simpl; [done|].
  by rewrite usable_drop, IH, filter_fmap.
Qed.

(** The buildings of the two runs: same names, and the readings of the
    run without the rows of missing quantity are the others filtered;
    both frames are in step with the readings, whose timestamps parse. *)
Lemma buildings_drop dir n b :
  stamps_parse dir = true ->
  dict_get n (buildings (loaded dir)) = Some b ->
  exists b',
    dict_get n (buildings (loaded (drop_missing dir))) = Some b'
    /\ readings b' = List.filter keep_reading (readings b)
    /\ df b = frame_of (readings b) EmptyDf
    /\ df b' = frame_of (readings b') EmptyDf
    /\ forallb reading_ok (readings b) = true
    /\ forallb reading_ok (readings b') = true.
Proof.
  intros Hp Hb. rewrite buildings_loaded in Hb.
  assert (is_Some (dict_get n (buildings (loaded (drop_missing dir))))) as [b' Hb'].
  { rewrite buildings_loaded, glob_drop. apply building_exists. right.
    rewrite has_building_drop.
    destruct (proj1 (building_exists n (glob_csv dir) loader0)) as [[? H]|H];
      [by rewrite Hb | done | done]. }
  exists b'. split; [done|]. rewrite buildings_loaded, glob_drop in Hb'.
  pose proof (readings_of_load_files n (glob_csv dir) loader0) as Hr.
  pose proof (readings_of_load_files n (drop_missing (glob_csv dir)) loader0) as Hr'.
  unfold readings_of in Hr, Hr'. rewrite Hb in Hr. rewrite Hb' in Hr'.
  simpl in Hr, Hr'. rewrite readings_drop, <- Hr in Hr'.
  repeat split.
  - exact Hr'.
  - by apply (df_in_sync (glob_csv dir) loader0) with n.
  - by apply (df_in_sync (drop_missing (glob_csv dir)) loader0) with n.
  - rewrite Hr. by apply flat_file_readings_ok.
  - rewrite Hr'. apply forallb_filter_true. rewrite Hr.
    by apply flat_file_readings_ok.
Qed.

Lemma minZ_In zs m : minZ zs = Some m -> In m zs.
Proof.
  destruct zs as [|z zs]; simpl; [done|]. intros [= <-].
  revert z. induction zs as [|x zs IH]; intros z; simpl; [by left|].
  destruct (IH (Z.min z x)) as [H|H]; [|by right; right].
  destruct (Z.min_spec z x) as [[_ E]|[_ E]]; rewrite E in *;
    [first [by left | by right; left] | first [by right; left | by left]].
Qed.

Lemma maxZ_In zs m : maxZ zs = Some m -> In m zs.
Proof.
  destruct zs as [|z zs]; simpl; [done|]. intros [= <-].
  revert z. induction zs as [|x zs IH]; intros z; simpl; [by left|].
  destruct (IH (Z.max z x)) as [H|H]; [|by right; right].
  destruct (Z.max_spec z x) as [[_ E]|[_ E]]; rewrite E in *;
    [first [by left | by right; left] | first [by right; left | by left]].
Qed.

Lemma insert_sorted_perm r l : Permutation (insert_sorted r l) (r :: l).
Proof.
  induction l as [|x l IH]; simpl; [done|].
  destruct (fst r <? fst x)%Z; [done|].
  rewrite IH. apply perm_swap.
Qed.

Lemma sort_index_perm l : Permutation (sort_index l) l.
Proof.
  induction l as [|r l IH]; simpl; [done|].
  by rewrite insert_sorted_perm, IH.
Qed.

Section Padding.

Variable bin : Z -> Z.
Variable step : Z.
Hypothesis step_pos : (0 < step)%Z.
Hypothesis bin_mono : forall a b, (a <= b)%Z -> (bin a <= bin b)%Z.
Hypothesis bin_grid : forall a b, ((bin b - bin a) mod step = 0)%Z.

(** Fewer rows, fewer bins. *)
Lemma bins_incl rows' rows k :
  (forall t, In t (stamps rows') -> In t (stamps rows)) ->
  In k (bins bin step rows') -> In k (bins bin step rows).
Proof.
  intros Hsub. unfold bins.
  destruct (minZ (stamps rows')) as [lo'|] eqn:El'; [|done].
  destruct (maxZ (stamps rows')) as [hi'|] eqn:Eh'; [|done].
  pose proof (Hsub _ (minZ_In _ _ El')) as Hlo.
  pose proof (Hsub _ (maxZ_In _ _ Eh')) as Hhi.
  destruct (minZ (stamps rows)) as [lo|] eqn:El;
    [|by destruct (stamps rows)].
  destruct (maxZ (stamps rows)) as [hi|] eqn:Eh;
    [|by destruct (stamps rows)].
  rewrite !in_zrange by done. intros [[H1 H2] H3].
  pose proof (bin_mono _ _ (minZ_le _ _ _ El Hlo)).
  pose proof (bin_mono _ _ (maxZ_ge _ _ _ Eh Hhi)).
  split; [lia|].
  replace (k - bin lo)%Z with ((k - bin lo') + (bin lo' - bin lo))%Z by lia.
  rewrite Z.add_mod, H3, bin_grid by lia. by rewrite Z.mod_0_l by lia.
Qed.

(** Rows that add nothing to any bin only add bins of sum 0. *)
Lemma binned_sums_padded rows' rows :
  (forall t, In t (stamps rows') -> In t (stamps rows)) ->
  (forall k, bin_total bin k rows' = bin_total bin k rows) ->
  zero_padded (map (fun k => (k, bin_total bin k rows')) (bins bin step rows'))
              (map (fun k => (k, bin_total bin k rows)) (bins bin step rows)).
Proof.
  intros Hsub Heq. split.
  - intros [d v] (k & [= <- <-] & Hk)%in_map_iff. rewrite Heq.
    apply (in_map (fun k => (k, bin_total bin k rows))).
    by apply (bins_incl rows').
  - intros d v (k & [= <- <-] & Hk)%in_map_iff. rewrite <- Heq.
    destruct (in_dec Z.eq_dec k (bins bin step rows')) as [Hin|Hout].
    + left. by apply (in_map (fun k => (k, bin_total bin k rows'))).
    + right. unfold bin_total.
      by rewrite (cells_in_outside bin step step_pos bin_mono bin_grid rows' k Hout).
Qed.

End Padding.

End EnergyFacts.

(** ** The energy dashboard: the claims *)

Module EnergyClaims.
Import Energy EnergyFacts.

Lemma daily_of_Ok rs s :
  daily_of rs = Ok s ->
  forallb reading_ok rs = true
  /\ existsb is_text (map kwh rs) = false
  /\ forall d, value_on s d = bin_total day_of d (parsed rs).
Proof.
  rewrite daily_of_spec. destruct (forallb reading_ok rs); [|discriminate].
  destruct (is_nil rs) eqn:En.
  - destruct rs; [|done]. intros [= <-]. done.
  - destruct (existsb is_text _); [discriminate|]. intros H.
    assert (s = resample_D_sum (sort_index (parsed rs))) as -> by congruence.
    repeat split. intros d. by rewrite value_on_resample, bin_total_sort.
Qed.

Lemma daily_of_total rs :
  forallb reading_ok rs = true -> existsb is_text (map kwh rs) = false ->
  exists s, daily_of rs = Ok s.
Proof.
  intros H1 H2. rewrite daily_of_spec, H1, H2. destruct (is_nil rs); eauto.
Qed.

(** C3, counterexample.  A chunk read on a Thursday and a chunk read on
    the following Sunday: the projection of all rows has entries (of
    value 0) for Friday and Saturday, the two projections put together
    have none. *)
Lemma daily_sum_split_gap_days :
  ~ daily_sum_splits_exactly thursday_chunk sunday_chunk.
Proof.
  intros H.
  pose proof (H [(0, 10)]%Z [(3, 5)]%Z [(0, 10); (1, 0); (2, 0); (3, 5)]%Z
                eq_refl eq_refl eq_refl) as E.
  vm_compute in E. discriminate E.
Qed.

(** C3, amended.  For whole-number quantities (which [float64] adds
    exactly) and every split of a source's rows into two chunks whose
    daily-sum projections exist, the projection of all the rows exists
    and holds, for every calendar day, the sum of the values the two
    chunks' projections hold for that day (a day absent from a
    projection counting as 0): it agrees day by day with the two
    projections put together.  With fractional quantities the two
    sides can differ in the last digits, the addition of [float64]
    being rounded; that case is outside the model. *)
Theorem daily_sum_split_values (c1 c2 : list MeterReading) (s1 s2 : list (Z * Z)) :
  daily_of c1 = Ok s1 -> daily_of c2 = Ok s2 ->
  exists s,
    daily_of (c1 ++ c2) = Ok s
    /\ forall d, value_on s d = (value_on s1 d + value_on s2 d)%Z
              /\ value_on s d = value_on (merge_days s1 s2) d.
Proof.
  intros H1 H2.
  apply daily_of_Ok in H1 as (Hok1 & Ht1 & Hv1).
  apply daily_of_Ok in H2 as (Hok2 & Ht2 & Hv2).
  destruct (daily_of_total (c1 ++ c2)) as [s Hs].
  - by rewrite forallb_app, Hok1, Hok2.
  - by rewrite map_app, existsb_app, Ht1, Ht2.
  - exists s. split; [done|]. intros d.
    apply daily_of_Ok in Hs as (_ & _ & Hv).
    rewrite value_on_merge, Hv, Hv1, Hv2.
    unfold parsed. rewrite map_app, bin_total_app. done.
Qed.

Lemma daily_sum_split_values_witness :
  exists s,
    daily_of (thursday_chunk ++ sunday_chunk) = Ok s
    /\ forall d, value_on s d = (value_on [(0, 10)%Z] d + value_on [(3, 5)%Z] d)%Z
              /\ value_on s d = value_on (merge_days [(0, 10)%Z] [(3, 5)%Z]) d.
Proof.
  exact (daily_sum_split_values thursday_chunk sunday_chunk
           [(0, 10)]%Z [(3, 5)]%Z eq_refl eq_refl).
Defined.

(** C2, the failing input.  One file whose single row has a timestamp
    that does not parse: the row is among the readings of building A
    (and is reported as its total), yet the combined table has no row
    and the campus total is 0. *)
Theorem bad_stamp_rows_missing_from_combined :
  accepted_rows (loaded bad_stamp_dir) = 1
  /\ length (combined_rows (loaded bad_stamp_dir)) = 0
  /\ load_log bad_stamp_dir = [Loading "A" "A.csv"; ErrorReading "A.csv" ValueError]
  /\ snd (main bad_stamp_dir ∅)
     = Ok [Title; Rule; TotalConsumption 0; HighestConsumer (Some "A") 5].
Proof. repeat split; reflexivity. Qed.

(** C7.  With no file matching [*.csv] the run does not raise: the
    summary is produced and states a total of 0, it is written to
    [summary.txt], no image file is written, and the warning
    "No data to visualize." is logged. *)
Theorem no_input_files (dir : directory) (out : outdir) :
  glob_csv dir = [] ->
  snd (main dir out) = Ok [Title; Rule; TotalConsumption 0; HighestConsumer None 0]
  /\ fst (fst (main dir out)) !! "summary.txt"
     = Some (SummaryText [Title; Rule; TotalConsumption 0; HighestConsumer None 0])
  /\ fst (fst (main dir out)) !! "dashboard.png" = out !! "dashboard.png"
  /\ snd (fst (main dir out))
     = [NoCsvFiles; SummarySaved; ReportSaved; CleanedExported; NoDataToVisualize]
  /\ level_of NoDataToVisualize = WARNING.
Proof.
  intros Hg. unfold main, load_data. rewrite Hg. simpl.
  repeat split.
  - rewrite lookup_insert_ne by done. by rewrite lookup_insert_eq.
  - by rewrite !lookup_insert_ne.
Qed.

Lemma no_input_files_witness :
  snd (main no_csv_dir ∅)
  = Ok [Title; Rule; TotalConsumption 0; HighestConsumer None 0]
  /\ fst (fst (main no_csv_dir ∅)) !! "dashboard.png" = None.
Proof.
  destruct (no_input_files no_csv_dir ∅ eq_refl) as (H1 & _ & H3 & _).
  split; [exact H1 | exact H3].
Defined.

(** C8, counterexample.  Two buildings listed in one order and in the
    other: the statistics table lists them in the order of the
    listing (and the report names the first of the two, whose totals
    are equal, as highest consumer), so the report files differ. *)
Lemma listing_order_changes_report : ~ same_data_same_report.
Proof.
  intros H. pose proof (H tie_dir (rev tie_dir) ∅ (Permutation_rev _)) as E.
  apply Forall_inv in E. vm_compute in E. discriminate E.
Qed.

(** C8, amended.  The report is a re-render of the in-memory model,
    which [load_data] builds from the files in the order in which the
    directory lists them.  Two runs of [main] over the same listing
    print the same summary (or raise the same exception) and log the
    same events whatever the output directory held before; when the
    run completes, the statistics table, the text summary and the
    combined export have the same content in both; and a second run
    started on the output of the first leaves every file as the first
    wrote it (the files are overwritten, nothing is appended). *)
Theorem report_is_rerender (dir : directory) (out1 out2 : outdir) :
  snd (main dir out1) = snd (main dir out2)
  /\ snd (fst (main dir out1)) = snd (fst (main dir out2))
  /\ match snd (main dir out1) with
     | Ok _ =>
         Forall (fun k => fst (fst (main dir out1)) !! k
                          = fst (fst (main dir out2)) !! k)
                report_files
     | Raise _ => True
     end
  /\ main dir (fst (fst (main dir out1))) = main dir out1.
Proof.
  unfold main.
  destruct (load_data dir BuildingManager_init) as [[m log1] [[]|e]]; [|done].
  unfold generate_summary_report, create_dashboard.
  destruct (total_consumption m) as [total|e]; [|done].
  destruct (rfold report_building (buildings m) _) as [lp|e]; [|done].
  destruct (combined_empty m).
  - cbn [rbind fst snd]. repeat split.
    + repeat constructor; rewrite !lookup_insert; repeat case_decide; done.
    + do 2 f_equal. apply map_eq. intros k.
      rewrite !lookup_insert. repeat case_decide; done.
  - destruct (peak_row (combined_rows m)) as [pr|e]; cbn [rbind];
      [destruct (rmap trend_line (buildings m)) as [t|e1]; cbn [rbind];
       [destruct (rmap weekly_bar (buildings m)) as [w|e2]; cbn [rbind];
        [destruct (rmap scatter_series (buildings m)) as [sc|e3];
         cbn [rbind]|]|]|];
      cbn [fst snd]; repeat split;
      try (repeat constructor; rewrite !lookup_insert; repeat case_decide; done);
      try done;
      do 2 f_equal; apply map_eq; intros k;
      rewrite !lookup_insert; repeat case_decide; done.
Qed.

Lemma report_is_rerender_witness :
  main tie_dir (fst (fst (main tie_dir ∅))) = main tie_dir ∅
  /\ fst (fst (main tie_dir ∅)) !! "building_summary.csv"
     = Some (StatsTable
               [{| s_building := "A"; s_total := 7;
                   s_average := Some (Qmake 7 2); s_max := Some 4%Z |};
                {| s_building := "B"; s_total := 7;
                   s_average := Some (Qmake 7 1); s_max := Some 7%Z |}]).
Proof.
  split.
  - exact (proj2 (proj2 (proj2 (report_is_rerender tie_dir ∅ ∅)))).
  - reflexivity.
Defined.

Lemma series_sum_Ok cs z : series_sum cs = Ok z -> z = sumZ (nums cs).
Proof. unfold series_sum. destruct (existsb is_text cs); congruence. Qed.

Lemma report_building_highest st nb st' P :
  report_building st nb = Ok st' ->
  highest_among P (highest_consumer st) ->
  highest_among (P ++ List.filter (fun nb => negb (df_empty (df (snd nb)))) [nb])
                (highest_consumer st').
Proof.
  unfold report_building. simpl.
  destruct (df_empty (df (snd nb))) eqn:Ee; simpl.
  - intros [= <-]. by rewrite app_nil_r.
  - intros H. apply rbind_Ok in H as (total & Ht & H). injection H as <-.
    apply series_sum_Ok in Ht. fold (total_of (snd nb)) in Ht. subst total.
    destruct (highest_consumer st) as [hc t]. unfold highest_among. simpl.
    destruct (Z.gtb_spec (total_of (snd nb)) t) as [Hgt|Hle]; simpl.
    + intros Hinv. exists P, (snd nb), []. destruct nb as [n b]. simpl in *.
      destruct hc as [n0|].
      * destruct Hinv as (pre & b0 & post & -> & -> & Hpos & Hpre & Hpost).
        repeat split; [lia| |constructor].
        apply Forall_app. split; [|constructor; [simpl; lia|]].
        -- eapply Forall_impl; [exact Hpre|]. simpl. intros; lia.
        -- eapply Forall_impl; [exact Hpost|]. simpl. intros; lia.
      * destruct Hinv as [-> Hall]. repeat split; [lia| |constructor].
        eapply Forall_impl; [exact Hall|]. simpl. intros; lia.
    + destruct hc as [n0|].
      * intros (pre & b0 & post & -> & -> & Hpos & Hpre & Hpost).
        exists pre, b0, (post ++ [nb]). rewrite <- app_assoc. simpl.
        repeat split; try done.
        apply Forall_app. split; [done|]. constructor; [lia|constructor].
      * intros [-> Hall]. split; [done|].
        apply Forall_app. split; [done|]. constructor; [lia|constructor].
Qed.

Lemma rfold_report_highest xs : forall st st' P,
  rfold report_building xs st = Ok st' ->
  highest_among P (highest_consumer st) ->
  highest_among (P ++ List.filter (fun nb => negb (df_empty (df (snd nb)))) xs)
                (highest_consumer st').
Proof.
  induction xs as [|nb xs IH]; intros st st' P H Hinv.
  - injection H as <-. simpl. by rewrite app_nil_r.
  - simpl in H. apply rbind_Ok in H as (st1 & H1 & H).
    pose proof (report_building_highest _ _ _ _ H1 Hinv) as Hinv1.
    pose proof (IH _ _ _ H Hinv1) as Hinv2.
    rewrite <- app_assoc in Hinv2.
    replace (List.filter _ (nb :: xs))
      with (List.filter (fun nb => negb (df_empty (df (snd nb)))) [nb]
            ++ List.filter (fun nb => negb (df_empty (df (snd nb)))) xs); [done|].
    simpl. by destruct (negb _).
Qed.

(** C5, counterexample.  Two buildings whose readings are all 0 have
    equal largest totals; the report names neither. *)
Lemma idle_buildings_none_reported : ~ first_largest_reported (loaded idle_dir).
Proof.
  intros H.
  destruct (H ∅ _ eq_refl) as (pre & n & b & post & _ & _ & _ & Hin).
  - vm_compute. discriminate.
  - vm_compute in Hin. repeat (destruct Hin as [Hin|Hin]; [discriminate|]). done.
Qed.

(** C5, amended.  Whenever the report is produced, its fourth line
    names the highest consumer: the first building, in the order the
    files were met, whose total is the largest, provided that total is
    greater than 0 (totals are compared with a strict [>], so of equal
    totals the first wins); when no building has a positive total the
    line names no building and a total of 0. *)
Theorem highest_consumer_first_positive (m : BuildingManager) (out : outdir)
    (lines : list summary_line) :
  snd (generate_summary_report m out) = Ok lines ->
  exists hc total,
    nth_error lines 3 = Some (HighestConsumer hc total)
    /\ highest_among (reported m) (hc, total).
Proof.
  unfold generate_summary_report.
  destruct (total_consumption m) as [total|e]; [|discriminate].
  destruct (rfold report_building (buildings m) _) as [lp|e] eqn:El; [|discriminate].
  destruct (if combined_empty m then _ else _) as [peak|e]; [|discriminate].
  simpl. intros [= <-].
  exists (fst (highest_consumer lp)), (snd (highest_consumer lp)).
  split; [done|].
  pose proof (rfold_report_highest _ _ _ [] El) as H. simpl in H.
  destruct (highest_consumer lp). apply H. split; [done|constructor].
Qed.

Lemma highest_consumer_first_positive_witness :
  exists hc total,
    nth_error [Title; Rule; TotalConsumption 14; HighestConsumer (Some "A") 7;
               PeakLoad (Stamp 28800) (Num 7) "B"] 3
    = Some (HighestConsumer hc total)
    /\ highest_among (reported (loaded tie_dir)) (hc, total).
Proof.
  exact (highest_consumer_first_positive (loaded tie_dir) ∅ _ eq_refl).
Defined.

(** C4, counterexample.  A file whose second row has no quantity: the
    row is not skipped, it is in the combined table. *)
Lemma row_without_quantity_kept : ~ incomplete_rows_skipped missing_kwh_dir.
Proof.
  intros H.
  destruct (H ("A.csv", Frame two_columns [mkRow (Stamp 28800) (Num 10);
                                           mkRow (Stamp 72000) NaN])
              (mkRow (Stamp 72000) NaN)) as (Hc & _ & _).
  - vm_compute. auto.
  - vm_compute. auto.
  - reflexivity.
  - apply Hc. vm_compute. auto.
Qed.

(** C4, amended.  A CSV file that lacks the timestamp column or the kwh
    column (so also one that lacks both) is skipped entirely and logged
    as an error: the manager ends as if the file were not in the
    directory, so the other files are processed as they are without it.
    Ingestion skips no single row and logs no warning about rows: every
    row of a file that has both columns becomes a reading of its
    building, whether or not its cells are filled. *)
Theorem file_without_columns_skipped (before after : directory) (file : string)
    (cols : list string) (rows : list Row) (m : BuildingManager) :
  PyStr.endswith file ".csv" = true ->
  has_column "timestamp" cols = false \/ has_column "kwh" cols = false ->
  fst (fst (load_data (before ++ (file, Frame cols rows) :: after) m))
  = fst (fst (load_data (before ++ after) m))
  /\ In (SkippingMissingColumns file)
        (snd (fst (load_data (before ++ (file, Frame cols rows) :: after) m)))
  /\ level_of (SkippingMissingColumns file) = ERROR
  /\ (forall ev,
        In ev (snd (fst (load_data (before ++ (file, Frame cols rows) :: after) m))) ->
        level_of ev <> WARNING)
  /\ (forall f r,
        In f (glob_csv (before ++ (file, Frame cols rows) :: after)) ->
        In r (usable f) ->
        In (reading_of r)
           (readings_of (stem (fst f))
              (buildings
                 (fst (fst (load_data (before ++ (file, Frame cols rows) :: after) m)))))).
Proof.
  intros Hcsv Hcols.
  assert (glob_csv (before ++ (file, Frame cols rows) :: after)
          = glob_csv before ++ (file, Frame cols rows) :: glob_csv after) as Hg.
  { rewrite glob_csv_app. f_equal. unfold glob_csv. simpl. by rewrite Hcsv. }
  repeat split.
  - rewrite !load_data_manager, Hg, glob_csv_app, !load_files_app. simpl.
    by rewrite load_file_skipped.
  - apply load_data_log_incl; [rewrite Hg; by destruct (glob_csv before)|].
    rewrite Hg, load_files_app. simpl. rewrite load_file_skipped by done.
    simpl. rewrite in_app_iff. right. simpl. auto.
  - intros ev Hev Hw. apply load_data_warnings in Hev as [_ He]; [|done].
    rewrite Hg in He. by destruct (glob_csv before).
  - intros f r. apply rows_become_readings.
Qed.

Lemma file_without_columns_skipped_witness :
  loaded mixed_dir
  = loaded [("A.csv", Frame two_columns [mkRow (Stamp 28800) (Num 10)]);
            ("B.csv", Frame two_columns [mkRow (Stamp 28800) (Num 7)])]
  /\ In (SkippingMissingColumns "notes.csv") (load_log mixed_dir).
Proof.
  destruct (file_without_columns_skipped
              [("A.csv", Frame two_columns [mkRow (Stamp 28800) (Num 10)])]
              [("B.csv", Frame two_columns [mkRow (Stamp 28800) (Num 7)])]
              "notes.csv" ["timestamp"; "remark"] [mkRow (Stamp 28800) NaN]
              BuildingManager_init eq_refl (or_intror eq_refl))
    as (H1 & H2 & _).
  split; [exact H1 | exact H2].
Defined.

(** C1, counterexample.  A file whose kwh column holds text: the row
    is not dropped, it is in the combined table. *)
Lemma text_quantity_row_kept : ~ unparsed_rows_dropped text_kwh_dir.
Proof.
  intros H.
  destruct (H ("A.csv", Frame two_columns [mkRow (Stamp 28800) (Text "10");
                                           mkRow (Stamp 72000) (Text "ten")])
              (mkRow (Stamp 72000) (Text "ten"))) as (Hc & _ & _).
  - vm_compute. auto.
  - vm_compute. auto.
  - reflexivity.
  - apply Hc. vm_compute. auto.
Qed.

Lemma daily_totals_explicit b s :
  df b = frame_of (readings b) EmptyDf ->
  forallb reading_ok (readings b) = true ->
  calculate_daily_totals b = Ok s ->
  s = resample_D_sum (sort_index (parsed (readings b))).
Proof.
  intros Hdf Hok. rewrite daily_totals_of_readings by done.
  destruct (readings b) as [|r rs]; [by intros [= <-]|].
  cbn [is_nil]. destruct (existsb is_text _); congruence.
Qed.

Lemma weekly_aggregates_explicit b s :
  df b = frame_of (readings b) EmptyDf ->
  forallb reading_ok (readings b) = true ->
  calculate_weekly_aggregates b = Ok s ->
  s = resample_W_agg (sort_index (parsed (readings b))).
Proof.
  intros Hdf Hok. rewrite weekly_aggregates_of_readings by done.
  destruct (readings b) as [|r rs]; [by intros [= <-]|].
  cbn [is_nil]. destruct (existsb is_text _); congruence.
Qed.

Lemma stamps_drop rs t :
  In t (stamps (sort_index (parsed (List.filter keep_reading rs)))) ->
  In t (stamps (sort_index (parsed rs))).
Proof.
  unfold stamps. intros Ht.
  eapply Permutation_in; [symmetry; apply Permutation_map, sort_index_perm|].
  eapply Permutation_in in Ht; [|apply Permutation_map, sort_index_perm].
  apply in_map_iff in Ht as (x & <- & Hx).
  unfold parsed in Hx. apply in_map_iff in Hx as (r & <- & Hr).
  apply filter_In in Hr as [Hr _].
  apply in_map_iff. exists (stamp_val (timestamp r), kwh r). split; [done|].
  unfold parsed. apply in_map_iff. by exists r.
Qed.

Lemma daily_padded rs :
  zero_padded
    (resample_D_sum (sort_index (parsed (List.filter keep_reading rs))))
    (resample_D_sum (sort_index (parsed rs))).
Proof.
  apply (binned_sums_padded day_of 1); [lia | apply day_of_mono | | |].
  - intros. apply Z.mod_1_r.
  - apply stamps_drop.
  - intros k. by rewrite !bin_total_sort, bin_total_filter.
Qed.

Lemma weekly_padded rs :
  zero_padded
    (weekly_sums (resample_W_agg (sort_index (parsed (List.filter keep_reading rs)))))
    (weekly_sums (resample_W_agg (sort_index (parsed rs)))).
Proof.
  unfold weekly_sums, resample_W_agg. rewrite !map_map. cbn [fst snd w_sum].
  apply (binned_sums_padded week_bin 7);
    [lia | apply week_bin_mono | apply week_bin_grid | apply stamps_drop |].
  intros k. by rewrite !bin_total_sort, bin_total_filter.
Qed.

(** C1, amended.  Ingestion has no numeric parsing and drops no row
    for its quantity: on input whose timestamps parse, every row of a
    file that has both columns, whatever its kwh cell holds, is in the
    combined table and among the readings of its source.  A row whose
    quantity is missing adds nothing to the sums (of whole-number
    quantities): the grand total is that of the input without such
    rows, and for every source the daily and the weekly sums are, day
    by day and week by week, those of the input without such rows (a
    day or week that a series does not list counting as 0).  The
    series themselves can be longer: they list every entry of the
    series of the input without such rows, and their other entries,
    the days and weeks that only rows without a quantity reach, have
    sum 0.  The other rows are processed all the same. *)
Theorem rows_kept_missing_ignored (dir : directory) :
  stamps_parse dir = true ->
  (forall f r,
     In f (glob_csv dir) -> In r (usable f) ->
     In (crow (stem (fst f)) r) (combined_rows (loaded dir))
     /\ In (reading_of r) (readings_of (stem (fst f)) (buildings (loaded dir))))
  /\ total_consumption (loaded (drop_missing dir)) = total_consumption (loaded dir)
  /\ (forall n b,
        dict_get n (buildings (loaded dir)) = Some b ->
        exists b',
          dict_get n (buildings (loaded (drop_missing dir))) = Some b'
          /\ (forall s, calculate_daily_totals b = Ok s ->
                exists s', calculate_daily_totals b' = Ok s'
                           /\ (forall d, value_on s' d = value_on s d)
                           /\ zero_padded s' s)
          /\ (forall s, calculate_weekly_aggregates b = Ok s ->
                exists s', calculate_weekly_aggregates b' = Ok s'
                           /\ (forall w, week_sum_on s' w = week_sum_on s w)
                           /\ zero_padded (weekly_sums s') (weekly_sums s))).
Proof.
  intros Hp. pose proof (stamps_parse_drop _ Hp) as Hp'.
  split; [|split].
  - intros f r Hf Hr. split.
    + rewrite combined_rows_loaded by done. apply in_flat_map.
      exists f. split; [done|]. by apply in_map.
    + by apply rows_become_readings.
  - rewrite !total_consumption_rows, !combined_rows_loaded by done.
    by rewrite glob_drop, !combined_cells, cells_drop, series_sum_filter.
  - intros n b Hb.
    destruct (buildings_drop dir n b Hp Hb)
      as (b' & Hb' & Hr & Hdf & Hdf' & Hok & Hok').
    exists b'. split; [done|]. split; intros s Hs.
    + destruct (daily_totals_value b s Hdf Hok Hs) as [Ht Hv].
      apply no_text_of_nonempty in Ht.
      destruct (daily_totals_exist b' Hdf' Hok') as [s' Hs'].
      { by rewrite Hr, kwh_filter, is_text_filter. }
      exists s'. split; [done|]. split.
      * intros d.
        destruct (daily_totals_value b' s' Hdf' Hok' Hs') as [_ Hv'].
        by rewrite Hv', Hv, Hr, bin_total_filter.
      * rewrite (daily_totals_explicit b s Hdf Hok Hs),
          (daily_totals_explicit b' s' Hdf' Hok' Hs'), Hr.
        apply daily_padded.
    + destruct (weekly_aggregates_value b s Hdf Hok Hs) as [Ht Hv].
      apply no_text_of_nonempty in Ht.
      destruct (weekly_aggregates_exist b' Hdf' Hok') as [s' Hs'].
      { by rewrite Hr, kwh_filter, is_text_filter. }
      exists s'. split; [done|]. split.
      * intros w.
        destruct (weekly_aggregates_value b' s' Hdf' Hok' Hs') as [_ Hv'].
        by rewrite Hv', Hv, Hr, bin_total_filter.
      * rewrite (weekly_aggregates_explicit b s Hdf Hok Hs),
          (weekly_aggregates_explicit b' s' Hdf' Hok' Hs'), Hr.
        apply weekly_padded.
Qed.

Lemma rows_kept_missing_ignored_witness :
  In (crow "A" (mkRow (Stamp 72000) NaN)) (combined_rows (loaded missing_kwh_dir))
  /\ total_consumption (loaded (drop_missing missing_kwh_dir))
     = total_consumption (loaded missing_kwh_dir)
  /\ zero_padded [(0, 10)]%Z [(0, 10); (1, 0); (2, 0); (3, 0)]%Z.
Proof.
  destruct (rows_kept_missing_ignored missing_kwh_dir eq_refl) as (H1 & H2 & _).
  split; [|split; [exact H2|]].
  - apply (H1 ("A.csv", Frame two_columns [mkRow (Stamp 28800) (Num 10);
                                           mkRow (Stamp 72000) NaN])
              (mkRow (Stamp 72000) NaN)).
    + vm_compute. auto.
    + vm_compute. auto.
  - destruct (rows_kept_missing_ignored trailing_nan_dir eq_refl) as (_ & _ & H3).
    destruct (H3 "A"
                {| name := "A";
                   readings := [{| timestamp := Stamp 28800; kwh := Num 10 |};
                                {| timestamp := Stamp 288000; kwh := NaN |}];
                   df := IndexedDf [(28800, Num 10); (288000, NaN)]%Z |}
                eq_refl) as (b' & Hb' & Hd & _).
    vm_compute in Hb'. injection Hb' as <-.
    destruct (Hd [(0, 10); (1, 0); (2, 0); (3, 0)]%Z eq_refl)
      as (s' & Hs' & _ & Hpad).
    vm_compute in Hs'. injection Hs' as <-. exact Hpad.
Defined.

End EnergyClaims.

(** ** The weather visualizer *)

Module WeatherClaims.
Import Weather.



End WeatherClaims.

(** ** Python string methods: facts *)

Module PyStrFacts.
Import PyStr.

Lemma app_nil s : EmptyString +:+ s = s.
Proof. done. Qed.

Lemma app_cons c s t : String c s +:+ t = String c (s +:+ t).
Proof. done. Qed.

Lemma app_empty_r s : s +:+ EmptyString = s.
Proof. induction s as [|c s IH]; [done | by rewrite app_cons, IH]. Qed.

Lemma app_assoc' s t u : (s +:+ t) +:+ u = s +:+ (t +:+ u).
Proof. induction s as [|c s IH]; [done | by rewrite !app_cons, IH]. Qed.

Lemma rev_app_app s t : String.rev_app s t = String.rev s +:+ t.
Proof.
  unfold String.rev. revert t. induction s as [|c s IH]; intros t; simpl; [done|].
  rewrite (IH (String c t)), (IH (String c EmptyString)).
  by rewrite app_assoc'.
Qed.

Lemma rev_cons c s : String.rev (String c s) = String.rev s +:+ String c EmptyString.
Proof. unfold String.rev at 1. simpl. apply rev_app_app. Qed.

Lemma rev_app_distr s t : String.rev (s +:+ t) = String.rev t +:+ String.rev s.
Proof.
  induction s as [|c s IH].
  - by rewrite app_nil, app_empty_r.
  - by rewrite app_cons, !rev_cons, IH, app_assoc'.
Qed.

Lemma rev_involutive s : String.rev (String.rev s) = s.
Proof.
  induction s as [|c s IH]; [done|].
  by rewrite rev_cons, rev_app_distr, IH.
Qed.

Lemma lstrip_clean s : starts_clean (lstrip s).
Proof.
  induction s as [|c s IH]; simpl; [done|].
  destruct (is_space c) eqn:E; [done | exact E].
Qed.

Lemma lstrip_id s : starts_clean s -> lstrip s = s.
Proof. destruct s as [|c s]; simpl; [done|]. by intros ->. Qed.

Lemma lstrip_snoc u c :
  is_space c = false ->
  lstrip (u +:+ String c EmptyString) = lstrip u +:+ String c EmptyString.
Proof.
  intros Hc. induction u as [|c' u IH].
  - rewrite app_nil. simpl. by rewrite Hc.
  - rewrite app_cons. simpl. by destruct (is_space c').
Qed.

(** [rstrip] leaves the beginning of a string alone. *)
Lemma rstrip_clean s : starts_clean s -> starts_clean (rstrip s).
Proof.
  destruct s as [|c s]; [done|]. simpl. intros Hc. unfold rstrip.
  rewrite rev_cons, lstrip_snoc, rev_app_distr by done. exact Hc.
Qed.

Lemma rstrip_idemp s : rstrip (rstrip s) = rstrip s.
Proof.
  unfold rstrip. rewrite rev_involutive.
  by rewrite (lstrip_id _ (lstrip_clean _)).
Qed.

(** [s.strip().strip() == s.strip()] *)
Lemma strip_idemp s : strip (strip s) = strip s.
Proof.
  unfold strip.
  rewrite (lstrip_id (rstrip (lstrip s))) by apply rstrip_clean, lstrip_clean.
  apply rstrip_idemp.
Qed.

End PyStrFacts.

(** ** The library inventory: further properties *)

Module LibraryExtras.
Import Library LibraryFacts.

Lemma Book_init_normal ti au isb st b :
  Book_init ti au isb st = Ok b -> normal b.
Proof.
  intros H. pose proof (Book_init_valid _ _ _ _ _ H) as Hv.
  unfold Book_init in H.
  apply rbind_Ok in H as (t & Ht & H).
  apply rbind_Ok in H as (a & Ha & H).
  apply rbind_Ok in H as (i & Hi & H).
  apply rbind_Ok in H as (s & _ & H).
  injection H as <-. unfold normal in *. simpl in *.
  destruct ti, au, isb; simpl in *; try discriminate.
  injection Ht as <-. injection Ha as <-. injection Hi as <-.
  by rewrite !PyStrFacts.strip_idemp.
Qed.

Lemma to_dict_lookup b :
  to_dict b !! "title" = Some (JStr (title b))
  /\ to_dict b !! "author" = Some (JStr (author b))
  /\ to_dict b !! "isbn" = Some (JStr (isbn b))
  /\ to_dict b !! "status" = Some (JStr (status b)).
Proof. unfold to_dict. repeat split; by simplify_map_eq. Qed.

Lemma to_dict_keys b : dom (to_dict b) ⊆ allowed_keys.
Proof.
  unfold to_dict, allowed_keys. rewrite !dom_insert_L, dom_empty_L. set_solver.
Qed.

(** The constructor gives back a book it made from that book's own
    dictionary. *)
Lemma Book_of_to_dict b : normal b -> Book_of_item (JObject (to_dict b)) = Ok b.
Proof.
  intros (Ht & Ha & Hi & Hs). unfold Book_of_item.
  rewrite bool_decide_eq_true_2 by apply to_dict_keys.
  destruct (to_dict_lookup b) as (-> & -> & -> & ->). simpl.
  unfold Book_init. simpl. rewrite Ht, Ha, Hi.
  destruct b as [t a i s]. unfold valid_status in Hs. simpl in *.
  destruct Hs as [-> | ->]; reflexivity.
Qed.

Lemma rmap_to_dict bs :
  Forall normal bs ->
  rmap Book_of_item (map (fun b => JObject (to_dict b)) bs) = Ok bs.
Proof.
  induction 1 as [|b bs Hb _ IH]; [done|].
  cbn [map rmap]. by rewrite Book_of_to_dict, IH.
Qed.

Lemma load_after_save bs d :
  writable d = true -> readable d = true -> Forall normal bs ->
  load_books (fst (save_books bs d)) = Ok (bs, [CatalogLoaded (length bs)]).
Proof.
  intros Hw Hr Hn. unfold save_books. rewrite Hw. unfold load_books, dump. simpl.
  rewrite Hr. simpl. by rewrite rmap_to_dict.
Qed.

Lemma load_books_normal d bs l : load_books d = Ok (bs, l) -> Forall normal bs.
Proof.
  unfold load_books. intros H.
  destruct (content d) as [c|]; [|injection H as <- _; constructor].
  destruct (negb (readable d)); [injection H as <- _; constructor|].
  destruct c as [|f|[items|]]; try (injection H as <- _; constructor);
    [discriminate|].
  apply rbind_Ok in H as (bs' & Hbs & H). injection H as <- _.
  eapply rmap_Forall; [|exact Hbs].
  intros it b. destruct it as [f|]; simpl; [|discriminate].
  destruct (bool_decide _); [|discriminate].
  destruct (f !! "title"); [|discriminate].
  destruct (f !! "author"); [|discriminate].
  destruct (f !! "isbn"); [|discriminate].
  apply Book_init_normal.
Qed.

Lemma set_status_normal b s :
  normal b -> s = "available" \/ s = "issued" -> normal (set_status b s).
Proof. intros (Ht & Ha & Hi & _) Hs. by repeat split. Qed.

Lemma handle_normal c st :
  Forall normal (books st) -> Forall normal (books (handle c st)).
Proof.
  intros Hv. destruct c; simpl; try done.
  - destruct (add_book ti au isb st) as [st'|e] eqn:E; [|done].
    unfold add_book in E.
    destruct (_ || _ || _); [by injection E as <-|].
    destruct (existsb _ _); [by injection E as <-|].
    apply rbind_Ok in E as (b & Hb & E). injection E as <-. simpl.
    apply Forall_app. split; [done|].
    constructor; [by eapply Book_init_normal | constructor].
  - destruct (search_by_isbn isb (books st)) as [[k b]|] eqn:E; [|done].
    unfold issue. destruct (String.eqb (status b) "available"); simpl; [|done].
    apply Forall_insert; [done|]. apply set_status_normal; [|by right].
    apply search_by_isbn_lookup in E. eapply Forall_lookup_1; eauto.
  - destruct (search_by_isbn isb (books st)) as [[k b]|] eqn:E; [|done].
    unfold return_book. destruct (String.eqb (status b) "issued"); simpl; [|done].
    apply Forall_insert; [done|]. apply set_status_normal; [|by left].
    apply search_by_isbn_lookup in E. eapply Forall_lookup_1; eauto.
  - destruct (books st) eqn:E; simpl; by rewrite E.
  - by destruct (search_by_title t (books st)).
  - by destruct (search_by_isbn isb (books st)) as [[k b]|].
Qed.

(** A turn of the menu either leaves books and file alone, or saves
    the books it ends with. *)
Lemma handle_file c st :
  (books (handle c st) = books st /\ file (handle c st) = file st)
  \/ (books (handle c st) <> books st
      /\ file (handle c st) = fst (save_books (books (handle c st)) (file st))).
Proof.
  destruct c; simpl; auto.
  - destruct (add_book ti au isb st) as [st'|e] eqn:E; [|auto].
    unfold add_book in E.
    destruct (_ || _ || _); [injection E as <-; auto|].
    destruct (existsb _ _); [injection E as <-; auto|].
    apply rbind_Ok in E as (b & Hb & E). injection E as <-. simpl.
    right. split; [|done]. intros H. apply (f_equal length) in H.
    rewrite length_app in H. simpl in H. lia.
  - destruct (search_by_isbn isb (books st)) as [[k b]|] eqn:E; [|auto].
    apply search_by_isbn_lookup in E.
    unfold issue. destruct (String.eqb (status b) "available") eqn:Es; simpl; [|auto].
    right. split; [|done]. intros H.
    assert (<[k:=set_status b "issued"]> (books st) !! k = Some b) as Hk
      by (by rewrite H).
    rewrite list_lookup_insert_eq in Hk by (by eapply lookup_lt_Some).
    injection Hk as Hk. apply String.eqb_eq in Es.
    rewrite <- Hk in Es. discriminate Es.
  - destruct (search_by_isbn isb (books st)) as [[k b]|] eqn:E; [|auto].
    apply search_by_isbn_lookup in E.
    unfold return_book. destruct (String.eqb (status b) "issued") eqn:Es; simpl; [|auto].
    right. split; [|done]. intros H.
    assert (<[k:=set_status b "available"]> (books st) !! k = Some b) as Hk
      by (by rewrite H).
    rewrite list_lookup_insert_eq in Hk by (by eapply lookup_lt_Some).
    injection Hk as Hk. apply String.eqb_eq in Es.
    rewrite <- Hk in Es. discriminate Es.
  - destruct (books st) eqn:E; simpl; rewrite ?E; auto.
  - destruct (search_by_title t (books st)); auto.
  - destruct (search_by_isbn isb (books st)) as [[k b]|]; auto.
Qed.

Lemma save_books_flags bs d :
  readable (fst (save_books bs d)) = readable d
  /\ writable (fst (save_books bs d)) = writable d.
Proof. unfold save_books. by destruct (writable d) eqn:E. Qed.

Lemma handle_restart c st :
  Forall normal (books st) -> readable (file st) = true ->
  writable (file st) = true -> restart_agrees st ->
  readable (file (handle c st)) = true /\ writable (file (handle c st)) = true
  /\ restart_agrees (handle c st).
Proof.
  intros Hn Hr Hw Ha. pose proof (handle_normal c st Hn) as Hn'.
  destruct (handle_file c st) as [[Hb Hf]|[_ Hf]]; unfold restart_agrees.
  - by rewrite Hb, Hf.
  - rewrite Hf. destruct (save_books_flags (books (handle c st)) (file st)) as [-> ->].
    repeat split; try done. eexists. by apply load_after_save.
Qed.

(** X1.  Whatever the catalog file held when the program started, and
    whatever menu choices were made since, on a file that can be read
    and written the inventory is what a restart would load: every
    change is in the file, and loading it gives back exactly the books
    in memory. *)
Theorem restart_keeps_inventory (d : disk) (st : state) (cs : list choice) :
  LibraryInventory_init d = Ok st ->
  readable d = true -> writable d = true ->
  exists l, load_books (file (run cs st)) = Ok (books (run cs st), l).
Proof.
  intros Hi Hr Hw. unfold LibraryInventory_init in Hi.
  apply rbind_Ok in Hi as ([bs l] & Hl & Hi). injection Hi as <-.
  assert (Forall normal bs) as Hn by (by eapply load_books_normal).
  set (st := {| books := bs; file := d; logged := l; printed := [] |}).
  assert (Forall normal (books st) /\ readable (file st) = true
          /\ writable (file st) = true /\ restart_agrees st) as Hinv.
  { repeat split; try done. by exists l. }
  clearbody st. clear Hl Hn. revert st Hinv.
  induction cs as [|c cs IH]; intros st (Hn & Hr' & Hw' & Ha); [exact Ha|].
  simpl. apply IH.
  destruct (handle_restart c st Hn Hr' Hw' Ha) as (? & ? & ?).
  repeat split; try done. by apply handle_normal.
Qed.

Lemma restart_keeps_inventory_witness :
  exists st l,
    LibraryInventory_init handwritten = Ok st
    /\ load_books (file (run [IssueBook "2"; AddBook " E " "anon" "5";
                               ReturnBook "1"; ViewAll] st))
       = Ok (books (run [IssueBook "2"; AddBook " E " "anon" "5";
                         ReturnBook "1"; ViewAll] st), l).
Proof.
  destruct (LibraryInventory_init handwritten) as [st|e] eqn:E;
    [|vm_compute in E; discriminate].
  destruct (restart_keeps_inventory handwritten st
              [IssueBook "2"; AddBook " E " "anon" "5"; ReturnBook "1"; ViewAll]
              E eq_refl eq_refl) as [l Hl].
  exists st, l. split; [reflexivity | exact Hl].
Defined.

Lemma Book_init_fields t a i :
  Book_init (JStr t) (JStr a) (JStr i) (JStr "available")
  = Ok {| title := PyStr.strip t; author := PyStr.strip a;
          isbn := PyStr.strip i; status := "available" |}.
Proof. reflexivity. Qed.

Lemma fmap_insert_same {A B : Type} (f : A -> B) (l : list A) k x y :
  l !! k = Some x -> f y = f x -> map f (<[k:=y]> l) = map f l.
Proof.
  intros Hk Hf. change (map f) with (fmap (M:=list) f).
  rewrite list_fmap_insert, Hf. apply list_insert_id.
  by rewrite list_lookup_fmap, Hk.
Qed.

Lemma existsb_isbn_false i bs :
  existsb (fun b => String.eqb (isbn b) i) bs = false -> ~ In i (map isbn bs).
Proof.
  induction bs as [|b bs IH]; simpl; [tauto|].
  intros H. apply orb_false_iff in H as [Hb Hbs].
  apply String.eqb_neq in Hb. intros [?|?]; [done | by apply IH].
Qed.

(** What a turn of the menu does to the list of books: nothing, a new
    book with a fresh ISBN at the end, or a new status for one book. *)
Lemma handle_books c st :
  books (handle c st) = books st
  \/ (exists b, books (handle c st) = books st ++ [b]
                /\ ~ In (isbn b) (map isbn (books st)))
  \/ (exists k b s, books st !! k = Some b
                    /\ books (handle c st) = <[k:=set_status b s]> (books st)).
Proof.
  destruct c; simpl; auto.
  - destruct (add_book ti au isb st) as [st'|e] eqn:E; [|auto].
    unfold add_book in E.
    destruct (_ || _ || _); [injection E as <-; auto|].
    destruct (existsb _ _) eqn:Ex; [injection E as <-; auto|].
    rewrite Book_init_fields in E. simpl in E. injection E as <-. simpl.
    right. left. eexists. split; [done|]. simpl.
    rewrite PyStrFacts.strip_idemp. by apply existsb_isbn_false.
  - destruct (search_by_isbn isb (books st)) as [[k b]|] eqn:E; [|auto].
    apply search_by_isbn_lookup in E.
    unfold issue. destruct (String.eqb (status b) "available"); simpl; [|auto].
    right. right. eauto.
  - destruct (search_by_isbn isb (books st)) as [[k b]|] eqn:E; [|auto].
    apply search_by_isbn_lookup in E.
    unfold return_book. destruct (String.eqb (status b) "issued"); simpl; [|auto].
    right. right. eauto.
  - destruct (books st) eqn:E; simpl; rewrite ?E; auto.
  - destruct (search_by_title t (books st)); auto.
  - destruct (search_by_isbn isb (books st)) as [[k b]|]; auto.
Qed.

(** X2.  The menu never gives two books the same ISBN: if the ISBNs of
    the inventory are distinct, they are distinct after any sequence
    of menu choices. *)
Theorem isbn_stays_unique (cs : list choice) (st : state) :
  NoDup (map isbn (books st)) -> NoDup (map isbn (books (run cs st))).
Proof.
  revert st. induction cs as [|c cs IH]; intros st Hnd; [done|].
  simpl. apply IH.
  destruct (handle_books c st) as [->|[(b & -> & Hb)|(k & b & s & Hk & ->)]].
  - done.
  - rewrite map_app. simpl. apply NoDup_app. repeat split; [done| |].
    + intros x Hx [<-|[]]%list_elem_of_In. by apply Hb, list_elem_of_In.
    + apply NoDup_singleton.
  - by rewrite (fmap_insert_same isbn _ _ b).
Qed.

Lemma isbn_stays_unique_witness :
  NoDup (map isbn (books (run [AddBook "Dune" "Herbert" " 1 ";
                               AddBook "Ulysses" "Joyce" "3";
                               IssueBook "3"] desk))).
Proof.
  apply (isbn_stays_unique _ desk). vm_compute.
  repeat constructor; rewrite ?list_elem_of_In; simpl; intuition discriminate.
Defined.

(** X3.  No menu choice deletes a book or edits its title, author or
    ISBN: after any sequence of choices the books that were there are
    still there, in the same order, followed by the books added since.
    And a turn writes the file only if it changed the books. *)
Theorem books_are_never_lost (cs : list choice) (st : state) :
  map identity (books st) `prefix_of` map identity (books (run cs st))
  /\ forall c, books (handle c st) = books st -> file (handle c st) = file st.
Proof.
  split.
  - revert st. induction cs as [|c cs IH]; intros st; [done|].
    simpl. etrans; [|apply IH].
    destruct (handle_books c st) as [->|[(b & -> & _)|(k & b & s & Hk & ->)]].
    + done.
    + rewrite map_app. by apply prefix_app_r.
    + by rewrite (fmap_insert_same identity _ _ b).
  - intros c Hb. by destruct (handle_file c st) as [[_ Hf]|[Hn _]].
Qed.

Lemma find_isbn_insert i bs : forall k0 k b b',
  find_isbn i bs k0 = Some (k, b) -> isbn b' = isbn b ->
  find_isbn i (<[k - k0 := b']> bs) k0 = Some (k, b').
Proof.
  induction bs as [|x bs IH]; intros k0 k b b' H Hi; simpl in *; [done|].
  destruct (String.eqb (isbn x) i) eqn:E.
  - injection H as <- <-. replace (k0 - k0) with 0 by lia. simpl.
    by rewrite Hi, E.
  - pose proof (find_isbn_lookup _ _ _ _ _ H) as (Hle & _ & _).
    replace (k - k0) with (S (k - S k0)) by lia. simpl. rewrite E.
    by apply IH with b.
Qed.

Lemma search_after_status i bs k b s :
  search_by_isbn i bs = Some (k, b) ->
  search_by_isbn i (<[k := set_status b s]> bs) = Some (k, set_status b s).
Proof.
  unfold search_by_isbn. intros H.
  pose proof (find_isbn_insert _ _ 0 k b (set_status b s) H eq_refl) as H'.
  by replace (k - 0) with k in H' by lia.
Qed.

(** X4.  Issuing an available book and then returning it puts the
    inventory back as it was, and the file (when it can be written)
    holds that inventory again. *)
Theorem issue_then_return (st : state) (i : string) (k : nat) (b : Book) :
  search_by_isbn i (books st) = Some (k, b) ->
  status b = "available" ->
  books (run [IssueBook i; ReturnBook i] st) = books st
  /\ (writable (file st) = true ->
      content (file (run [IssueBook i; ReturnBook i] st)) = Some (dump (books st))).
Proof.
  intros Hs Hst. pose proof (search_by_isbn_lookup _ _ _ _ Hs) as Hk.
  assert (books (handle (IssueBook i) st) = <[k := set_status b "issued"]> (books st)
          /\ file (handle (IssueBook i) st)
             = fst (save_books (<[k := set_status b "issued"]> (books st)) (file st)))
    as [Hb1 Hf1].
  { simpl. rewrite Hs. unfold issue. rewrite Hst. simpl. done. }
  assert (set_status (set_status b "issued") "available" = b) as Hback.
  { destruct b as [t a i' s]. simpl in Hst. by subst s. }
  unfold run. cbn [fold_left].
  set (st1 := handle (IssueBook i) st) in *.
  assert (handle (ReturnBook i) st1
          = print ["Returned: " +:+ title b]
              (save (set_books (<[k := b]> (books st1)) st1))) as ->.
  { cbn [handle]. rewrite Hb1, (search_after_status _ _ _ _ "issued" Hs).
    assert (return_book (set_status b "issued") = (b, true)) as ->
      by (by rewrite <- Hback at 2).
    done. }
  cbn [books print save set_books file].
  rewrite Hb1, list_insert_insert_eq, (list_insert_id _ _ _ Hk).
  split; [done|]. intros Hw. rewrite Hf1.
  unfold save_books at 1.
  destruct (save_books_flags (<[k:=set_status b "issued"]> (books st)) (file st))
    as [_ ->].
  by rewrite Hw.
Qed.

Lemma issue_then_return_witness :
  books (run [IssueBook "1"; ReturnBook "1"] desk) = books desk
  /\ content (file (run [IssueBook "1"; ReturnBook "1"] desk))
     = Some (dump (books desk)).
Proof.
  destruct (issue_then_return desk "1" 0 dune eq_refl eq_refl) as [H1 H2].
  split; [exact H1 | exact (H2 eq_refl)].
Defined.

Lemma find_isbn_fresh i bs b : forall k0,
  existsb (fun x => String.eqb (isbn x) i) bs = false -> isbn b = i ->
  find_isbn i (bs ++ [b]) k0 = Some (k0 + length bs, b).
Proof.
  induction bs as [|x bs IH]; intros k0 Hex Hb; simpl in *.
  - rewrite Hb, String.eqb_refl. f_equal. f_equal. lia.
  - apply orb_false_iff in Hex as [Hx Hex]. rewrite Hx.
    rewrite IH by done. f_equal. f_equal. lia.
Qed.

(** X5.  Adding a book whose title, author and ISBN are not blank and
    whose ISBN is not in the inventory puts it last, with its fields
    stripped and the status "available"; a search for that ISBN then
    finds it, and the file (when it can be written) holds the whole
    new inventory. *)
Theorem add_book_then_search (ti au isb : string) (st : state) :
  PyStr.strip ti <> EmptyString ->
  PyStr.strip au <> EmptyString ->
  PyStr.strip isb <> EmptyString ->
  existsb (fun b => String.eqb (isbn b) (PyStr.strip isb)) (books st) = false ->
  exists st',
    add_book ti au isb st = Ok st'
    /\ books st'
       = books st ++ [{| title := PyStr.strip ti; author := PyStr.strip au;
                         isbn := PyStr.strip isb; status := "available" |}]
    /\ search_by_isbn isb (books st')
       = Some (length (books st),
               {| title := PyStr.strip ti; author := PyStr.strip au;
                  isbn := PyStr.strip isb; status := "available" |})
    /\ (writable (file st) = true -> content (file st') = Some (dump (books st'))).
Proof.
  intros Ht Ha Hi Hex. unfold add_book.
  apply String.eqb_neq in Ht, Ha, Hi. rewrite Ht, Ha, Hi, Hex.
  cbn [orb]. rewrite Book_init_fields. cbn [rbind].
  rewrite !PyStrFacts.strip_idemp.
  eexists. split; [done|]. cbn [books log save set_books file fst].
  repeat split.
  - unfold search_by_isbn. by rewrite find_isbn_fresh.
  - intros Hw. unfold save_books. by rewrite Hw.
Qed.

Lemma add_book_then_search_witness :
  exists st',
    add_book " Ulysses " "Joyce" " 3 " desk = Ok st'
    /\ search_by_isbn "3" (books st')
       = Some (2, {| title := "Ulysses"; author := "Joyce"; isbn := "3";
                     status := "available" |}).
Proof.
  destruct (add_book_then_search " Ulysses " "Joyce" " 3 " desk)
    as (st' & H1 & H2 & H3 & _); try (vm_compute; congruence).
  exists st'. split; [exact H1|]. rewrite H2. reflexivity.
Defined.

(** X16.  [prompt_non_empty] never returns an empty answer: what it
    returns is the first line that is not blank, stripped (so it is
    not empty and a further strip leaves it as it is), the lines after
    it stay unread, and the complaint was shown once for each blank
    line before it.  When every line is blank the input runs out and
    [input] raises EOFError. *)
Theorem prompt_non_empty_answer (label : string) (stdin : list string) :
  match prompt_non_empty label stdin with
  | (Ok s, rest, shown) =>
      s <> EmptyString /\ PyStr.strip s = s
      /\ exists blanks l,
           stdin = blanks ++ l :: rest /\ Forall blank blanks
           /\ s = PyStr.strip l /\ shown = shown_for label (length blanks)
  | (Raise e, rest, shown) =>
      e = EOFError /\ Forall blank stdin /\ rest = []
      /\ shown = shown_for label (length stdin)
  end.
Proof.
  induction stdin as [|l rest IH]; simpl; [by repeat split|].
  destruct (String.eqb_spec (PyStr.strip l) EmptyString) as [Hl|Hl]; simpl.
  - destruct (prompt_non_empty label rest) as [[[s|e] rest'] shown]; simpl.
    + destruct IH as (Hs & Hid & blanks & l0 & -> & Hb & -> & ->).
      repeat split; [done..|].
      exists (l :: blanks), l0. repeat split; by try constructor.
    + destruct IH as (-> & Hb & -> & ->). repeat split; by try constructor.
  - repeat split; [done | apply PyStrFacts.strip_idemp|].
    exists [], l. by repeat split.
Qed.

Lemma contains_empty s : PyStr.contains EmptyString s = true.
Proof. by destruct s. Qed.

Lemma prefix_refl s : String.prefix s s = true.
Proof.
  induction s as [|c s IH]; simpl; [done|]. by destruct (ascii_dec c c).
Qed.

Lemma contains_refl s : PyStr.contains s s = true.
Proof. destruct s; simpl; [done|]. by rewrite prefix_refl, ?orb_true_l;
  destruct (ascii_dec _ _). Qed.

Lemma filter_sublist {A : Type} (p : A -> bool) l : sublist (List.filter p l) l.
Proof.
  induction l as [|a l IH]; simpl; [constructor|].
  destruct (p a); by constructor.
Qed.

(** X17.  [search_by_title] returns books of the inventory, in the
    order of the inventory, and exactly those whose title contains the
    stripped query when case is ignored.  So a blank query returns
    every book, and a query that equals a book's title up to case and
    surrounding blanks finds that book. *)
Theorem search_by_title_matches (t : string) (bs : list Book) :
  sublist (search_by_title t bs) bs
  /\ (forall b, In b (search_by_title t bs)
                <-> In b bs
                    /\ PyStr.contains (PyStr.lower (PyStr.strip t))
                                      (PyStr.lower (title b)) = true)
  /\ (PyStr.strip t = EmptyString -> search_by_title t bs = bs)
  /\ (forall b, In b bs ->
                PyStr.lower (PyStr.strip t) = PyStr.lower (title b) ->
                In b (search_by_title t bs)).
Proof.
  unfold search_by_title. cbv zeta.
  split; [apply filter_sublist|].
  split; [intros b; apply filter_In|].
  split.
  - intros ->. simpl. induction bs as [|b bs IH]; simpl; [done|].
    by rewrite contains_empty, IH.
  - intros b Hb ->. apply filter_In. split; [done | apply contains_refl].
Qed.

Lemma search_by_title_matches_witness :
  In dune (search_by_title "  DUNE " [dune; emma])
  /\ search_by_title "   " [dune; emma] = [dune; emma].
Proof.
  destruct (search_by_title_matches "  DUNE " [dune; emma]) as (_ & _ & _ & H1).
  destruct (search_by_title_matches "   " [dune; emma]) as (_ & _ & H2 & _).
  split; [apply (H1 dune); [by left | reflexivity] | apply H2; reflexivity].
Defined.

Lemma rmap_Raise {A B : Type} (f : A -> result B) xs e :
  rmap f xs = Raise e
  <-> exists pre x post,
        xs = pre ++ x :: post
        /\ Forall (fun y => exists b, f y = Ok b) pre /\ f x = Raise e.
Proof.
  split.
  - induction xs as [|x xs IH]; simpl; [done|].
    destruct (f x) as [b|e0] eqn:Ex; simpl.
    + destruct (rmap f xs) as [bs|e1]; simpl; [done|].
      intros [= ->]. destruct (IH eq_refl) as (pre & y & post & -> & Hpre & Hy).
      exists (x :: pre), y, post. repeat split; [|done]. constructor; eauto.
    + intros [= ->]. exists [], x, xs. by repeat split.
  - intros (pre & x & post & -> & Hpre & Hx).
    induction Hpre as [|y pre [b Hy] _ IH]; simpl.
    + by rewrite Hx.
    + rewrite Hy. simpl. by rewrite IH.
Qed.

Lemma Book_of_item_raises it e :
  Book_of_item it = Raise e -> e = TypeError \/ e = AttributeError.
Proof.
  destruct it as [f|]; simpl; [|intros [= <-]; by left].
  destruct (bool_decide _); [|intros [= <-]; by left].
  destruct (f !! "title") as [t|]; [|intros [= <-]; by left].
  destruct (f !! "author") as [a|]; [|intros [= <-]; by left].
  destruct (f !! "isbn") as [i|]; [|intros [= <-]; by left].
  unfold Book_init, py_strip.
  destruct t, a, i, (default _ _) as [?| |[]]; simpl;
    try destruct (negb _); simpl; intros [= <-]; by right.
Qed.

(** X18.  Creating the inventory raises in exactly two cases, both
    with a catalog file that exists and can be opened.  Either
    [json.load] fails with an exception that is not a JSONDecodeError
    (UnicodeDecodeError, ValueError, RecursionError), which the except
    clause of [load_books] does not name; or the file holds a JSON list
    and some entry of it is rejected by [Book]: the exception is then
    that of the first rejected entry, a TypeError (not an object, an
    unknown key, or no title, author or isbn) or an AttributeError (a
    field that is not a string).  A missing file, a file that cannot
    be opened, invalid JSON and a root that is not a list are caught:
    the program starts with an empty inventory. *)
Theorem malformed_entry_stops_startup (d : disk) :
  (forall e, LibraryInventory_init d = Raise e
             <-> readable d = true
                 /\ ((exists f, content d = Some (Unloadable f) /\ e = exn_of f)
                     \/ (exists items, content d = Some (Parsed (JList items))
                                       /\ first_rejected items e)))
  /\ (forall e items,
        content d = Some (Parsed (JList items)) ->
        LibraryInventory_init d = Raise e ->
        e = TypeError \/ e = AttributeError)
  /\ (content d = None \/ readable d = false
      \/ content d = Some Invalid \/ content d = Some (Parsed JNotList) ->
      exists st, LibraryInventory_init d = Ok st /\ books st = []).
Proof.
  assert (forall e, LibraryInventory_init d = Raise e
             <-> readable d = true
                 /\ ((exists f, content d = Some (Unloadable f) /\ e = exn_of f)
                     \/ (exists items, content d = Some (Parsed (JList items))
                                       /\ first_rejected items e))) as H.
  { intros e. unfold LibraryInventory_init, load_books, first_rejected.
    destruct (content d) as [[|f|[items|]]|]; simpl;
      destruct (readable d); simpl;
      try (split; [done | by intros (? & [(? & ? & ?)|(? & ? & ?)])]).
    - split.
      + intros [= <-]. split; [done|]. left. by exists f.
      + intros (_ & [(? & [= <-] & ->)|(? & ? & ?)]); done.
    - pose proof (rmap_Raise Book_of_item items e) as Hr.
      destruct (rmap Book_of_item items) as [bs|e0]; simpl.
      + split; [done|]. intros (_ & [(? & ? & ?)|(? & [= <-] & Hrej)]); [done|].
        by apply Hr in Hrej.
      + split.
        * intros [= ->]. split; [done|]. right. exists items. split; [done|].
          by apply (proj1 Hr).
        * intros (_ & [(? & ? & ?)|(? & [= <-] & Hrej)]); [done|].
          apply Hr in Hrej. congruence. }
  split; [exact H|]. split.
  - intros e items Hc (_ & [(f & Hf & _)|(items' & _ & pre & it & post & _ & _ & Hit)])%H;
      [congruence|].
    by apply Book_of_item_raises in Hit.
  - unfold LibraryInventory_init, load_books.
    intros [Hc|[Hr|[Hc|Hc]]]; rewrite ?Hc; simpl.
    + eauto.
    + rewrite Hr. destruct (content d); simpl; eauto.
    + destruct (readable d); simpl; eauto.
    + destruct (readable d); simpl; eauto.
Qed.

Lemma malformed_entry_stops_startup_witness :
  LibraryInventory_init annotated = Raise TypeError.
Proof.
  destruct (malformed_entry_stops_startup annotated) as [H _].
  apply H. split; [reflexivity|]. right. eexists. split; [reflexivity|].
  exists [entry "A" "1" []], (entry "B" "2" [("year", JOther true)]), [].
  split; [reflexivity|]. split; [|by vm_compute].
  constructor; [|constructor]. eexists. by vm_compute.
Defined.

End LibraryExtras.

(** ** The energy dashboard: further properties *)

Module EnergyExtras.
Import Energy EnergyFacts.

Lemma sum_indicator (a v : Z) ks :
  NoDup ks -> In a ks ->
  sumZ (map (fun k => if (a =? k)%Z then v else 0%Z) ks) = v.
Proof.
  induction 1 as [|k ks Hk Hnd IH]; simpl; [done|].
  intros [->|Ha].
  - rewrite Z.eqb_refl.
    assert (sumZ (map (fun k0 => if (a =? k0)%Z then v else 0%Z) ks) = 0%Z) as ->;
      [|lia].
    clear IH Hnd. induction ks as [|x ks IH]; simpl; [done|].
    destruct (Z.eqb_spec a x) as [->|]; [exfalso; apply Hk; by left|].
    rewrite IH; [done|]. intros H. apply Hk. by right.
  - destruct (Z.eqb_spec a k) as [->|]; [exfalso; by apply Hk, list_elem_of_In|].
    by rewrite IH.
Qed.

Lemma sumZ_map_add {A : Type} (f g : A -> Z) l :
  sumZ (map (fun a => (f a + g a)%Z) l) = (sumZ (map f l) + sumZ (map g l))%Z.
Proof. induction l as [|a l IH]; simpl; lia. Qed.

(** Every number of the table is counted in exactly one bin. *)
Lemma bin_totals_add_up bin ks rows :
  NoDup ks -> (forall r, In r rows -> In (bin (fst r)) ks) ->
  sumZ (map (fun k => bin_total bin k rows) ks) = sumZ (nums (map snd rows)).
Proof.
  intros Hnd. induction rows as [|r rows IH]; intros Hin.
  - simpl. induction ks as [|k ks IHk]; simpl; [done|].
    apply NoDup_cons in Hnd as [_ Hnd]. by rewrite IHk.
  - rewrite (map_ext _ (fun k =>
      ((if (bin (fst r) =? k)%Z then default 0%Z (num_of (snd r)) else 0%Z)
       + bin_total bin k rows)%Z)) by (intros; apply bin_total_cons).
    rewrite sumZ_map_add, IH by (intros; apply Hin; by right).
    rewrite sum_indicator; [|done|apply Hin; by left].
    change (map snd (r :: rows)) with (snd r :: map snd rows).
    rewrite nums_cons. destruct (num_of (snd r)); simpl; lia.
Qed.

Lemma bins_NoDup bin step rows : (0 < step)%Z -> NoDup (bins bin step rows).
Proof.
  intros Hs. unfold bins.
  destruct (minZ (stamps rows)), (maxZ (stamps rows)); try apply NoDup_nil_2.
  by apply zrange_NoDup.
Qed.

Lemma resample_D_add_up rows :
  sumZ (map snd (resample_D_sum rows)) = sumZ (nums (map snd rows)).
Proof.
  unfold resample_D_sum. rewrite map_map. simpl.
  apply (bin_totals_add_up day_of); [by apply bins_NoDup|].
  intros r Hr. apply (row_in_bins day_of 1); try lia.
  - apply day_of_mono.
  - intros a b. apply Z.mod_1_r.
  - unfold stamps. by apply in_map.
Qed.

Lemma resample_W_add_up rows :
  sumZ (week_sums (resample_W_agg rows)) = sumZ (nums (map snd rows)).
Proof.
  unfold week_sums, resample_W_agg. rewrite map_map. simpl.
  apply (bin_totals_add_up week_bin); [by apply bins_NoDup|].
  intros r Hr. apply (row_in_bins week_bin 7); try lia.
  - apply week_bin_mono.
  - apply week_bin_grid.
  - unfold stamps. by apply in_map.
Qed.

Lemma zrange_consecutive lo hi : consecutive (zrange lo hi 1).
Proof.
  unfold consecutive, zrange. intros i d Hi d0 H0.
  change (map ?f ?l) with (f <$> l) in *.
  rewrite list_lookup_fmap in Hi, H0.
  destruct (seq 0 _ !! i) as [j|] eqn:Ej; [|done].
  destruct (seq 0 _ !! 0) as [j0|] eqn:Ej0; [|done].
  apply lookup_seq in Ej as [-> _]. apply lookup_seq in Ej0 as [-> _].
  simpl in *. injection Hi as <-. injection H0 as <-. lia.
Qed.

Lemma empty_frame_total b : df_empty (df b) = true -> total_of b = 0%Z.
Proof.
  unfold total_of. destruct (df b) as [|rows|rows]; simpl; [done| |];
    by destruct rows.
Qed.

(** X6.  For whole-number quantities (which [float64] adds exactly)
    and readings that all bear a timestamp, the daily totals of a
    building add up to its total consumption, and so do its weekly
    sums; the days of the daily series follow each other without a gap
    (a day without readings is listed with 0).  Fractional quantities
    and rows with an empty timestamp cell are outside the model. *)
Theorem daily_totals_add_up (b : Building) :
  (forall s, calculate_daily_totals b = Ok s ->
             sumZ (map snd s) = total_of b /\ consecutive (map fst s))
  /\ (forall w, calculate_weekly_aggregates b = Ok w ->
                sumZ (week_sums w) = total_of b).
Proof.
  split.
  - intros s. unfold calculate_daily_totals.
    destruct (df_empty (df b)) eqn:Ee.
    + intros [= <-]. split; [by rewrite empty_frame_total|done].
    + unfold total_of. destruct (df b) as [|rows|rows]; try discriminate.
      destruct (existsb is_text _); [discriminate|]. intros [= <-].
      split; [apply resample_D_add_up|].
      unfold resample_D_sum. rewrite map_map. simpl. rewrite map_id.
      unfold bins. destruct (minZ (stamps rows)), (maxZ (stamps rows)); try done.
      apply zrange_consecutive.
  - intros w. unfold calculate_weekly_aggregates.
    destruct (df_empty (df b)) eqn:Ee.
    + intros [= <-]. by rewrite empty_frame_total.
    + unfold total_of. destruct (df b) as [|rows|rows]; try discriminate.
      destruct (existsb is_text _); [discriminate|]. intros [= <-].
      apply resample_W_add_up.
Qed.

Lemma daily_totals_add_up_witness :
  sumZ (map snd [(0, 10); (1, 0); (2, 0); (3, 7)]%Z) = total_of sample_building
  /\ consecutive (map fst [(0, 10); (1, 0); (2, 0); (3, 7)]%Z).
Proof.
  exact (proj1 (daily_totals_add_up sample_building)
               [(0, 10); (1, 0); (2, 0); (3, 7)]%Z eq_refl).
Defined.

Lemma better_first_maximum P best x :
  first_maximum P best -> first_maximum (P ++ [x]) (better best x).
Proof.
  unfold better, first_maximum.
  destruct (num_of (c_kwh x)) as [z|] eqn:Ex.
  - assert (c_kwh x = Num z) as Hx by (by destruct (c_kwh x); simplify_eq/=).
    destruct best as [r0|].
    + intros (pre & post & z0 & -> & Hz0 & Hpre & Hpost). rewrite Hz0. simpl.
      destruct (Z.gtb_spec z z0) as [Hgt|Hle].
      * exists (pre ++ r0 :: post), [], z. repeat split; [done| |constructor].
        apply Forall_app. split; [|constructor].
        -- eapply Forall_impl; [exact Hpre|]. simpl. intros r' H z' Hz'.
           specialize (H z' Hz'). lia.
        -- intros z' Hz'. rewrite Hz0 in Hz'. injection Hz' as <-. lia.
        -- eapply Forall_impl; [exact Hpost|]. simpl. intros r' H z' Hz'.
           specialize (H z' Hz'). lia.
      * exists pre, (post ++ [x]), z0. rewrite <- app_assoc. simpl.
        repeat split; try done. apply Forall_app. split; [done|].
        constructor; [|constructor]. intros z' Hz'. rewrite Hx in Hz'.
        injection Hz' as <-. lia.
    + intros Hall. exists P, [], z. repeat split; [done| |constructor].
      eapply Forall_impl; [exact Hall|]. simpl. intros r' H z' Hz'.
      by rewrite Hz' in H.
  - assert (is_num (c_kwh x) = false) as Hx by (by destruct (c_kwh x)).
    destruct best as [r0|].
    + intros (pre & post & z0 & -> & Hz0 & Hpre & Hpost).
      exists pre, (post ++ [x]), z0. rewrite <- app_assoc. simpl.
      repeat split; try done. apply Forall_app. split; [done|].
      constructor; [|constructor]. intros z' Hz'. by rewrite Hz' in Hx.
    + intros Hall. apply Forall_app. split; [done|]. by constructor.
Qed.

Lemma fold_better_first_maximum rows : forall P best,
  first_maximum P best -> first_maximum (P ++ rows) (fold_left better rows best).
Proof.
  induction rows as [|x rows IH]; intros P best H; simpl.
  - by rewrite app_nil_r.
  - replace (P ++ x :: rows) with ((P ++ [x]) ++ rows) by (by rewrite <- app_assoc).
    by apply IH, better_first_maximum.
Qed.

(** X7.  The peak row of the report is the first row of the combined
    table that holds the largest quantity: every earlier row with a
    number holds a smaller one, no later row holds a larger one.  The
    lookup raises exactly when no row of the table holds a number. *)
Theorem peak_row_is_first_maximum (rows : list CRow) :
  (forall r, peak_row rows = Ok r -> first_maximum rows (Some r))
  /\ (forall e, peak_row rows = Raise e ->
                Forall (fun r => is_num (c_kwh r) = false) rows).
Proof.
  pose proof (fold_better_first_maximum rows [] None) as H.
  simpl in H. unfold peak_row.
  destruct (fold_left better rows None) as [r0|]; split; intros ? [=]; subst.
  - apply H. constructor.
  - apply H. constructor.
Qed.

Lemma peak_row_is_first_maximum_witness :
  first_maximum
    [mkCRow (Stamp 0) NaN "A"; mkCRow (Stamp 60) (Num 7) "A";
     mkCRow (Stamp 0) (Num 9) "B"; mkCRow (Stamp 60) (Num 9) "C"]
    (Some (mkCRow (Stamp 0) (Num 9) "B")).
Proof.
  exact (proj1 (peak_row_is_first_maximum
                  [mkCRow (Stamp 0) NaN "A"; mkCRow (Stamp 60) (Num 7) "A";
                   mkCRow (Stamp 0) (Num 9) "B"; mkCRow (Stamp 60) (Num 9) "C"])
               (mkCRow (Stamp 0) (Num 9) "B") eq_refl).
Defined.

(** X8.  A CSV file that [pd.read_csv] cannot read, whatever the
    exception, is logged as an error and skipped: the manager ends as
    if the file were not in the directory, so the other files are
    processed as they are without it. *)
Theorem unreadable_file_skipped (before after : directory) (file : string)
    (e : exn) (m : BuildingManager) :
  PyStr.endswith file ".csv" = true ->
  fst (fst (load_data (before ++ (file, Unreadable e) :: after) m))
  = fst (fst (load_data (before ++ after) m))
  /\ In (ErrorReading file e)
        (snd (fst (load_data (before ++ (file, Unreadable e) :: after) m)))
  /\ level_of (ErrorReading file e) = ERROR.
Proof.
  intros Hcsv.
  assert (glob_csv (before ++ (file, Unreadable e) :: after)
          = glob_csv before ++ (file, Unreadable e) :: glob_csv after) as Hg.
  { rewrite glob_csv_app. f_equal. unfold glob_csv. simpl. by rewrite Hcsv. }
  repeat split.
  - by rewrite !load_data_manager, Hg, glob_csv_app, !load_files_app.
  - apply load_data_log_incl; [rewrite Hg; by destruct (glob_csv before)|].
    rewrite Hg, load_files_app. simpl. rewrite in_app_iff. right. simpl. auto.
Qed.

Lemma unreadable_file_skipped_witness :
  loaded broken_dir
  = loaded [("A.csv", Frame two_columns [mkRow (Stamp 28800) (Num 10)]);
            ("B.csv", Frame two_columns [mkRow (Stamp 28800) (Num 7)])]
  /\ In (ErrorReading "broken.csv" EmptyDataError) (load_log broken_dir).
Proof.
  destruct (unreadable_file_skipped
              [("A.csv", Frame two_columns [mkRow (Stamp 28800) (Num 10)])]
              [("B.csv", Frame two_columns [mkRow (Stamp 28800) (Num 7)])]
              "broken.csv" EmptyDataError BuildingManager_init eq_refl)
    as (H1 & H2 & _).
  split; [exact H1 | exact H2].
Defined.

Lemma dict_get_In {V : Type} n (v : V) d : dict_get n d = Some v -> In (n, v) d.
Proof.
  induction d as [|[k x] d IH]; simpl; [done|].
  destruct (String.eqb k n) eqn:E.
  - apply String.eqb_eq in E. intros [= ->]. left. by subst.
  - intros H. right. by apply IH.
Qed.

Lemma Forall_dict_set {V : Type} (P : string * V -> Prop) k v d :
  Forall P d -> P (k, v) -> Forall P (dict_set k v d).
Proof.
  intros Hd Hv. induction Hd as [|[k' v'] d Hx Hd IH]; simpl.
  - by constructor.
  - destruct (String.eqb k' k); by constructor.
Qed.

Lemma dict_set_key_In {V : Type} k (v : V) d x :
  In x (map fst (dict_set k v d)) -> x = k \/ In x (map fst d).
Proof.
  induction d as [|[k' v'] d IH]; simpl.
  - intros [<-|[]]. by left.
  - destruct (String.eqb_spec k' k) as [->|Hne]; simpl.
    + intros [<-|H]; [by left|right; by right].
    + intros [<-|H]; [right; by left|].
      destruct (IH H) as [->|H']; [by left|right; by right].
Qed.

Lemma dict_set_keys {V : Type} k (v : V) d :
  NoDup (map fst d) -> NoDup (map fst (dict_set k v d)).
Proof.
  induction d as [|[k' v'] d IH]; simpl; intros Hnd.
  - apply NoDup_singleton.
  - apply NoDup_cons in Hnd as [Hk Hnd].
    destruct (String.eqb_spec k' k) as [->|Hne]; simpl.
    + by apply NoDup_cons.
    + apply NoDup_cons. split; [|by apply IH].
      rewrite list_elem_of_In. intros H.
      destruct (dict_set_key_In _ _ _ _ H) as [->|H']; [done|].
      by apply Hk, list_elem_of_In.
Qed.

(** A property of the entries of [self.buildings] that each file
    establishes for its building holds of all entries in the end. *)
Lemma buildings_Forall (P : string * Building -> Prop) fs :
  (forall f bs, In f fs -> passes f = true -> Forall P bs ->
                P (stem (fst f), next_building f bs)) ->
  forall st, Forall P (l_buildings st) ->
             Forall P (l_buildings (fst (load_files fs st))).
Proof.
  intros Hstep st. rewrite load_files_fold.
  assert (forall gs, (forall f, In f gs -> In f fs) ->
            forall st, Forall P (l_buildings st) ->
              Forall P (l_buildings (fold_left (fun s f => fst (load_file f s)) gs st)))
    as H; [|by apply H].
  induction gs as [|f gs IH]; intros Hsub st' Hst'; simpl; [done|].
  apply IH; [intros; apply Hsub; by right|].
  rewrite load_file_state. destruct (passes f) eqn:Ep; [|done]. simpl.
  apply Forall_dict_set; [done|]. apply Hstep; [apply Hsub; by left|done..].
Qed.

Lemma building_of_dict (P : string * Building -> Prop) (f : string * csv) bs :
  Forall P bs -> P (stem (fst f), Building_init (stem (fst f))) ->
  P (stem (fst f),
     default (Building_init (stem (fst f))) (dict_get (stem (fst f)) bs)).
Proof.
  intros Hbs Hinit. destruct (dict_get (stem (fst f)) bs) as [b0|] eqn:E; [|done].
  simpl. apply dict_get_In in E. rewrite Forall_forall in Hbs.
  by apply Hbs, list_elem_of_In.
Qed.

Lemma buildings_in_step fs st :
  Forall (fun nb => in_step (snd nb)) (l_buildings st) ->
  Forall (fun nb => in_step (snd nb)) (l_buildings (fst (load_files fs st))).
Proof.
  apply buildings_Forall. intros f bs _ _ Hbs.
  pose proof (building_of_dict (fun nb => in_step (snd nb)) f bs Hbs eq_refl) as H0.
  unfold in_step, next_building in *. simpl in *.
  set (b0 := default _ _) in *.
  destruct (readings b0 ++ map reading_of (usable f)) as [|r rs] eqn:E; [|done].
  simpl. apply app_eq_nil in E as [E _]. by rewrite H0, E.
Qed.

Lemma loaded_in_step dir :
  Forall (fun nb => in_step (snd nb)) (buildings (loaded dir)).
Proof.
  rewrite buildings_loaded. apply buildings_in_step. constructor.
Qed.

Lemma insert_sorted_sorted r l :
  StronglySorted Z.le (map fst l) ->
  StronglySorted Z.le (map fst (insert_sorted r l)).
Proof.
  induction l as [|x l IH]; simpl; intros Hs.
  - repeat constructor.
  - apply StronglySorted_inv in Hs as [Hs Hx].
    destruct (Z.ltb_spec (fst r) (fst x)); simpl.
    + constructor; [by constructor|]. constructor; [lia|].
      eapply Forall_impl; [exact Hx|]. simpl. intros; lia.
    + constructor; [by apply IH|].
      assert (Forall (Z.le (fst x)) (map fst (r :: l))) as Hall
        by (by constructor).
      eapply Permutation_Forall; [|exact Hall].
      apply Permutation_map. symmetry. apply insert_sorted_perm.
Qed.

Lemma sort_index_sorted l : StronglySorted Z.le (map fst (sort_index l)).
Proof.
  induction l as [|r l IH]; simpl; [constructor|]. by apply insert_sorted_sorted.
Qed.

(** X9.  After [load_data], whatever the directory holds, the frame of
    every building is in step with its readings: empty while the
    building has no reading, indexed by timestamp in ascending order
    (with exactly the building's readings as rows) when every
    timestamp parses, and the unindexed frame of line 47 otherwise. *)
Theorem building_table_sorted (dir : directory) (n : string) (b : Building) :
  In (n, b) (buildings (loaded dir)) -> frame_shape b.
Proof.
  intros Hin. pose proof (loaded_in_step dir) as H.
  rewrite Forall_forall in H. specialize (H (n, b)).
  rewrite list_elem_of_In in H. specialize (H Hin). simpl in H.
  unfold in_step, frame_of in H. unfold frame_shape.
  destruct (readings b) as [|r rs] eqn:E; [by rewrite H|].
  destruct (forallb reading_ok (r :: rs)) eqn:Eok; rewrite H; [|done].
  split; [apply sort_index_sorted|]. split; [apply sort_index_perm|done].
Qed.

Lemma building_table_sorted_witness :
  frame_shape
    {| name := "A";
       readings := [{| timestamp := Stamp 72000; kwh := Num 4 |};
                    {| timestamp := Stamp 28800; kwh := Num 3 |}];
       df := IndexedDf [(28800, Num 3); (72000, Num 4)]%Z |}.
Proof.
  apply (building_table_sorted
           [("A.csv", Frame two_columns [mkRow (Stamp 72000) (Num 4);
                                         mkRow (Stamp 28800) (Num 3)])] "A").
  vm_compute. auto.
Defined.

Lemma building_keys_distinct dir :
  NoDup (map fst (buildings (loaded dir))).
Proof.
  rewrite buildings_loaded, load_files_fold.
  assert (forall gs st, NoDup (map fst (l_buildings st)) ->
            NoDup (map fst (l_buildings
               (fold_left (fun s f => fst (load_file f s)) gs st)))) as H.
  { induction gs as [|f gs IH]; intros st Hst; simpl; [done|].
    apply IH. rewrite load_file_state. destruct (passes f); [|done].
    simpl. by apply dict_set_keys. }
  apply H. simpl. apply NoDup_nil_2.
Qed.

(** X10.  [self.buildings] holds one building per file stem: after
    [load_data] on a fresh manager the keys are distinct, and every
    building is filed under its own name, which is the stem of a CSV
    file of the directory that has both required columns. *)
Theorem buildings_keyed_by_stem (dir : directory) :
  NoDup (map fst (buildings (loaded dir)))
  /\ Forall (keyed_by_stem (glob_csv dir)) (buildings (loaded dir)).
Proof.
  split; [apply building_keys_distinct|]. rewrite buildings_loaded.
  - apply buildings_Forall; [|constructor].
    intros f bs Hf Hp Hbs. split; simpl; [|eauto].
    refine (building_of_dict (fun nb => name (snd nb) = fst nb) f bs _ eq_refl).
    eapply Forall_impl; [exact Hbs|]. by intros ? [? _].
Qed.

Lemma sumZ_app l1 l2 : sumZ (l1 ++ l2) = (sumZ l1 + sumZ l2)%Z.
Proof. induction l1 as [|z l1 IH]; simpl; lia. Qed.

Lemma nums_app l1 l2 : nums (l1 ++ l2) = nums l1 ++ nums l2.
Proof. unfold nums. apply omap_app. Qed.

Lemma weight_app r1 r2 : weight (r1 ++ r2) = (weight r1 + weight r2)%Z.
Proof. unfold weight. by rewrite map_app, nums_app, sumZ_app. Qed.

Lemma cells_in_all rows : cells_in (fun _ => 0%Z) 0 rows = map snd rows.
Proof.
  unfold cells_in. induction rows as [|r rows IH]; simpl; [done|].
  by f_equal.
Qed.

Lemma sort_index_total rows :
  sumZ (nums (map snd (sort_index rows))) = sumZ (nums (map snd rows)).
Proof.
  rewrite <- !cells_in_all. apply (bin_total_sort (fun _ => 0%Z) 0%Z).
Qed.

(** Sorting by timestamp does not change what a building consumed. *)
Lemma total_of_in_step b : in_step b -> total_of b = weight (readings b).
Proof.
  unfold in_step, total_of, weight, frame_of. intros ->.
  destruct (readings b) as [|r rs]; [done|].
  destruct (forallb reading_ok (r :: rs)); [|done].
  cbn [kwh_column]. by rewrite sort_index_total, snd_parsed.
Qed.

Lemma weight_dict_set n b bs :
  sumZ (map (fun nb => weight (readings (snd nb))) (dict_set n b bs))
  = (sumZ (map (fun nb => weight (readings (snd nb))) bs)
     - weight (readings_of n bs) + weight (readings b))%Z.
Proof.
  assert (weight [] = 0%Z) as H0 by done.
  unfold readings_of. induction bs as [|[k x] bs IH]; simpl.
  - lia.
  - destruct (String.eqb k n); simpl; lia.
Qed.

(** The buildings between them hold what the files with both columns
    hold. *)
Lemma weight_load_files fs : forall st,
  sumZ (map (fun nb => weight (readings (snd nb)))
            (l_buildings (fst (load_files fs st))))
  = (sumZ (map (fun nb => weight (readings (snd nb))) (l_buildings st))
     + sumZ (nums (flat_map (fun f => map row_kwh (usable f)) fs)))%Z.
Proof.
  intros st. rewrite load_files_fold. revert st.
  induction fs as [|f fs IH]; intros st; simpl; [lia|].
  rewrite IH, load_file_state, nums_app, sumZ_app.
  assert (weight (map reading_of (usable f))
          = sumZ (nums (map row_kwh (usable f)))) as <-.
  { unfold weight. by rewrite map_map. }
  destruct (passes f) eqn:Ep.
  - cbn [l_buildings]. rewrite weight_dict_set.
    unfold next_building, readings_of. cbn [readings]. rewrite weight_app.
    destruct (dict_get (stem (fst f)) (l_buildings st)); simpl; lia.
  - assert (usable f = []) as ->; [|unfold weight; simpl; lia].
    unfold passes, usable in *. destruct (snd f); [done|]. by rewrite Ep.
Qed.

(** The totals in the statistics table are the totals of the frames
    the loop went through. *)
Lemma report_stats_total xs : forall st lp,
  rfold report_building xs st = Ok lp ->
  stats_total (building_stats lp)
  = (stats_total (building_stats st)
     + sumZ (map (fun nb => total_of (snd nb)) xs))%Z.
Proof.
  induction xs as [|nb xs IH]; intros st lp; simpl.
  - intros [= ->]. lia.
  - intros (st' & Hst' & Hlp)%rbind_Ok. rewrite (IH _ _ Hlp).
    unfold report_building in Hst'.
    destruct (df_empty (df (snd nb))) eqn:Ee.
    + injection Hst' as <-. rewrite (empty_frame_total _ Ee). lia.
    + apply rbind_Ok in Hst' as (t & Ht & [= <-]). cbn [building_stats].
      unfold stats_total. rewrite map_app, sumZ_app. simpl.
      unfold series_sum in Ht. destruct (existsb _ _); [done|].
      injection Ht as <-. unfold total_of. lia.
Qed.

(** X11.  When every timestamp of the input parses and the report is
    produced, the total campus consumption it prints is the sum of the
    "Total (kWh)" column of the building statistics it writes to
    building_summary.csv. *)
Theorem campus_total_is_sum_of_buildings (dir : directory) (out : outdir)
    (lines : list summary_line) :
  stamps_parse dir = true ->
  snd (generate_summary_report (loaded dir) out) = Ok lines ->
  exists stats,
    fst (fst (generate_summary_report (loaded dir) out)) !! "building_summary.csv"
    = Some (StatsTable stats)
    /\ In (TotalConsumption (stats_total stats)) lines.
Proof.
  intros Hok. unfold generate_summary_report.
  destruct (total_consumption (loaded dir)) as [t|e] eqn:Et; [|done].
  destruct (rfold report_building _ _) as [lp|e] eqn:El; [|done].
  destruct (if combined_empty (loaded dir) then _ else _) as [peak|e]; [|done].
  cbn [fst snd]. intros [= <-]. exists (building_stats lp). split.
  - by rewrite !lookup_insert_ne, lookup_insert_eq by done.
  - apply (report_stats_total _ _ _) in El as ->.
    rewrite total_consumption_rows, combined_rows_loaded, combined_cells in Et
      by done.
    unfold series_sum in Et. destruct (existsb _ _); [done|].
    injection Et as <-. do 2 right. left. f_equal.
    pose proof (loaded_in_step dir) as Hstep.
    assert (sumZ (map (fun nb => total_of (snd nb)) (buildings (loaded dir)))
            = sumZ (map (fun nb => weight (readings (snd nb)))
                        (buildings (loaded dir)))) as ->.
    { induction Hstep as [|nb bs Hb _ IH]; simpl; [done|].
      by rewrite IH, (total_of_in_step _ Hb). }
    rewrite buildings_loaded, weight_load_files. unfold stats_total. simpl. lia.
Qed.

Lemma campus_total_is_sum_of_buildings_witness :
  exists stats,
    fst (fst (generate_summary_report (loaded tie_dir) ∅)) !! "building_summary.csv"
    = Some (StatsTable stats)
    /\ In (TotalConsumption (stats_total stats))
          [Title; Rule; TotalConsumption 14; HighestConsumer (Some "A") 7;
           PeakLoad (Stamp 28800) (Num 7) "B"].
Proof.
  apply (campus_total_is_sum_of_buildings tie_dir ∅); reflexivity.
Defined.















Lemma report_stats_names xs : forall st lp,
  rfold report_building xs st = Ok lp ->
  map s_building (building_stats lp)
  = map s_building (building_stats st)
    ++ map fst (List.filter (fun nb => negb (df_empty (df (snd nb)))) xs).
Proof.
  induction xs as [|nb xs IH]; intros st lp; simpl.
  - intros [= ->]. by rewrite app_nil_r.
  - intros (st' & Hst' & Hlp)%rbind_Ok. rewrite (IH _ _ Hlp).
    unfold report_building in Hst'.
    destruct (df_empty (df (snd nb))) eqn:Ee; simpl.
    + by injection Hst' as <-.
    + apply rbind_Ok in Hst' as (t & _ & [= <-]). cbn [building_stats].
      by rewrite map_app, <- app_assoc.
Qed.

Lemma in_step_empty b : in_step b -> df_empty (df b) = is_nil (readings b).
Proof.
  unfold in_step, frame_of. intros ->.
  destruct (readings b) as [|r rs] eqn:E; [done|].
  destruct (forallb reading_ok (r :: rs)); [|done].
  pose proof (Permutation_length (sort_index_perm (parsed (r :: rs)))) as H.
  cbn [df_empty is_nil]. by destruct (sort_index (parsed (r :: rs))).
Qed.

Lemma filter_keys_NoDup {V : Type} (p : string * V -> bool) bs :
  NoDup (map fst bs) -> NoDup (map fst (List.filter p bs)).
Proof.
  induction bs as [|x bs IH]; simpl; [done|].
  intros [Hx Hbs]%NoDup_cons. destruct (p x); simpl; [|by apply IH].
  apply NoDup_cons. split; [|by apply IH].
  intros Hin. apply Hx. apply list_elem_of_In in Hin. apply list_elem_of_In.
  apply in_map_iff in Hin as (y & <- & Hy). apply in_map.
  by apply filter_In in Hy as [? _].
Qed.

(** X19.  When the report is produced, building_summary.csv holds one
    row for each building that has at least one reading, in the order
    of [self.buildings], and no two rows bear the same name; a
    building whose files held no row is left out. *)
Theorem stats_table_rows (dir : directory) (out : outdir)
    (lines : list summary_line) :
  snd (generate_summary_report (loaded dir) out) = Ok lines ->
  exists stats,
    fst (fst (generate_summary_report (loaded dir) out)) !! "building_summary.csv"
    = Some (StatsTable stats)
    /\ map s_building stats = map fst (with_readings (loaded dir))
    /\ NoDup (map s_building stats).
Proof.
  unfold generate_summary_report.
  destruct (total_consumption (loaded dir)) as [t|e]; [|done].
  destruct (rfold report_building _ _) as [lp|e] eqn:El; [|done].
  destruct (if combined_empty (loaded dir) then _ else _) as [peak|e]; [|done].
  cbn [fst snd]. intros _. exists (building_stats lp).
  apply report_stats_names in El. cbn [building_stats map app] in El.
  assert (map s_building (building_stats lp)
          = map fst (with_readings (loaded dir))) as Hn.
  { rewrite El. unfold with_readings. f_equal. clear El.
    pose proof (loaded_in_step dir) as Hstep.
    induction Hstep as [|nb bs Hb _ IH]; simpl; [done|].
    by rewrite IH, (in_step_empty _ Hb). }
  split; [by rewrite !lookup_insert_ne, lookup_insert_eq by done|].
  split; [done|]. rewrite Hn.
  apply filter_keys_NoDup, building_keys_distinct.
Qed.

Lemma stats_table_rows_witness :
  exists stats,
    fst (fst (generate_summary_report (loaded tie_dir) ∅)) !! "building_summary.csv"
    = Some (StatsTable stats)
    /\ map s_building stats = ["A"; "B"]
    /\ NoDup (map s_building stats).
Proof.
  apply (stats_table_rows tie_dir ∅
           [Title; Rule; TotalConsumption 14; HighestConsumer (Some "A") 7;
            PeakLoad (Stamp 28800) (Num 7) "B"]).
  reflexivity.
Defined.

End EnergyExtras.

Module WeatherExtras.
Import PyStr PyStrFacts Weather.

Lemma is_space_lower c : is_space (lower_char c) = is_space c.
Proof. by destruct c as [[] [] [] [] [] [] [] []]. Qed.

Lemma lower_app s t : lower (s +:+ t) = lower s +:+ lower t.
Proof. induction s as [|c s IH]; [done|]. rewrite !app_cons. simpl. by rewrite IH. Qed.

Lemma lower_rev s : lower (String.rev s) = String.rev (lower s).
Proof.
  induction s as [|c s IH]; [done|]. simpl.
  by rewrite !rev_cons, lower_app, IH.
Qed.

Lemma replace_app a b s t :
  replace_char a b (s +:+ t) = replace_char a b s +:+ replace_char a b t.
Proof. induction s as [|c s IH]; [done|]. rewrite !app_cons. simpl. by rewrite IH. Qed.

Lemma replace_rev a b s :
  replace_char a b (String.rev s) = String.rev (replace_char a b s).
Proof.
  induction s as [|c s IH]; [done|]. simpl.
  by rewrite !rev_cons, replace_app, IH.
Qed.

Lemma lower_clean s : starts_clean s -> starts_clean (lower s).
Proof. destruct s as [|c s]; [done|]. simpl. by rewrite is_space_lower. Qed.

Lemma replace_clean s :
  starts_clean s -> starts_clean (replace_char " "%char "_"%char s).
Proof.
  destruct s as [|c s]; [done|]. simpl. by destruct (Ascii.eqb_spec c " "%char).
Qed.

(** A string without a blank at either end is what [strip] returns. *)
Lemma strip_id s : starts_clean s -> starts_clean (String.rev s) -> strip s = s.
Proof.
  intros H1 H2. unfold strip, rstrip.
  by rewrite (lstrip_id s H1), (lstrip_id _ H2), rev_involutive.
Qed.

Lemma strip_ends s : starts_clean (strip s) /\ starts_clean (String.rev (strip s)).
Proof.
  split; [apply rstrip_clean, lstrip_clean|].
  unfold strip, rstrip. rewrite rev_involutive. apply lstrip_clean.
Qed.

Lemma lower_replace_fixed s :
  replace_char " "%char "_"%char
    (lower (replace_char " "%char "_"%char (lower s)))
  = replace_char " "%char "_"%char (lower s).
Proof.
  induction s as [|c s IH]; [done|]. simpl. rewrite IH. f_equal.
  by destruct c as [[] [] [] [] [] [] [] []].
Qed.

Lemma normalize_idemp h : normalize (normalize h) = normalize h.
Proof.
  unfold normalize. destruct (strip_ends h) as [H1 H2].
  rewrite (strip_id (replace_char _ _ _)).
  - apply lower_replace_fixed.
  - by apply replace_clean, lower_clean.
  - rewrite <- replace_rev, <- lower_rev. by apply replace_clean, lower_clean.
Qed.

(** X13.  Normalising the column names of a frame whose names are
    already normalised changes nothing: a name that went through
    strip, lower and the replacement of spaces is left as it is by
    each of the three. *)
Theorem normalize_columns_idempotent (cols : list column) :
  _normalize_columns (_normalize_columns cols) = _normalize_columns cols.
Proof.
  unfold _normalize_columns. rewrite map_map. apply map_ext.
  intros c. simpl. by rewrite normalize_idemp.
Qed.

Lemma in_columns_filter n p cols :
  in_columns n cols = false -> in_columns n (List.filter p cols) = false.
Proof.
  unfold in_columns. induction cols as [|c cols IH]; simpl; [done|].
  intros [Hc Hcols]%orb_false_elim. destruct (p c); simpl; [|by apply IH].
  by rewrite Hc, IH.
Qed.

Lemma in_columns_removed d cols :
  in_columns d (List.filter (fun c => negb (String.eqb (header c) d)) cols) = false.
Proof.
  unfold in_columns. induction cols as [|c cols IH]; simpl; [done|].
  destruct (String.eqb (header c) d) eqn:E; simpl; [done|]. by rewrite E.
Qed.

Lemma is_series_filter d n cols :
  n <> d ->
  is_series n (List.filter (fun c => negb (String.eqb (header c) d)) cols)
  = is_series n cols.
Proof.
  intros Hne. unfold is_series. do 2 f_equal.
  induction cols as [|c cols IH]; simpl; [done|].
  destruct (String.eqb_spec (header c) d) as [Hd|Hd]; simpl.
  - destruct (String.eqb_spec (header c) n) as [Hn|Hn]; [congruence|done].
  - by rewrite IH.
Qed.

Lemma found_mapped cols cands d o :
  _find_first_column cols cands = o ->
  forallb (fun c => is_series c cols) (known o) = true ->
  existsb (String.eqb d) (known o) = false ->
  mapped o cands (List.filter (fun c => negb (String.eqb (header c) d)) cols).
Proof.
  unfold _find_first_column. intros Hf Hs Hd. destruct o as [c|]; simpl in *.
  - apply find_some in Hf as [Hin _]. split; [done|].
    rewrite is_series_filter; [by destruct (is_series c cols)|].
    intros ->. by rewrite String.eqb_refl in Hd.
  - intros c Hc. apply in_columns_filter.
    by apply (find_none _ _ Hf c).
Qed.

(** X14.  When [load_and_clean] returns, the mapping it returns is
    sound for the frame it returns: the date column is known and has
    become the index (no column of the frame bears its name), and each
    of temperature, rainfall and humidity is either the name of
    exactly one column of the frame, taken from its candidate list, or
    None because no candidate is a column of the frame. *)
Theorem load_and_clean_mapping (f : csv) (cols : list column) (m : mapping) :
  load_and_clean f = Ok (cols, m) ->
  (exists d, date m = Some d /\ in_columns d cols = false)
  /\ mapped (temperature m) TEMP_CANDIDATES cols
  /\ mapped (rainfall m) RAIN_CANDIDATES cols
  /\ mapped (humidity m) HUMIDITY_CANDIDATES cols.
Proof.
  unfold load_and_clean. destruct f as [e|raw]; [done|].
  cbv zeta. set (all := _normalize_columns raw).
  intros (date_col & _ & H)%rbind_Ok.
  destruct (forallb _ _) eqn:Es; [|done]. cbn [negb] in H.
  destruct date_col as [d|]; [|done].
  destruct (existsb _ _) eqn:Ed; [done|].
  injection H as <- <-. cbn [date temperature rainfall humidity].
  rewrite !forallb_app in Es. apply andb_prop in Es as [Et [Er Eh]%andb_prop].
  rewrite !existsb_app in Ed.
  apply orb_false_elim in Ed as [Dt [Dr Dh]%orb_false_elim].
  split; [exists d; split; [done | apply in_columns_removed]|].
  by repeat split; eapply found_mapped.
Qed.

Lemma load_and_clean_mapping_witness :
  (exists d, Some "date" = Some d
             /\ in_columns d [mkColumn "temp" false; mkColumn "rainfall" false;
                              mkColumn "station_name" false] = false)
  /\ mapped (Some "temp") TEMP_CANDIDATES
       [mkColumn "temp" false; mkColumn "rainfall" false;
        mkColumn "station_name" false]
  /\ mapped (Some "rainfall") RAIN_CANDIDATES
       [mkColumn "temp" false; mkColumn "rainfall" false;
        mkColumn "station_name" false]
  /\ mapped None HUMIDITY_CANDIDATES
       [mkColumn "temp" false; mkColumn "rainfall" false;
        mkColumn "station_name" false].
Proof.
  apply (load_and_clean_mapping (Table station_table)
           [mkColumn "temp" false; mkColumn "rainfall" false;
            mkColumn "station_name" false]
           {| date := Some "date"; temperature := Some "temp";
              rainfall := Some "rainfall"; humidity := None |}).
  reflexivity.
Defined.

Lemma dateless_columns raw :
  dateless raw ->
  _find_first_column (_normalize_columns raw) DATE_CANDIDATES = None
  /\ List.find (fun c => is_series (header c) (_normalize_columns raw)
                         && datetime_like c) (_normalize_columns raw) = None.
Proof.
  intros H. split.
  - unfold _find_first_column.
    destruct (List.find _ DATE_CANDIDATES) as [c|] eqn:E; [|done].
    apply find_some in E as [Hin Hc]. exfalso.
    unfold in_columns, _normalize_columns in Hc.
    rewrite existsb_exists in Hc. destruct Hc as (x & Hx & Heq).
    apply in_map_iff in Hx as (c0 & <- & Hc0). simpl in Heq.
    apply String.eqb_eq in Heq. subst c.
    unfold dateless in H. rewrite Forall_forall in H.
    apply list_elem_of_In in Hc0. by destruct (H _ Hc0).
  - generalize (_normalize_columns raw) at 1. intros all.
    induction H as [|c raw [Hc _] _ IH]; simpl; [done|].
    by rewrite Hc, andb_false_r.
Qed.

(** X15.  A table without a date (no header is a date candidate once
    normalised, and no column parses as dates) is rejected:
    [load_and_clean] raises, and [main], once it has its output
    directory and an existing path to such a table, logs the failure
    and returns 3 without producing any output. *)
Theorem table_without_date_rejected
    (produce_outputs : list column -> mapping -> string -> result unit)
    (a : args) (w : world) (p : string) (raw : list column) :
  mkdir w (outdir_arg a) = Ok tt ->
  chosen_path a w = Ok p ->
  path_exists w p = true ->
  read_csv w p = Table raw ->
  dateless raw ->
  exists e,
    load_and_clean (Table raw) = Raise e
    /\ exit_code (main produce_outputs a w) = Ok 3%Z
    /\ errors (main produce_outputs a w) = [FailedToLoadClean e].
Proof.
  intros Hm Hp He Hr Hd.
  assert (exists e, load_and_clean (Table raw) = Raise e) as [e Hl].
  { unfold load_and_clean. cbv zeta.
    destruct (dateless_columns raw Hd) as [-> ->]. cbn [option_map rbind].
    destruct (negb _); eauto. }
  exists e. split; [done|].
  unfold path_exists, read_csv in He, Hr. unfold main. rewrite Hm, Hp.
  destruct (resolve w p) as [q|e0]; [|done]. by rewrite He, Hr, Hl.
Qed.

Lemma table_without_date_rejected_witness :
  exists e,
    load_and_clean (Table [mkColumn "Station" false; mkColumn "Temp" false])
    = Raise e
    /\ exit_code (main (fun _ _ _ => Ok tt) (mkArgs (Some "w.csv") "out")
                       station_world) = Ok 3%Z
    /\ errors (main (fun _ _ _ => Ok tt) (mkArgs (Some "w.csv") "out")
                    station_world) = [FailedToLoadClean e].
Proof.
  apply (table_without_date_rejected (fun _ _ _ => Ok tt)
           (mkArgs (Some "w.csv") "out") station_world "w.csv"
           [mkColumn "Station" false; mkColumn "Temp" false]);
    try reflexivity.
  unfold dateless.
  repeat (apply Forall_cons; split;
          [split; [reflexivity | vm_compute; intuition discriminate]|]).
  constructor.
Defined.

End WeatherExtras.
